(** * pdfs-to-markdown: the orchestration pipeline, embedded and verified

  A shallow embedding of [src/utils.py], [src/config.py],
  [src/pdf_to_markdown/model/result.py] and
  [src/pdf_to_markdown/orchestrator.py].

  - Python [str] is [string]; a character is a code point below 256 and
    [\w], [\s] follow CPython's Unicode tables on that range.
  - A Python [dict] is an insertion-ordered association list.
  - The file system is a finite map from directory paths to their entries;
    a path that is present is a directory.  The transformer, the clock and
    the I/O failures that the code catches or lets through are read from an
    environment record; a write to a file that was opened succeeds.
  - A call either returns a value or raises; [run] threads the world
    (file system and the log of transformer calls) through every step. *)

From Stdlib Require Import String Ascii List ZArith Bool Lia Permutation Sorted.
From Stdlib Require Import DecimalString.
Import ListNotations.

Local Open Scope string_scope.
Local Open Scope list_scope.

Infix "+++" := String.append (at level 60, right associativity).

(** ** Python string primitives *)

Module PyStr.

Definition code (c : ascii) : N := N_of_ascii c.

Definition between (lo hi : N) (c : ascii) : bool :=
  (lo <=? code c)%N && (code c <=? hi)%N.

Definition one_of (l : list N) (c : ascii) : bool :=
  existsb (N.eqb (code c)) l.

(** [\w] of the [re] module on [str]: alphanumeric (letters, decimals,
    digits, numerics) or the underscore. *)
Definition is_word (c : ascii) : bool :=
  between 48 57 c || between 65 90 c || (code c =? 95)%N || between 97 122 c
  || one_of [170; 178; 179; 181; 185; 186; 188; 189; 190]%N c
  || between 192 214 c || between 216 246 c || between 248 255 c.

(** [\s] of the [re] module on [str]. *)
Definition is_space (c : ascii) : bool :=
  between 9 13 c || between 28 32 c || one_of [133; 160]%N c.

Fixpoint map_chars (f : ascii -> ascii) (s : string) : string :=
  match s with
  | EmptyString => EmptyString
  | String c s' => String (f c) (map_chars f s')
  end.

Fixpoint all_chars (p : ascii -> bool) (s : string) : bool :=
  match s with
  | EmptyString => true
  | String c s' => p c && all_chars p s'
  end.

(** [s.lstrip(c)], [s.rstrip(c)] and [s.strip(c)] for a one-character set. *)
Fixpoint lstrip (c : ascii) (s : string) : string :=
  match s with
  | EmptyString => EmptyString
  | String a s' => if Ascii.eqb a c then lstrip c s' else s
  end.

Fixpoint rstrip (c : ascii) (s : string) : string :=
  match s with
  | EmptyString => EmptyString
  | String a s' =>
      match rstrip c s' with
      | EmptyString => if Ascii.eqb a c then EmptyString else String a EmptyString
      | r => String a r
      end
  end.

Definition strip (c : ascii) (s : string) : string := rstrip c (lstrip c s).

(** [s.startswith(p)] and [s.endswith(q)]. *)
Definition startswith (s p : string) : bool := prefix p s.

Definition endswith (s q : string) : bool :=
  (String.length q <=? String.length s)%nat
  && String.eqb (substring (String.length s - String.length q) (String.length q) s) q.

(** [s.rfind(c)]: the index of the last occurrence, [None] for Python's -1. *)
Fixpoint rfind (c : ascii) (s : string) : option nat :=
  match s with
  | EmptyString => None
  | String a s' =>
      match rfind c s' with
      | Some i => Some (S i)
      | None => if Ascii.eqb a c then Some 0%nat else None
      end
  end.

(** [s.split(c)]. *)
Fixpoint split (c : ascii) (s : string) : list string :=
  match s with
  | EmptyString => [EmptyString]
  | String a s' =>
      if Ascii.eqb a c then EmptyString :: split c s'
      else match split c s' with
           | h :: t => String a h :: t
           | [] => [String a EmptyString]
           end
  end.

(** [sep.join(l)]. *)
Definition join (sep : string) (l : list string) : string := String.concat sep l.

(** [str(n)] for a non-negative integer. *)
Definition str_of_N (n : N) : string := NilZero.string_of_uint (N.to_uint n).

(** [str(z)] for an integer. *)
Definition str_of_Z (z : Z) : string :=
  match z with
  | Zneg p => "-" +++ str_of_N (Npos p)
  | _ => str_of_N (Z.to_N z)
  end.

(** [sorted(l)] and [l.sort(key=..)] are stable; [insert_by] puts [x] in
    front of the first element that is not strictly before it. *)
Section Sorting.
Context {A : Type} (before : A -> A -> bool).

Fixpoint insert_by (x : A) (l : list A) : list A :=
  match l with
  | [] => [x]
  | y :: l' => if before y x then y :: insert_by x l' else x :: l
  end.

Definition sort_by (l : list A) : list A := fold_right insert_by [] l.
End Sorting.

End PyStr.

(** ** pathlib: the pure part of paths *)

Module PurePath.
Import PyStr.

(** [PurePosixPath(s).name]: the last component, empty and ["."] components
    dropped. *)
Definition name_of (s : string) : string :=
  last (filter (fun p => negb (String.eqb p "" || String.eqb p ".")) (split "/" s)) "".

(** [stem] of a name: the name without its last suffix; a leading or a
    trailing dot starts no suffix. *)
Definition stem_of_name (name : string) : string :=
  match rfind "." name with
  | Some i =>
      if (0 <? i)%nat && (i <? String.length name - 1)%nat
      then substring 0 i name else name
  | None => name
  end.

(** [Path(s).stem]. *)
Definition stem (s : string) : string := stem_of_name (name_of s).

(** [dir / name]. *)
Definition join_path (dir name : string) : string := dir +++ "/" +++ name.

End PurePath.

(** ** Python dictionaries

    Keys are strings and iteration follows insertion order; assigning to a key
    that is present keeps its place. *)

Module Dict.

Definition dict (V : Type) : Type := list (string * V).

Fixpoint get {V} (d : dict V) (k : string) : option V :=
  match d with
  | [] => None
  | (k', v) :: d' => if String.eqb k' k then Some v else get d' k
  end.

(** [d[k] = v]. *)
Fixpoint set {V} (d : dict V) (k : string) (v : V) : dict V :=
  match d with
  | [] => [(k, v)]
  | (k', v') :: d' =>
      if String.eqb k' k then (k', v) :: d' else (k', v') :: set d' k v
  end.

Definition keys {V} (d : dict V) : list string := map fst d.

Definition values {V} (d : dict V) : list V := map snd d.

(** [d.get(k, [])]. *)
Definition get_list {A} (d : dict (list A)) (k : string) : list A :=
  match get d k with
  | Some l => l
  | None => []
  end.

(** [d.setdefault(k, []).append(x)]. *)
Definition setdefault_append {A} (d : dict (list A)) (k : string) (x : A) : dict (list A) :=
  set d k (get_list d k ++ [x]).

End Dict.

(** ** Exceptions and calls that may raise *)

Module Py.

Inductive exn : Type :=
| FileNotFoundError (msg : string)
| ValueError (msg : string)
| TypeError (msg : string)
| OSError (msg : string).

Inductive outcome (A : Type) : Type :=
| Returns (a : A)
| Raises (e : exn).

Arguments Returns {A} a.
Arguments Raises {A} e.

End Py.

(** ** The file system and the environment of a run *)

Module FS.
Import PyStr.

(** A [pathlib.Path] of a directory entry: the directory and the last
    component. *)
Record Path : Type := mkPath { parent : string; name : string }.

(** Paths of one directory compare by their last component. *)
Definition path_ltb (p q : Path) : bool := String.ltb (name p) (name q).

(** [sorted(paths)]. *)
Definition sorted (l : list Path) : list Path := sort_by path_ltb l.

#[warnings="-register-all"]
Inductive node : Type :=
| File (nm : string) (mtime : Z) (text : string)
| Dir (nm : string) (mtime : Z) (children : list node).

Definition node_name (n : node) : string :=
  match n with
  | File nm _ _ => nm
  | Dir nm _ _ => nm
  end.

Definition node_mtime (n : node) : Z :=
  match n with
  | File _ t _ => t
  | Dir _ t _ => t
  end.

Definition is_dir (n : node) : bool :=
  match n with
  | File _ _ _ => false
  | Dir _ _ _ => true
  end.

(** The directories that the run is pointed at, by path, each with its
    entries in the order in which the system lists them. *)
Definition fs : Type := Dict.dict (list node).

Definition exists_dir (files : fs) (dir : string) : bool :=
  match Dict.get files dir with
  | Some _ => true
  | None => false
  end.

Definition listdir (files : fs) (dir : string) : list node :=
  match Dict.get files dir with
  | Some entries => entries
  | None => []
  end.

(** [fnmatch] of a name against [pre*suf], where [pre] and [suf] hold no
    wildcard. *)
Definition fnmatch_affix (pre suf nm : string) : bool :=
  startswith nm pre && endswith nm suf
  && (String.length pre + String.length suf <=? String.length nm)%nat.

(** Creating or truncating the file [nm] among [entries]. *)
Fixpoint put_file (entries : list node) (nm : string) (mtime : Z) (text : string) : list node :=
  match entries with
  | [] => [File nm mtime text]
  | n :: rest =>
      if String.eqb (node_name n) nm then File nm mtime text :: rest
      else n :: put_file rest nm mtime text
  end.

Definition has_dir_named (entries : list node) (nm : string) : bool :=
  existsb (fun n => is_dir n && String.eqb (node_name n) nm) entries.

(** What a run reads from outside: the transformer ([None] when it raises),
    which system calls fail, and the clock in whole seconds. *)
Record Env : Type := mkEnv {
  transform : Path -> option string;
  mkdir_ok : string -> bool;
  open_ok : Path -> bool;
  write_text_ok : Path -> bool;
  time_start : Z;
  time_stop : Z;
  time_report : Z;
  mtime_of_write : Path -> Z
}.

(** The state a run threads: the file system and the transformer calls made
    so far, oldest first. *)
Record World : Type := mkWorld { files : fs; calls : list Path }.

Definition M (A : Type) : Type := World -> Py.outcome A * World.

Definition ret {A} (a : A) : M A := fun w => (Py.Returns a, w).

Definition raise {A} (e : Py.exn) : M A := fun w => (Py.Raises e, w).

Definition bind {A B} (m : M A) (k : A -> M B) : M B :=
  fun w =>
    match m w with
    | (Py.Returns a, w') => k a w'
    | (Py.Raises e, w') => (Py.Raises e, w')
    end.

Definition lift {A} (o : Py.outcome A) : M A := fun w => (o, w).

Definition get_files : M fs := fun w => (Py.Returns (files w), w).

Definition set_files (f : fs) : M unit :=
  fun w => (Py.Returns tt, mkWorld f (calls w)).

Definition log_call (p : Path) : M unit :=
  fun w => (Py.Returns tt, mkWorld (files w) (calls w ++ [p])).

(** A [for] loop whose body may raise. *)
Fixpoint for_each {A S} (body : A -> S -> M S) (l : list A) (s : S) : M S :=
  match l with
  | [] => ret s
  | a :: l' => bind (body a s) (for_each body l')
  end.

(** [dir.mkdir(parents=True, exist_ok=True)]. *)
Definition mkdir (env : Env) (dir : string) : M unit :=
  fun w =>
    if exists_dir (files w) dir then (Py.Returns tt, w)
    else if mkdir_ok env dir
         then (Py.Returns tt, mkWorld (Dict.set (files w) dir []) (calls w))
         else (Py.Raises (Py.OSError ("Cannot create directory: " +++ dir)), w).

(** Whether [open(p, "w")] succeeds. *)
Definition can_open (env : Env) (files : fs) (p : Path) : bool :=
  exists_dir files (parent p) && open_ok env p
  && negb (has_dir_named (listdir files (parent p)) (name p)).

(** The file [p] as it is once closed with [text] written to it. *)
Definition store (env : Env) (files : fs) (p : Path) (text : string) : fs :=
  Dict.set files (parent p)
    (put_file (listdir files (parent p)) (name p) (mtime_of_write env p) text).

End FS.

Declare Scope py_scope.
Notation "x <- c ;; k" := (FS.bind c (fun x => k))
  (at level 61, c at next level, right associativity) : py_scope.
Notation "c ;;; k" := (FS.bind c (fun _ => k))
  (at level 61, right associativity) : py_scope.

(** ** src/config.py *)

Module Config.

Record Config : Type := mkConfig {
  IMPORTS_DIR : string;
  EXPORTS_DIR : string;
  OUTPUT_FILENAME : string;
  SECTION_SEPARATOR : string;
  VERBOSE : bool;
  ENABLE_OCR : bool;
  SKIP_ALREADY_CONVERTED : bool;
  DO_TABLE_STRUCTURE : bool;
  DO_FIGURE_ENRICHMENT : bool
}.

Definition SUPPORTED_FORMATS : list string :=
  [".pdf"; ".docx"; ".pptx"; ".xlsx"; ".html"; ".md"; ".txt"].

Definition config : Config :=
  mkConfig "imports" "exports" "combined_documents.md" "___" true true true true true.

End Config.

(** ** src/utils.py *)

Module Utils.
Import PyStr.

(** [re.sub(r'[^\w\s-]', '_', name)]. *)
Definition replace_problematic (name : string) : string :=
  map_chars (fun c => if is_word c || is_space c || Ascii.eqb c "-" then c else "_"%char) name.

Definition is_gap (c : ascii) : bool := is_space c || Ascii.eqb c "_".

(** [re.sub(r'[\s_]+', '_', s)]: every maximal run becomes one underscore. *)
Fixpoint collapse_gaps (s : string) : string :=
  match s with
  | EmptyString => EmptyString
  | String c s' =>
      if is_gap c then
        match s' with
        | String c' _ => if is_gap c' then collapse_gaps s' else String "_" (collapse_gaps s')
        | EmptyString => String "_" EmptyString
        end
      else String c (collapse_gaps s')
  end.

Definition sanitize_filename (filename : string) : string :=
  let name := PurePath.stem filename in
  let sanitized := replace_problematic name in
  let sanitized := collapse_gaps sanitized in
  let sanitized := strip "_" sanitized in
  if String.eqb sanitized "" then "untitled" else sanitized.

(** [exports_dir.glob(f"{sanitized_folder_name}_*.md")]. *)
Definition glob_converted (folder_name : string) (entries : list FS.node) : list FS.node :=
  filter (fun n => FS.fnmatch_affix (sanitize_filename folder_name +++ "_") ".md" (FS.node_name n))
         entries.

(** [dir.glob(f"*{format_ext}")]. *)
Definition glob_ext (dir : string) (entries : list FS.node) (format_ext : string) : list FS.Path :=
  map (fun n => FS.mkPath dir (FS.node_name n))
      (filter (fun n => endswith (FS.node_name n) format_ext) entries).

(** The loop [for format_ext in SUPPORTED_FORMATS: found.extend(dir.glob(..))]. *)
Definition supported_in (dir : string) (entries : list FS.node) : list FS.Path :=
  flat_map (glob_ext dir entries) Config.SUPPORTED_FORMATS.

Definition no_files_message : string :=
  "No supported files found in imports directory or its subdirectories. "
  +++ "Supported formats: " +++ join ", " (sort_by String.ltb Config.SUPPORTED_FORMATS).

(** The body of the loop over [imports_dir.iterdir()]. *)
Definition scan_item (imports_dir : string) (processing_map : Dict.dict (list FS.Path))
    (item : FS.node) : Dict.dict (list FS.Path) :=
  match item with
  | FS.Dir nm _ children =>
      if negb (startswith nm ".") then
        match supported_in (PurePath.join_path imports_dir nm) children with
        | [] => processing_map
        | supported_files => Dict.set processing_map nm (FS.sorted supported_files)
        end
      else processing_map
  | FS.File _ _ _ => processing_map
  end.

Definition discover_processing_folders (files : FS.fs) (imports_dir : string)
  : Py.outcome (Dict.dict (list FS.Path)) :=
  match Dict.get files imports_dir with
  | None => Py.Raises (Py.FileNotFoundError ("Imports directory not found: " +++ imports_dir))
  | Some entries =>
      let processing_map :=
        match supported_in imports_dir entries with
        | [] => []
        | direct_files => Dict.set [] "_root" (FS.sorted direct_files)
        end in
      let processing_map := fold_left (scan_item imports_dir) entries processing_map in
      match processing_map with
      | [] => Py.Raises (Py.ValueError no_files_message)
      | _ => Py.Returns processing_map
      end
  end.

Definition check_folder_already_converted (files : FS.fs) (folder_name exports_dir : string) : bool :=
  if negb (FS.exists_dir files exports_dir) then false
  else
    match glob_converted folder_name (FS.listdir files exports_dir) with
    | [] => false
    | _ => true
    end.

(** [existing_files.sort(key=lambda x: x.stat().st_mtime, reverse=True)]. *)
Definition newest_first (l : list FS.node) : list FS.node :=
  sort_by (fun y x => (FS.node_mtime x <? FS.node_mtime y)%Z) l.

Definition get_existing_converted_files (files : FS.fs) (folder_name exports_dir : string)
  : list FS.Path :=
  if negb (FS.exists_dir files exports_dir) then []
  else
    map (fun n => FS.mkPath exports_dir (FS.node_name n))
        (newest_first (glob_converted folder_name (FS.listdir files exports_dir))).

End Utils.

(** ** src/pdf_to_markdown/model/result.py *)

Module Model.

Record ConversionResult : Type := mkResult {
  success : bool;
  output_files : list FS.Path;
  processed_folders : Dict.dict (list string);
  skipped_folders : Dict.dict (list string);
  failed_files : list string;
  total_pages : Z;
  total_images : Z;
  processing_time : Z;
  error_message : option string
}.

(** [ConversionResult()]: the field defaults of the dataclass. *)
Definition new_result : ConversionResult :=
  mkResult false [] [] [] [] 0 0 0 None.

(** The property [output_file]. *)
Definition output_file (r : ConversionResult) : option FS.Path :=
  match output_files r with
  | p :: _ => Some p
  | [] => None
  end.

(** The property [processed_files]. *)
Definition processed_files (r : ConversionResult) : list string :=
  flat_map snd (processed_folders r).

Definition stop_timer (env : FS.Env) (start_time : Z) (r : ConversionResult) : ConversionResult :=
  mkResult (success r) (output_files r) (processed_folders r) (skipped_folders r)
    (failed_files r) (total_pages r) (total_images r)
    (FS.time_stop env - start_time) (error_message r).

(** The field updates that [run] performs. *)
Definition set_success (b : bool) (r : ConversionResult) : ConversionResult :=
  mkResult b (output_files r) (processed_folders r) (skipped_folders r)
    (failed_files r) (total_pages r) (total_images r) (processing_time r) (error_message r).

Definition extend_output_files (l : list FS.Path) (r : ConversionResult) : ConversionResult :=
  mkResult (success r) (output_files r ++ l) (processed_folders r) (skipped_folders r)
    (failed_files r) (total_pages r) (total_images r) (processing_time r) (error_message r).

Definition set_skipped (folder_name : string) (l : list string) (r : ConversionResult)
  : ConversionResult :=
  mkResult (success r) (output_files r) (processed_folders r)
    (Dict.set (skipped_folders r) folder_name l)
    (failed_files r) (total_pages r) (total_images r) (processing_time r) (error_message r).

Definition append_processed (folder_name nm : string) (r : ConversionResult)
  : ConversionResult :=
  mkResult (success r) (output_files r)
    (Dict.setdefault_append (processed_folders r) folder_name nm)
    (skipped_folders r)
    (failed_files r) (total_pages r) (total_images r) (processing_time r) (error_message r).

Definition append_failed (nm : string) (r : ConversionResult) : ConversionResult :=
  mkResult (success r) (output_files r) (processed_folders r) (skipped_folders r)
    (failed_files r ++ [nm]) (total_pages r) (total_images r) (processing_time r)
    (error_message r).

End Model.

(** ** src/pdf_to_markdown/data/file_discovery.py *)

Module FileDiscovery.

Definition discover_processing_folders_grouped (files : FS.fs) (imports_dir : string)
  : Py.outcome (Dict.dict (list FS.Path)) :=
  Utils.discover_processing_folders files imports_dir.

End FileDiscovery.

(** ** src/pdf_to_markdown/orchestrator.py *)

Module Orchestrator.
Import PyStr Model.
Local Open Scope py_scope.

Definition separator : string :=
  String "010" (String "010" "----------------" +++ String "010" (String "010" "")).

Definition nl2 : string := String "010" (String "010" "").

Definition display_name (folder_name : string) : string :=
  if String.eqb folder_name "_root" then "Root Directory" else folder_name.

(** The header block written first to a folder's output file; the dash of
    the source, U+2013, lies outside the modelled characters and is written
    as a hyphen. *)
Definition header (folder_name : string) (count : nat) : string :=
  "# Combined Documents - " +++ display_name folder_name +++ nl2
  +++ "*Generated from " +++ str_of_N (N.of_nat count) +++ " document(s)*" +++ nl2.

(** [exports_path / out_name]: joining with [None] is a type error.  The
    name is taken as one entry of [exports_path], which is what the join gives
    for a name without a slash. *)
Definition join_out (exports_path : string) (out_name : option string) : FS.M FS.Path :=
  match out_name with
  | Some nm => FS.ret (FS.mkPath exports_path nm)
  | None => FS.raise (Py.TypeError "unsupported operand type(s) for /: 'PosixPath' and 'NoneType'")
  end.

(** The body of [for file_path in files], on the text written so far and the
    result: a transformer failure is caught and recorded. *)
Definition file_step (env : FS.Env) (folder_name : string) (file_path : FS.Path)
    (st : string * ConversionResult) : FS.M (string * ConversionResult) :=
  FS.log_call file_path ;;;
  match FS.transform env file_path with
  | Some blob =>
      FS.ret (fst st +++ blob +++ separator,
              append_processed folder_name (FS.name file_path) (snd st))
  | None =>
      FS.ret (fst st, append_failed (FS.name file_path) (snd st))
  end.

(** The body of [for folder_name, files in processing_map.items()]. *)
Definition folder_step (cfg : Config.Config) (env : FS.Env) (exports_path : string)
    (output_filename : option string) (item : string * list FS.Path)
    (result : ConversionResult) : FS.M ConversionResult :=
  let (folder_name, files) := item in
  fs0 <- FS.get_files ;;
  if Config.SKIP_ALREADY_CONVERTED cfg
     && Utils.check_folder_already_converted fs0 folder_name exports_path
  then
    let existing := Utils.get_existing_converted_files fs0 folder_name exports_path in
    FS.ret (extend_output_files existing
              (set_skipped folder_name (map FS.name files) result))
  else
    let out_name :=
      if String.eqb folder_name "_root" then output_filename
      else Some (folder_name +++ ".md") in
    out_path <- join_out exports_path out_name ;;
    if FS.can_open env fs0 out_path then
      st <- FS.for_each (file_step env folder_name) files
              (header folder_name (length files), result) ;;
      fs1 <- FS.get_files ;;
      FS.set_files (FS.store env fs1 out_path (fst st)) ;;;
      FS.ret (extend_output_files [out_path] (snd st))
    else
      FS.ret result.

(** The lines of the summary report; the clock counts whole seconds, so the
    runtime printed with two decimals ends in [.00]. *)
Definition summary_lines (result : ConversionResult) : list string :=
  [ "# Processing Summary";
    "";
    "**Runtime:** " +++ str_of_Z (processing_time result) +++ ".00 s";
    "**Output files:** " +++ str_of_N (N.of_nat (length (output_files result)));
    "**Folders processed:** " +++ str_of_N (N.of_nat (length (processed_folders result)));
    "**Folders skipped:** " +++ str_of_N (N.of_nat (length (skipped_folders result)));
    "" ]
  ++ match failed_files result with
     | [] => []
     | failed => ["## Failed files"] ++ map (fun fname => "- " +++ fname) failed ++ [""]
     end
  ++ ["## Output files"]
  ++ map (fun p => "- " +++ FS.name p) (output_files result).

Definition _generate_summary_report (env : FS.Env) (result : ConversionResult)
    (exports_dir : string) : FS.M unit :=
  let summary_path :=
    FS.mkPath exports_dir ("processing_summary_" +++ str_of_Z (FS.time_report env) +++ ".md") in
  fs0 <- FS.get_files ;;
  if FS.can_open env fs0 summary_path && FS.write_text_ok env summary_path then
    FS.set_files (FS.store env fs0 summary_path (join (String "010" "") (summary_lines result)))
  else
    FS.raise (Py.OSError ("Cannot write " +++ FS.name summary_path)).

Definition run (cfg : Config.Config) (env : FS.Env)
    (imports_dir exports_dir output_filename : option string) : FS.M ConversionResult :=
  let start_time := FS.time_start env in
  let result := new_result in
  let imports_path := match imports_dir with Some p => p | None => Config.IMPORTS_DIR cfg end in
  let exports_path := match exports_dir with Some p => p | None => Config.EXPORTS_DIR cfg end in
  FS.mkdir env exports_path ;;;
  fs0 <- FS.get_files ;;
  processing_map <- FS.lift (FileDiscovery.discover_processing_folders_grouped fs0 imports_path) ;;
  result <- FS.for_each (folder_step cfg env exports_path output_filename) processing_map result ;;
  let result := stop_timer env start_time result in
  let result := set_success (negb (match output_files result with [] => true | _ => false end)) result in
  _generate_summary_report env result exports_path ;;;
  FS.ret result.

(** [convert]: the alias of [run] kept for the old command line. *)
Definition convert := run.

End Orchestrator.

(** ** src/utils.py: formatting and text helpers

    [datetime.now().strftime(..)] is the argument [timestamp]. *)

Module UtilsText.
Import PyStr.

Definition newline : ascii := "010"%char.

Definition format_section_header (timestamp filename : string) : string :=
  "# " +++ Utils.sanitize_filename filename +++ String newline (String newline "")
  +++ "*Source: " +++ filename +++ "*  " +++ String newline ""
  +++ "*Processed: " +++ timestamp +++ "*" +++ String newline (String newline "").

Definition generate_timestamp_filename (timestamp base_name extension : string) : string :=
  Utils.sanitize_filename base_name +++ "_" +++ timestamp +++ extension.

(** [k] newlines. *)
Fixpoint newlines (k : nat) : string :=
  match k with
  | O => ""
  | S k' => String newline (newlines k')
  end.

(** What a run of [k] newlines becomes under [re.sub(r'\n{3,}', '\n\n', ..)]. *)
Definition squeezed (k : nat) : string :=
  if (3 <=? k)%nat then newlines 2 else newlines k.

(** [re.sub(r'\n{3,}', '\n\n', s)], with [run] newlines read and not yet
    written. *)
Fixpoint squeeze_newlines (run : nat) (s : string) : string :=
  match s with
  | EmptyString => squeezed run
  | String c s' =>
      if Ascii.eqb c newline then squeeze_newlines (S run) s'
      else squeezed run +++ String c (squeeze_newlines 0 s')
  end.

(** [s.replace('-\n', '')]. *)
Fixpoint join_hyphenated (s : string) : string :=
  match s with
  | EmptyString => EmptyString
  | String c s1 =>
      match s1 with
      | String d s2 =>
          if Ascii.eqb c "-" && Ascii.eqb d newline then join_hyphenated s2
          else String c (join_hyphenated s1)
      | EmptyString => String c EmptyString
      end
  end.

(** [re.sub(r' +', ' ', s)]. *)
Fixpoint squeeze_spaces (s : string) : string :=
  match s with
  | EmptyString => EmptyString
  | String c s' =>
      if Ascii.eqb c " " then
        match s' with
        | String c' _ => if Ascii.eqb c' " " then squeeze_spaces s' else String " " (squeeze_spaces s')
        | EmptyString => String " " EmptyString
        end
      else String c (squeeze_spaces s')
  end.

(** [s.strip()]: whitespace removed at both ends. *)
Fixpoint lstrip_ws (s : string) : string :=
  match s with
  | EmptyString => EmptyString
  | String a s' => if is_space a then lstrip_ws s' else s
  end.

Fixpoint rstrip_ws (s : string) : string :=
  match s with
  | EmptyString => EmptyString
  | String a s' =>
      match rstrip_ws s' with
      | EmptyString => if is_space a then EmptyString else String a EmptyString
      | r => String a r
      end
  end.

Definition strip_ws (s : string) : string := rstrip_ws (lstrip_ws s).

Definition is_empty (s : string) : bool :=
  match s with
  | EmptyString => true
  | String _ _ => false
  end.

(** [while lines and not lines[0]: lines.pop(0)]. *)
Fixpoint pop_leading_empty (lines : list string) : list string :=
  match lines with
  | [] => []
  | l :: rest => if is_empty l then pop_leading_empty rest else lines
  end.

(** [while lines and not lines[-1]: lines.pop()]. *)
Fixpoint pop_trailing_empty (lines : list string) : list string :=
  match lines with
  | [] => []
  | l :: rest =>
      match pop_trailing_empty rest with
      | [] => if is_empty l then [] else [l]
      | r => l :: r
      end
  end.

(** The lines that [clean_text] joins. *)
Definition clean_lines (text : string) : list string :=
  let text := squeeze_newlines 0 text in
  let text := join_hyphenated text in
  let text := squeeze_spaces text in
  let lines := map strip_ws (split newline text) in
  pop_trailing_empty (pop_leading_empty lines).

Definition clean_text (text : string) : string :=
  if is_empty text then ""
  else join (String newline "") (clean_lines text).

Definition validate_imports_directory (files : FS.fs) (imports_dir : string)
  : Py.outcome (list FS.Path) :=
  match Utils.discover_processing_folders files imports_dir with
  | Py.Returns processing_map => Py.Returns (flat_map snd processing_map)
  | Py.Raises e => Py.Raises e
  end.

(** [safe_create_directory]: the error is logged and raised again. *)
Definition safe_create_directory (env : FS.Env) (directory : string) : FS.M unit :=
  FS.mkdir env directory.

End UtilsText.

(** ** src/pdf_to_markdown/data/file_discovery.py: the flat listing *)

Module FileDiscoveryFlat.

Definition discover_processing_folders_flat (files : FS.fs) (imports_dir : string)
  : Py.outcome (list FS.Path) :=
  match FileDiscovery.discover_processing_folders_grouped files imports_dir with
  | Py.Returns mapping => Py.Returns (fold_left (fun acc file_list => acc ++ file_list)
                                        (Dict.values mapping) [])
  | Py.Raises e => Py.Raises e
  end.

End FileDiscoveryFlat.

(** ** src/pdf_to_markdown/orchestrator.py: validate_configuration *)

Module Validation.
Import PyStr.

Record ValidationResult : Type := mkValidation {
  valid : bool;
  errors : list string;
  warnings : list string;
  info : Dict.dict Z
}.

(** [str(exc)]. *)
Definition str_of_exn (e : Py.exn) : string :=
  match e with
  | Py.FileNotFoundError msg => msg
  | Py.ValueError msg => msg
  | Py.TypeError msg => msg
  | Py.OSError msg => msg
  end.

(** [sum(len(f) for f in processing_map.values())]. *)
Definition total_files (processing_map : Dict.dict (list FS.Path)) : nat :=
  fold_left (fun acc f => acc + length f) (Dict.values processing_map) 0.

Definition no_documents_warning : string :=
  "No supported documents found in imports directory.".

(** The inner [try] around discovery: a [ValueError] becomes a warning, any
    other exception leaves the block. *)
Definition check_documents (files : FS.fs) (cfg : Config.Config) (v : ValidationResult)
  : Py.outcome ValidationResult :=
  match Utils.discover_processing_folders files (Config.IMPORTS_DIR cfg) with
  | Py.Returns processing_map =>
      let total := total_files processing_map in
      let info1 := Dict.set (info v) "folders_found" (Z.of_nat (length processing_map)) in
      let info2 := Dict.set info1 "supported_files_found" (Z.of_nat total) in
      Py.Returns
        (mkValidation (valid v) (errors v)
           (if Nat.eqb total 0 then warnings v ++ [no_documents_warning] else warnings v)
           info2)
  | Py.Raises (Py.ValueError msg) =>
      Py.Returns (mkValidation (valid v) (errors v) (warnings v ++ [msg]) (info v))
  | Py.Raises e => Py.Raises e
  end.

Definition validate_configuration (cfg : Config.Config) (env : FS.Env)
  : FS.M ValidationResult :=
  fun w =>
    let v := mkValidation true [] [] [] in
    let v :=
      if FS.exists_dir (FS.files w) (Config.IMPORTS_DIR cfg) then v
      else mkValidation (valid v) (errors v)
             (warnings v ++ ["Imports directory does not exist: " +++ Config.IMPORTS_DIR cfg])
             (info v) in
    match check_documents (FS.files w) cfg v with
    | Py.Returns v1 =>
        match FS.mkdir env (Config.EXPORTS_DIR cfg) w with
        | (Py.Returns _, w') => (Py.Returns v1, w')
        | (Py.Raises exc, w') =>
            (Py.Returns
               (mkValidation false
                  (errors v1 ++ ["Cannot create exports directory: " +++ str_of_exn exc])
                  (warnings v1) (info v1)), w')
        end
    | Py.Raises exc =>
        (Py.Returns
           (mkValidation false
              (errors v ++ ["Unexpected validation error: " +++ str_of_exn exc])
              (warnings v) (info v)), w)
    end.

End Validation.

(** ** src/converter.py: the earlier converter

    Its [ConversionResult] has the fields of the model's, which is used for
    it.  The document converter is the environment's [transform] ([None] when
    the status is not SUCCESS or the call raises); [stamp] is what
    [datetime.now().strftime(..)] gives when a folder's name is generated. *)

Module Converter.
Import PyStr Model.

(** [result.processed_files.append(name)] appends to the fresh list that the
    property builds and leaves the result as it is; a failure is appended to
    [failed_files]. *)
Fixpoint _process_documents (cfg : Config.Config) (env : FS.Env)
    (document_files : list FS.Path) (markdown_contents : list string)
    (result : ConversionResult) : FS.M (list string * ConversionResult) :=
  match document_files with
  | [] => FS.ret (markdown_contents, result)
  | doc_file :: rest =>
      FS.bind (FS.log_call doc_file) (fun _ =>
        match FS.transform env doc_file with
        | Some markdown_content =>
            let doc_header :=
              String UtilsText.newline (String UtilsText.newline "")
              +++ Config.SECTION_SEPARATOR cfg
              +++ String UtilsText.newline (String UtilsText.newline "")
              +++ "# " +++ PurePath.stem_of_name (FS.name doc_file)
              +++ String UtilsText.newline (String UtilsText.newline "") in
            _process_documents cfg env rest
              (markdown_contents ++ [doc_header +++ markdown_content]) result
        | None =>
            _process_documents cfg env rest markdown_contents
              (append_failed (FS.name doc_file) result)
        end)
  end.

(** A failed write is logged and raised again. *)
Definition _save_combined_markdown (env : FS.Env) (markdown_contents : list string)
    (output_path : FS.Path) (folder_name : string) : FS.M unit :=
  let header :=
    "# Combined Documents - " +++ Orchestrator.display_name folder_name +++ Orchestrator.nl2
    +++ "*Generated from " +++ str_of_N (N.of_nat (length markdown_contents))
    +++ " document(s)*" +++ Orchestrator.nl2 in
  let combined_content := header +++ join (String UtilsText.newline "") markdown_contents in
  FS.bind FS.get_files (fun fs0 =>
    if FS.can_open env fs0 output_path && FS.write_text_ok env output_path then
      FS.set_files (FS.store env fs0 output_path combined_content)
    else
      FS.raise (Py.OSError ("Cannot write " +++ FS.name output_path))).

(** The call [self._generate_summary_report(result, summary_path, start_time)]
    passes one argument more than the method takes. *)
Definition summary_call_error : Py.exn :=
  Py.TypeError
    "PDFToMarkdownConverter._generate_summary_report() takes 3 positional arguments but 4 were given".

Definition set_processed (folder_name : string) (l : list string) (r : ConversionResult)
  : ConversionResult :=
  mkResult (success r) (output_files r)
    (Dict.set (processed_folders r) folder_name l) (skipped_folders r)
    (failed_files r) (total_pages r) (total_images r) (processing_time r) (error_message r).

Definition extend_failed (l : list string) (r : ConversionResult) : ConversionResult :=
  mkResult (success r) (output_files r) (processed_folders r) (skipped_folders r)
    (failed_files r ++ l) (total_pages r) (total_images r) (processing_time r)
    (error_message r).

(** The [except] branch of [convert]. *)
Definition set_error (env : FS.Env) (e : Py.exn) (r : ConversionResult) : ConversionResult :=
  mkResult (success r) (output_files r) (processed_folders r) (skipped_folders r)
    (failed_files r) (total_pages r) (total_images r)
    (FS.time_stop env - FS.time_start env) (Some (Validation.str_of_exn e)).

(** The body of the loop over the folders, on the result object: what it
    raises, if anything, with the result and the world as they are then. *)
Definition convert_folder (cfg : Config.Config) (env : FS.Env) (stamp : string -> string)
    (exports_path output_name : string) (item : string * list FS.Path)
    (result : ConversionResult) (w : FS.World)
  : option Py.exn * ConversionResult * FS.World :=
  let (folder_name, files) := item in
  if Config.SKIP_ALREADY_CONVERTED cfg
     && Utils.check_folder_already_converted (FS.files w) folder_name exports_path
  then
    let existing_files :=
      Utils.get_existing_converted_files (FS.files w) folder_name exports_path in
    let result := set_skipped folder_name (map FS.name files) result in
    (None,
     match existing_files with
     | [] => result
     | _ => extend_output_files existing_files result
     end, w)
  else
    match _process_documents cfg env files [] new_result w with
    | (Py.Raises e, w1) => (Some e, result, w1)
    | (Py.Returns (markdown_contents, folder_result), w1) =>
        match markdown_contents with
        | [] => (None, result, w1)
        | _ =>
            let output_filename :=
              if String.eqb folder_name "_root" then output_name
              else UtilsText.generate_timestamp_filename (stamp folder_name) folder_name ".md" in
            let output_path := FS.mkPath exports_path output_filename in
            match _save_combined_markdown env markdown_contents output_path folder_name w1 with
            | (Py.Raises e, w2) => (Some e, result, w2)
            | (Py.Returns _, w2) =>
                (None,
                 extend_failed (failed_files folder_result)
                   (set_processed folder_name (processed_files folder_result)
                      (extend_output_files [output_path] result)), w2)
            end
        end
    end.

Fixpoint convert_folders (cfg : Config.Config) (env : FS.Env) (stamp : string -> string)
    (exports_path output_name : string) (items : Dict.dict (list FS.Path))
    (result : ConversionResult) (w : FS.World)
  : option Py.exn * ConversionResult * FS.World :=
  match items with
  | [] => (None, result, w)
  | item :: rest =>
      match convert_folder cfg env stamp exports_path output_name item result w with
      | (Some e, result', w') => (Some e, result', w')
      | (None, result', w') =>
          convert_folders cfg env stamp exports_path output_name rest result' w'
      end
  end.

Definition convert (cfg : Config.Config) (env : FS.Env) (stamp : string -> string)
    (imports_dir exports_dir output_filename : option string) : FS.M ConversionResult :=
  fun w =>
    let result := new_result in
    let imports_path := match imports_dir with Some p => p | None => Config.IMPORTS_DIR cfg end in
    let exports_path := match exports_dir with Some p => p | None => Config.EXPORTS_DIR cfg end in
    let output_name :=
      match output_filename with
      | Some (String c s) => String c s
      | _ => Config.OUTPUT_FILENAME cfg
      end in
    match Utils.discover_processing_folders (FS.files w) imports_path with
    | Py.Raises e => (Py.Returns (set_error env e result), w)
    | Py.Returns processing_map =>
        match FS.mkdir env exports_path w with
        | (Py.Raises e, w0) => (Py.Returns (set_error env e result), w0)
        | (Py.Returns _, w0) =>
            match convert_folders cfg env stamp exports_path output_name
                    processing_map result w0 with
            | (Some e, result, w1) => (Py.Returns (set_error env e result), w1)
            | (None, result, w1) =>
                (Py.Returns (set_error env summary_call_error result), w1)
            end
        end
    end.

End Converter.

(** ** main.py: the command line, once the arguments are parsed

    Printing and logging are left out; [env] is the environment with the
    transformer that the orchestrator in use was built with. *)

Module Main.
Import PyStr Model.

(** The namespace that [parse_args] returns. *)
Record Args : Type := mkArgs {
  imports : string;
  exports : string;
  output : string;
  no_ocr : bool;
  verbose : bool;
  validate : bool;
  list_files : bool
}.

(** [Config.__post_init__]: both directories are ensured whenever a
    configuration is built. *)
Definition post_init (env : FS.Env) (cfg : Config.Config) : FS.M unit :=
  FS.bind (FS.mkdir env (Config.IMPORTS_DIR cfg)) (fun _ =>
    FS.mkdir env (Config.EXPORTS_DIR cfg)).

(** The fields of [replace(converter.cfg, ENABLE_OCR=False)]. *)
Definition without_ocr (cfg : Config.Config) : Config.Config :=
  Config.mkConfig (Config.IMPORTS_DIR cfg) (Config.EXPORTS_DIR cfg)
    (Config.OUTPUT_FILENAME cfg) (Config.SECTION_SEPARATOR cfg) (Config.VERBOSE cfg)
    false (Config.SKIP_ALREADY_CONVERTED cfg) (Config.DO_TABLE_STRUCTURE cfg)
    (Config.DO_FIGURE_ENRICHMENT cfg).

(** The configuration of the orchestrator that converts. *)
Definition run_config (cfg : Config.Config) (args : Args) : Config.Config :=
  if no_ocr args then without_ocr cfg else cfg.

(** [validate_configuration(converter)]: the verdict of the orchestrator's
    validation. *)
Definition validate_configuration (cfg : Config.Config) (env : FS.Env) : FS.M bool :=
  FS.bind (Validation.validate_configuration cfg env) (fun validation_result =>
    FS.ret (Validation.valid validation_result)).

(** [list_document_files] reads and prints; whatever is raised is printed. *)
Definition list_document_files (imports_dir : string) : FS.M unit := FS.ret tt.

(** [return 0 if ok else 1]. *)
Definition exit_code (ok : bool) : Z := if ok then 0%Z else 1%Z.

(** What [main] does after [create_argument_parser] and [parse_args], as an
    exception: [except Exception] turns it into the exit code 1. *)
Definition main_body (cfg : Config.Config) (env : FS.Env) (args : Args) : FS.M Z :=
  if list_files args then
    FS.bind (list_document_files (imports args)) (fun _ => FS.ret 0%Z)
  else if validate args then
    FS.bind (validate_configuration cfg env) (fun is_valid => FS.ret (exit_code is_valid))
  else
    FS.bind (Validation.validate_configuration cfg env) (fun validation_result =>
      if negb (Validation.valid validation_result) then FS.ret 1%Z
      else
        FS.bind (if no_ocr args then post_init env (without_ocr cfg) else FS.ret tt) (fun _ =>
          FS.bind (Orchestrator.convert (run_config cfg args) env
                     (Some (imports args)) (Some (exports args)) (Some (output args)))
            (fun result => FS.ret (exit_code (success result))))).

Definition main (cfg : Config.Config) (env : FS.Env) (args : Args) (w : FS.World)
  : Z * FS.World :=
  match main_body cfg env args w with
  | (Py.Returns code, w') => (code, w')
  | (Py.Raises _, w') => (1%Z, w')
  end.

End Main.

(** * Vocabulary of the statements *)

(** ** Shapes of strings *)

Module SanitizeSpec.
Import PyStr Utils.

(** A string that starts with no [c]. *)
Definition head_free (c : ascii) (s : string) : Prop :=
  match s with
  | EmptyString => True
  | String a _ => Ascii.eqb a c = false
  end.

(** What [replace_problematic] lets through. *)
Definition allowed (c : ascii) : bool :=
  is_word c || is_space c || Ascii.eqb c "-" || Ascii.eqb c "_".

(** A character of a sanitized name: a word character or a hyphen that is no
    gap, or the underscore. *)
Definition tidy_char (c : ascii) : bool :=
  (is_word c || Ascii.eqb c "-") && negb (is_gap c) || Ascii.eqb c "_".

(** No two underscores in a row. *)
Fixpoint single_gaps (s : string) : bool :=
  match s with
  | EmptyString => true
  | String c s' =>
      (if Ascii.eqb c "_"
       then match s' with
            | String c' _ => negb (Ascii.eqb c' "_")
            | EmptyString => true
            end
       else true) && single_gaps s'
  end.

(** The string that [sanitize_filename] tests for emptiness. *)
Definition stripped (filename : string) : string :=
  strip "_" (collapse_gaps (replace_problematic (PurePath.stem filename))).

End SanitizeSpec.

(** ** What discovery is expected to find *)

Module DiscoverSpec.
Import PyStr.

(** A name that carries one of the supported extensions. *)
Definition supported_name (nm : string) : bool :=
  existsb (endswith nm) Config.SUPPORTED_FORMATS.

Definition holds_supported (entries : list FS.node) : bool :=
  existsb (fun n => supported_name (FS.node_name n)) entries.

(** An immediate subdirectory that is not hidden and holds a supported name. *)
Definition visible_folder_with_supported (item : FS.node) : bool :=
  match item with
  | FS.Dir nm _ children => negb (startswith nm ".") && holds_supported children
  | FS.File _ _ _ => false
  end.

(** Supported files directly in the root or in an immediate non-hidden
    subdirectory. *)
Definition any_supported (entries : list FS.node) : bool :=
  holds_supported entries || existsb visible_folder_with_supported entries.

(** The mapping that [discover_processing_folders] builds from the entries of
    a root that exists. *)
Definition processing_map_of (dir : string) (entries : list FS.node)
  : Dict.dict (list FS.Path) :=
  fold_left (Utils.scan_item dir) entries
    match Utils.supported_in dir entries with
    | [] => []
    | direct_files => Dict.set [] "_root" (FS.sorted direct_files)
    end.

(** [sub in s]. *)
Fixpoint contains (s sub : string) : bool :=
  prefix sub s
  || match s with
     | EmptyString => false
     | String _ s' => contains s' sub
     end.

End DiscoverSpec.

(** ** What a run is expected to record *)

Module RunSpec.
Import PyStr Model.

Definition names (files : list FS.Path) : list string := map FS.name files.

(** Whether the transformer raises on a file. *)
Definition fails (env : FS.Env) (p : FS.Path) : bool :=
  match FS.transform env p with
  | Some _ => false
  | None => true
  end.

Definition failed (env : FS.Env) (files : list FS.Path) : list FS.Path :=
  filter (fails env) files.

Definition succeeded (env : FS.Env) (files : list FS.Path) : list FS.Path :=
  filter (fun p => negb (fails env p)) files.

(** The section that a transformed file contributes to the artifact. *)
Definition section (env : FS.Env) (p : FS.Path) : string :=
  match FS.transform env p with
  | Some blob => blob +++ Orchestrator.separator
  | None => ""
  end.

Definition sections (env : FS.Env) (files : list FS.Path) : list string :=
  map (section env) (succeeded env files).

Fixpoint join_all (l : list string) : string :=
  match l with
  | [] => ""
  | x :: l' => x +++ join_all l'
  end.

(** What the loop over the files of a folder leaves in the result. *)
Definition record_file (env : FS.Env) (folder_name : string) (r : ConversionResult)
    (p : FS.Path) : ConversionResult :=
  if fails env p then append_failed (FS.name p) r
  else append_processed folder_name (FS.name p) r.

Definition record_all (env : FS.Env) (folder_name : string) (files : list FS.Path)
    (r : ConversionResult) : ConversionResult :=
  fold_left (record_file env folder_name) files r.

Definition imports_path_of (cfg : Config.Config) (imports_dir : option string) : string :=
  match imports_dir with
  | Some p => p
  | None => Config.IMPORTS_DIR cfg
  end.

Definition exports_path_of (cfg : Config.Config) (exports_dir : option string) : string :=
  match exports_dir with
  | Some p => p
  | None => Config.EXPORTS_DIR cfg
  end.

(** The name of a folder's artifact. *)
Definition out_name_of (folder_name : string) (output_filename : option string)
  : option string :=
  if String.eqb folder_name "_root" then output_filename
  else Some (folder_name +++ ".md").

(** Whether the ledger makes [run] skip a folder. *)
Definition skips (cfg : Config.Config) (files : FS.fs) (folder_name exports_path : string)
  : bool :=
  Config.SKIP_ALREADY_CONVERTED cfg
  && Utils.check_folder_already_converted files folder_name exports_path.

(** The file system as [run] sees it once the output directory is ensured. *)
Definition files_after_mkdir (env : FS.Env) (dir : string) (w : FS.World) : FS.fs :=
  FS.files (snd (FS.mkdir env dir w)).

(** The file names of every group of a processing map. *)
Definition all_names (pm : Dict.dict (list FS.Path)) : list string :=
  flat_map (fun g => names (snd g)) pm.

(** The entries of [failed_files] that name a file of the group. *)
Definition failed_of (files : list FS.Path) (r : ConversionResult) : list string :=
  filter (fun n => existsb (String.eqb n) (names files)) (failed_files r).

(** What the result holds for one folder group: the group was skipped, or its
    artifact was written, or the folder was abandoned. *)
Definition recorded (folder_name : string) (files : list FS.Path) (r : ConversionResult)
  : Prop :=
  (Dict.get (skipped_folders r) folder_name = Some (names files)
   /\ Dict.get (processed_folders r) folder_name = None
   /\ failed_of files r = [])
  \/ (Dict.get (skipped_folders r) folder_name = None
      /\ Permutation (Dict.get_list (processed_folders r) folder_name ++ failed_of files r)
                     (names files))
  \/ (Dict.get (skipped_folders r) folder_name = None
      /\ Dict.get (processed_folders r) folder_name = None
      /\ failed_of files r = []).

(** No file name is listed in two of the three collections. *)
Definition pairwise_disjoint (r : ConversionResult) : Prop :=
  forall n f g,
    ~ (In n (Dict.get_list (processed_folders r) f) /\ In n (Dict.get_list (skipped_folders r) g))
    /\ ~ (In n (Dict.get_list (processed_folders r) f) /\ In n (failed_files r))
    /\ ~ (In n (Dict.get_list (skipped_folders r) g) /\ In n (failed_files r)).

(** The invariant of the loop over the folder groups: nothing is recorded yet
    for a folder still to come, every failed name belongs to a group already
    seen, and every group already seen is accounted for. *)
Definition accounted (seen : Dict.dict (list FS.Path)) (r : ConversionResult) : Prop :=
  (forall f, ~ In f (Dict.keys seen) ->
             Dict.get (processed_folders r) f = None /\ Dict.get (skipped_folders r) f = None)
  /\ (forall n, In n (failed_files r) -> In n (all_names seen))
  /\ (forall f files, In (f, files) seen -> recorded f files r).


(** The result as [run] finalises it after the loop. *)
Definition finish (env : FS.Env) (r : ConversionResult) : ConversionResult :=
  let r := stop_timer env (FS.time_start env) r in
  set_success (negb match output_files r with [] => true | _ => false end) r.

Definition to_path (dir : string) (n : FS.node) : FS.Path := FS.mkPath dir (FS.node_name n).

(** Newest first. *)
Definition newer_or_same (a b : FS.node) : Prop := (FS.node_mtime b <= FS.node_mtime a)%Z.

End RunSpec.

(** ** Concrete trees and environments *)

Module Scenarios.
Import PyStr Model.

Definition path_eqb (p q : FS.Path) : bool :=
  String.eqb (FS.parent p) (FS.parent q) && String.eqb (FS.name p) (FS.name q).

(** An environment in which every system call succeeds and the transformer
    raises exactly on the paths of [bad]. *)
Definition steady (bad : list FS.Path) : FS.Env :=
  FS.mkEnv
    (fun p => if existsb (path_eqb p) bad then None else Some ("text of " +++ FS.name p))
    (fun _ => true) (fun _ => true) (fun _ => true)
    100 105 105 (fun _ => 103)%Z.

(** The same, with a summary report that cannot be written. *)
Definition report_unwritable : FS.Env :=
  FS.mkEnv
    (fun p => Some ("text of " +++ FS.name p))
    (fun _ => true) (fun _ => true) (fun _ => false)
    100 105 105 (fun _ => 103)%Z.

(** [a.pdf] and [b.pdf] in the root, [q.pdf] in the folder [reports]. *)
Definition tree : list FS.node :=
  [FS.File "a.pdf" 1 ""; FS.File "b.pdf" 1 "";
   FS.Dir "reports" 1 [FS.File "q.pdf" 1 ""]].

(** Only the folder [reports], holding [q.pdf]. *)
Definition reports_only : list FS.node :=
  [FS.Dir "reports" 1 [FS.File "q.pdf" 1 ""]].

(** Two folders that each hold a file named [x.pdf]. *)
Definition twins : list FS.node :=
  [FS.Dir "a" 1 [FS.File "x.pdf" 1 ""]; FS.Dir "b" 1 [FS.File "x.pdf" 1 ""]].

(** Two folders with different files. *)
Definition pair : list FS.node :=
  [FS.Dir "a" 1 [FS.File "x.pdf" 1 ""; FS.File "y.pdf" 1 ""];
   FS.Dir "b" 1 [FS.File "z.pdf" 1 ""]].

(** An output directory with two earlier artifacts of [reports]. *)
Definition two_artifacts : list FS.node :=
  [FS.File "reports_2024-01-01_00-00-00.md" 5 "";
   FS.File "reports_2024-02-01_00-00-00.md" 7 ""].

Definition q_pdf : FS.Path := FS.mkPath "imports/reports" "q.pdf".

Definition fresh (entries : list FS.node) : FS.World :=
  FS.mkWorld [("imports", entries); ("exports", [])] [].

Definition with_exports (entries out : list FS.node) : FS.World :=
  FS.mkWorld [("imports", entries); ("exports", out)] [].

(** The world a second run starts from: the files the first run left, and an
    empty call log. *)
Definition rerun_from (w : FS.World) : FS.World := FS.mkWorld (FS.files w) [].

End Scenarios.

(** ** Shapes used by the further properties *)

Module ExtraSpec.
Import PyStr.

(** A character that is neither whitespace nor special in a glob pattern or
    a path. *)
Definition plain_char (c : ascii) : bool :=
  negb (is_space c)
  && negb (existsb (Ascii.eqb c) ["*"; "?"; "["; "]"; "/"; "."]%char).

(** A name of one path component: it holds no slash, so that joining it to a
    directory gives an entry of that directory. *)
Definition single_component (nm : string) : bool :=
  all_chars (fun a => negb (Ascii.eqb a "/")) nm.

(** An output file name that, when given, is of one path component. *)
Definition names_a_file (output_filename : option string) : bool :=
  match output_filename with
  | Some nm => single_component nm
  | None => true
  end.

(** No two spaces in a row. *)
Fixpoint no_double_space (s : string) : bool :=
  match s with
  | EmptyString => true
  | String c s' =>
      (if Ascii.eqb c " "
       then match s' with
            | String c' _ => negb (Ascii.eqb c' " ")
            | EmptyString => true
            end
       else true) && no_double_space s'
  end.

(** Ascending by file name. *)
Definition name_le (p q : FS.Path) : Prop := String.ltb (FS.name q) (FS.name p) = false.

Definition entry_names (files : FS.fs) (dir : string) : list string :=
  map FS.node_name (FS.listdir files dir).

(** A visible subdirectory named [nm] that holds a supported name. *)
Definition qualifying_folder (entries : list FS.node) (nm : string) : Prop :=
  exists t children,
    In (FS.Dir nm t children) entries
    /\ startswith nm "." = false
    /\ DiscoverSpec.holds_supported children = true.

(** A path that names an entry of the root or of a visible subdirectory. *)
Definition located (dir : string) (entries : list FS.node) (p : FS.Path) : Prop :=
  (exists n, In n entries /\ p = FS.mkPath dir (FS.node_name n))
  \/ (exists nm t children n,
        In (FS.Dir nm t children) entries /\ startswith nm "." = false
        /\ In n children /\ p = FS.mkPath (PurePath.join_path dir nm) (FS.node_name n)).

(** What holds of every group: it is not empty, and each of its paths
    carries a supported extension and names an entry of the root or of a
    visible subdirectory. *)
Definition sound_group (dir : string) (entries : list FS.node) (fl : list FS.Path) : Prop :=
  fl <> []
  /\ forall p, In p fl -> DiscoverSpec.supported_name (FS.name p) = true /\ located dir entries p.

(** The file system [after] holds everything that [before] holds, and differs
    from it in the directory [dir] at most: no directory and no entry name is
    lost. *)
Definition grows (dir : string) (before after : FS.fs) : Prop :=
  (forall d, d <> dir -> Dict.get after d = Dict.get before d)
  /\ (forall d, FS.exists_dir before d = true -> FS.exists_dir after d = true)
  /\ (forall d nm, In nm (entry_names before d) -> In nm (entry_names after d)).

(** Every path of [output_files] lies in [dir] and names one of its entries. *)
Definition outputs_present (dir : string) (r : Model.ConversionResult) (w : FS.World) : Prop :=
  forall p, In p (Model.output_files r) ->
    FS.parent p = dir /\ In (FS.name p) (entry_names (FS.files w) dir).

(** A string that does not start with a space, resp. with whitespace. *)
Definition starts_with_space (s : string) : bool :=
  match s with
  | String c _ => Ascii.eqb c " "
  | EmptyString => false
  end.

Definition starts_with_whitespace (s : string) : bool :=
  match s with
  | String c _ => is_space c
  | EmptyString => false
  end.

End ExtraSpec.

(** ** Further concrete configurations *)

Module ExtraScenarios.
Import Scenarios.

(** The default configuration with skipping disabled. *)
Definition no_skip : Config.Config :=
  Config.mkConfig "imports" "exports" "combined_documents.md" "___" true true false true true.

(** A clock that reads midnight of 1 January 2024 at every folder. *)
Definition midnight (folder_name : string) : string := "2024-01-01_00-00-00".

Definition earlier_artifact : FS.node := FS.File "reports_2024-01-01_00-00-00.md" 5 "".

Definition longer_artifact : FS.node := FS.File "reports_old.md" 5 "".

(** [python main.py --imports docs --exports out --no-ocr]. *)
Definition docs_args : Main.Args :=
  Main.mkArgs "docs" "out" "combined_documents.md" true false false false.

(** The configured directories are there and empty; the documents are in
    [docs]. *)
Definition docs_beside : FS.World :=
  FS.mkWorld [("imports", []); ("exports", []); ("docs", tree)] [].

End ExtraScenarios.

(** * Facts *)

(** ** Strings *)

Module PyStrFacts.
Import PyStr SanitizeSpec.

Lemma all_chars_impl (p q : ascii -> bool) (s : string) :
  (forall c, p c = true -> q c = true) ->
  all_chars p s = true -> all_chars q s = true.
Proof.
  intros Hpq. induction s as [|c s IH]; simpl; auto.
  rewrite !andb_true_iff. intros [Hc Hs]. split; auto.
Qed.

Lemma all_chars_lstrip (p : ascii -> bool) (c : ascii) (s : string) :
  all_chars p s = true -> all_chars p (lstrip c s) = true.
Proof.
  induction s as [|a s IH]; simpl; auto.
  rewrite andb_true_iff. intros [Ha Hs].
  destruct (Ascii.eqb a c); auto. simpl. now rewrite Ha, Hs.
Qed.

Lemma all_chars_rstrip (p : ascii -> bool) (c : ascii) (s : string) :
  all_chars p s = true -> all_chars p (rstrip c s) = true.
Proof.
  induction s as [|a s IH]; simpl; auto.
  rewrite andb_true_iff. intros [Ha Hs]. specialize (IH Hs).
  destruct (rstrip c s) as [|b r].
  - destruct (Ascii.eqb a c); simpl; auto. now rewrite Ha.
  - simpl in *. now rewrite Ha, IH.
Qed.

Lemma all_chars_strip (p : ascii -> bool) (c : ascii) (s : string) :
  all_chars p s = true -> all_chars p (strip c s) = true.
Proof.
  intros H. unfold strip. now apply all_chars_rstrip, all_chars_lstrip.
Qed.

Lemma lstrip_head_free (c : ascii) (s : string) : head_free c (lstrip c s).
Proof.
  induction s as [|a s IH]; simpl; auto.
  destruct (Ascii.eqb a c) eqn:E; auto.
Qed.

Lemma lstrip_fixed (c : ascii) (s : string) : head_free c s -> lstrip c s = s.
Proof.
  destruct s as [|a s]; simpl; auto. intros ->. reflexivity.
Qed.

Lemma rstrip_head_free (c : ascii) (s : string) :
  head_free c s -> head_free c (rstrip c s).
Proof.
  destruct s as [|a s]; simpl; auto. intros E.
  destruct (rstrip c s); simpl; auto. rewrite E. exact E.
Qed.

Lemma rstrip_idem (c : ascii) (s : string) : rstrip c (rstrip c s) = rstrip c s.
Proof.
  induction s as [|a s IH]; simpl; auto.
  destruct (rstrip c s) as [|b r] eqn:E.
  - destruct (Ascii.eqb a c) eqn:Ea; simpl; auto. now rewrite Ea.
  - simpl in *. destruct (rstrip c r) as [|b' r'] eqn:Er.
    + destruct (Ascii.eqb b c) eqn:Eb; try discriminate.
      injection IH as <-. reflexivity.
    + now rewrite IH.
Qed.

Lemma strip_idem (c : ascii) (s : string) : strip c (strip c s) = strip c s.
Proof.
  unfold strip.
  rewrite (lstrip_fixed c (rstrip c (lstrip c s))).
  - apply rstrip_idem.
  - apply rstrip_head_free, lstrip_head_free.
Qed.

Lemma split_plain (c : ascii) (s : string) :
  all_chars (fun a => negb (Ascii.eqb a c)) s = true -> split c s = [s].
Proof.
  induction s as [|a s IH]; simpl; auto.
  rewrite andb_true_iff, negb_true_iff. intros [Ha Hs].
  now rewrite Ha, (IH Hs).
Qed.

Lemma rfind_plain (c : ascii) (s : string) :
  all_chars (fun a => negb (Ascii.eqb a c)) s = true -> rfind c s = None.
Proof.
  induction s as [|a s IH]; simpl; auto.
  rewrite andb_true_iff, negb_true_iff. intros [Ha Hs].
  now rewrite (IH Hs), Ha.
Qed.

Lemma stem_plain (s : string) :
  all_chars (fun a => negb (Ascii.eqb a "/") && negb (Ascii.eqb a ".")) s = true ->
  s <> "" -> PurePath.stem s = s.
Proof.
  intros H Hne.
  assert (Hslash : all_chars (fun a => negb (Ascii.eqb a "/")) s = true).
  { revert H. apply all_chars_impl. intros c. rewrite andb_true_iff. tauto. }
  assert (Hdot : all_chars (fun a => negb (Ascii.eqb a ".")) s = true).
  { revert H. apply all_chars_impl. intros c. rewrite andb_true_iff. tauto. }
  unfold PurePath.stem, PurePath.name_of.
  rewrite (split_plain _ _ Hslash). simpl.
  destruct (String.eqb s "") eqn:E1.
  { apply String.eqb_eq in E1. contradiction. }
  destruct (String.eqb s ".") eqn:E2.
  { apply String.eqb_eq in E2. subst s. discriminate Hdot. }
  simpl. unfold PurePath.stem_of_name. now rewrite (rfind_plain _ _ Hdot).
Qed.

End PyStrFacts.

(** ** sanitize_filename *)

Module SanitizeFacts.
Import PyStr PyStrFacts Utils SanitizeSpec.

Lemma replace_problematic_allowed (s : string) :
  all_chars allowed (replace_problematic s) = true.
Proof.
  unfold replace_problematic.
  induction s as [|c s IH]; simpl; auto.
  rewrite IH, andb_true_r. unfold allowed.
  destruct (is_word c || is_space c || Ascii.eqb c "-") eqn:E.
  - now rewrite E.
  - reflexivity.
Qed.

Lemma allowed_not_gap_tidy (c : ascii) :
  allowed c = true -> is_gap c = false -> tidy_char c = true.
Proof.
  unfold allowed, tidy_char, is_gap.
  destruct (is_word c), (is_space c), (Ascii.eqb c "-"), (Ascii.eqb c "_");
    simpl; intros; congruence.
Qed.

Lemma tidy_gap_underscore (c : ascii) :
  tidy_char c = true -> is_gap c = true -> Ascii.eqb c "_" = true.
Proof.
  unfold tidy_char. intros H G. rewrite G in H. simpl in H.
  now rewrite andb_false_r in H.
Qed.

Lemma tidy_not_underscore_not_gap (c : ascii) :
  tidy_char c = true -> Ascii.eqb c "_" = false -> is_gap c = false.
Proof.
  intros H E. destruct (is_gap c) eqn:G; auto.
  rewrite (tidy_gap_underscore c H G) in E. discriminate.
Qed.

Lemma collapse_gaps_tidy (s : string) :
  all_chars allowed s = true -> all_chars tidy_char (collapse_gaps s) = true.
Proof.
  induction s as [|c s IH]; auto.
  cbn [all_chars collapse_gaps]. rewrite andb_true_iff. intros [Hc Hs].
  specialize (IH Hs).
  destruct (is_gap c) eqn:G.
  - destruct s as [|c' s']; auto.
    destruct (is_gap c'); auto.
  - cbn [all_chars]. now rewrite (allowed_not_gap_tidy c Hc G), IH.
Qed.

Lemma collapse_gaps_single (s : string) :
  all_chars allowed s = true -> single_gaps (collapse_gaps s) = true.
Proof.
  induction s as [|c s IH]; auto.
  cbn [all_chars collapse_gaps]. rewrite andb_true_iff. intros [Hc Hs].
  specialize (IH Hs).
  destruct (is_gap c) eqn:G.
  - destruct s as [|c' s']; auto.
    destruct (is_gap c') eqn:G'; auto.
    cbn [collapse_gaps] in *. rewrite G' in *.
    cbn [single_gaps] in *. rewrite IH, andb_true_r. simpl Ascii.eqb.
    unfold is_gap in G'. apply orb_false_iff in G'. now rewrite (proj2 G').
  - cbn [single_gaps]. rewrite IH, andb_true_r.
    unfold is_gap in G. apply orb_false_iff in G. now rewrite (proj2 G).
Qed.

Lemma single_gaps_lstrip (c : ascii) (s : string) :
  single_gaps s = true -> single_gaps (lstrip c s) = true.
Proof.
  induction s as [|a s IH]; auto.
  cbn [single_gaps lstrip]. rewrite andb_true_iff. intros [Ha Hs].
  destruct (Ascii.eqb a c); auto.
  cbn [single_gaps]. now rewrite Ha, Hs.
Qed.

Lemma single_gaps_rstrip (c : ascii) (s : string) :
  single_gaps s = true -> single_gaps (rstrip c s) = true.
Proof.
  induction s as [|a s IH]; auto.
  cbn [single_gaps rstrip]. rewrite andb_true_iff. intros [Ha Hs].
  specialize (IH Hs).
  destruct (rstrip c s) as [|b r] eqn:E.
  - destruct (Ascii.eqb a c); auto. cbn. now destruct (Ascii.eqb a "_").
  - cbn [single_gaps] in *. rewrite IH, andb_true_r.
    destruct (Ascii.eqb a "_"); auto.
    destruct s as [|b' s']; [discriminate E|].
    cbn [rstrip] in E.
    destruct (rstrip c s'); [destruct (Ascii.eqb b' c); [discriminate E|]|];
      injection E as <- _; exact Ha.
Qed.

(** On a tidy string every stage of [sanitize_filename] is the identity. *)
Lemma replace_problematic_fixed (s : string) :
  all_chars tidy_char s = true -> replace_problematic s = s.
Proof.
  unfold replace_problematic.
  induction s as [|c s IH]; simpl; auto.
  rewrite andb_true_iff. intros [Hc Hs]. rewrite (IH Hs). f_equal.
  unfold tidy_char in Hc.
  destruct (is_word c) eqn:W; auto. simpl in *.
  destruct (is_space c); auto. simpl.
  destruct (Ascii.eqb c "-") eqn:Hy; auto. simpl in Hc.
  symmetry. now apply Ascii.eqb_eq.
Qed.

Lemma collapse_gaps_fixed (s : string) :
  all_chars tidy_char s = true -> single_gaps s = true -> collapse_gaps s = s.
Proof.
  induction s as [|c s IH]; auto.
  cbn [all_chars single_gaps collapse_gaps]. rewrite !andb_true_iff.
  intros [Hc Hs] [Hg Hss]. specialize (IH Hs Hss).
  destruct (is_gap c) eqn:G.
  - pose proof (tidy_gap_underscore c Hc G) as Eu. rewrite Eu in Hg.
    apply Ascii.eqb_eq in Eu. subst c.
    destruct s as [|c' s']; auto.
    apply negb_true_iff in Hg.
    cbn [all_chars] in Hs. apply andb_true_iff in Hs.
    rewrite (tidy_not_underscore_not_gap c' (proj1 Hs) Hg).
    now rewrite IH.
  - now rewrite IH.
Qed.

Lemma tidy_char_plain (c : ascii) :
  tidy_char c = true -> negb (Ascii.eqb c "/") && negb (Ascii.eqb c ".") = true.
Proof.
  intros H.
  destruct (Ascii.eqb c "/") eqn:E1.
  { apply Ascii.eqb_eq in E1. subst c. discriminate H. }
  destruct (Ascii.eqb c ".") eqn:E2.
  { apply Ascii.eqb_eq in E2. subst c. discriminate H. }
  reflexivity.
Qed.

Lemma stripped_tidy (x : string) : all_chars tidy_char (stripped x) = true.
Proof.
  apply all_chars_strip, collapse_gaps_tidy, replace_problematic_allowed.
Qed.

Lemma stripped_single (x : string) : single_gaps (stripped x) = true.
Proof.
  unfold stripped, strip.
  apply single_gaps_rstrip, single_gaps_lstrip, collapse_gaps_single,
    replace_problematic_allowed.
Qed.

Lemma sanitize_filename_stripped (x : string) :
  sanitize_filename x = if String.eqb (stripped x) "" then "untitled" else stripped x.
Proof. reflexivity. Qed.

(** Every character of a sanitized name is a word character or a hyphen. *)
Lemma sanitize_filename_chars (x : string) :
  all_chars (fun c => is_word c || Ascii.eqb c "-") (sanitize_filename x) = true.
Proof.
  rewrite sanitize_filename_stripped.
  destruct (String.eqb (stripped x) ""); [reflexivity|].
  generalize (stripped_tidy x). apply all_chars_impl.
  intros c. unfold tidy_char.
  destruct (Ascii.eqb c "_") eqn:E.
  - apply Ascii.eqb_eq in E. subst c. reflexivity.
  - rewrite orb_false_r, andb_true_iff. tauto.
Qed.

Lemma sanitize_filename_nonempty (x : string) : sanitize_filename x <> "".
Proof.
  rewrite sanitize_filename_stripped.
  destruct (String.eqb (stripped x) "") eqn:E; [discriminate|].
  intros H. rewrite H in E. discriminate.
Qed.

(** C8. Sanitizing is idempotent: sanitizing a sanitized name gives it
    back, for every string. *)
Theorem sanitize_filename_idempotent (x : string) :
  sanitize_filename (sanitize_filename x) = sanitize_filename x.
Proof.
  rewrite (sanitize_filename_stripped x).
  destruct (String.eqb (stripped x) "") eqn:E; [reflexivity|].
  pose proof (stripped_tidy x) as Ht.
  pose proof (stripped_single x) as Hs.
  assert (Hne : stripped x <> "").
  { intros H. rewrite H in E. discriminate. }
  unfold sanitize_filename.
  rewrite stem_plain; auto.
  2:{ revert Ht. apply all_chars_impl, tidy_char_plain. }
  rewrite (replace_problematic_fixed _ Ht), (collapse_gaps_fixed _ Ht Hs).
  unfold stripped at 1 2. rewrite strip_idem. fold (stripped x).
  now rewrite E.
Qed.

End SanitizeFacts.

(** ** Dictionaries *)

Module DictFacts.
Import Dict.

Lemma get_set_same {V} (d : dict V) (k : string) (v : V) : get (set d k v) k = Some v.
Proof.
  induction d as [|[k' v'] d IH]; simpl.
  - now rewrite String.eqb_refl.
  - destruct (String.eqb k' k) eqn:E; simpl; rewrite E; auto.
Qed.

Lemma get_set_other {V} (d : dict V) (k k' : string) (v : V) :
  k <> k' -> get (set d k v) k' = get d k'.
Proof.
  intros Hne. induction d as [|[k0 v0] d IH]; simpl.
  - destruct (String.eqb k k') eqn:E; auto.
    apply String.eqb_eq in E. contradiction.
  - destruct (String.eqb k0 k) eqn:E; simpl.
    + apply String.eqb_eq in E. subst k0.
      destruct (String.eqb k k') eqn:E'; auto.
      apply String.eqb_eq in E'. contradiction.
    + now rewrite IH.
Qed.

Lemma set_not_nil {V} (d : dict V) (k : string) (v : V) : set d k v <> [].
Proof.
  destruct d as [|[k' v'] d]; simpl; [discriminate|].
  destruct (String.eqb k' k); discriminate.
Qed.

Lemma get_none_keys {V} (d : dict V) (k : string) : get d k = None <-> ~ In k (keys d).
Proof.
  induction d as [|[k' v'] d IH]; simpl; [tauto|].
  destruct (String.eqb k' k) eqn:E.
  - apply String.eqb_eq in E. split; [discriminate|]. intros H. exfalso. auto.
  - apply String.eqb_neq in E. rewrite IH. tauto.
Qed.

Lemma get_in {V} (d : dict V) (k : string) (v : V) : get d k = Some v -> In (k, v) d.
Proof.
  induction d as [|[k' v'] d IH]; simpl; [discriminate|].
  destruct (String.eqb k' k) eqn:E.
  - apply String.eqb_eq in E. intros [= ->]. subst. now left.
  - auto.
Qed.

Lemma in_keys {V} (d : dict V) (k : string) (v : V) : In (k, v) d -> In k (keys d).
Proof. intros H. apply (in_map fst) in H. exact H. Qed.

Lemma keys_in {V} (d : dict V) (k : string) : In k (keys d) -> exists v, In (k, v) d.
Proof.
  unfold keys. rewrite in_map_iff. intros [[k' v] [E H]]. simpl in E. subst. eauto.
Qed.

Lemma keys_set {V} (d : dict V) (k : string) (v : V) :
  keys (set d k v) = if in_dec string_dec k (keys d) then keys d else keys d ++ [k].
Proof.
  induction d as [|[k' v'] d IH]; simpl; auto.
  destruct (String.eqb k' k) eqn:E.
  - apply String.eqb_eq in E. subst k'.
    destruct (string_dec k k); [|contradiction]. reflexivity.
  - apply String.eqb_neq in E. simpl. rewrite IH.
    destruct (string_dec k' k); [contradiction|].
    destruct (in_dec string_dec k (keys d)); reflexivity.
Qed.

Lemma keys_set_nodup {V} (d : dict V) (k : string) (v : V) :
  NoDup (keys d) -> NoDup (keys (set d k v)).
Proof.
  intros H. rewrite keys_set.
  destruct (in_dec string_dec k (keys d)) as [Hin|Hout]; auto.
  apply NoDup_app; auto.
  - constructor; [intros []|constructor].
  - intros x Hx [<-|[]]. contradiction.
Qed.

(** Assigning to a key of a dictionary that is not empty keeps its first key. *)
Lemma set_head {V} (k0 : string) (v0 : V) (d : dict V) (k : string) (v : V) :
  exists v1 d1, set ((k0, v0) :: d) k v = (k0, v1) :: d1.
Proof.
  simpl. destruct (String.eqb k0 k); eauto.
Qed.

Lemma get_list_set_same {A} (d : dict (list A)) (k : string) (l : list A) :
  get_list (set d k l) k = l.
Proof. unfold get_list. now rewrite get_set_same. Qed.

Lemma get_list_set_other {A} (d : dict (list A)) (k k' : string) (l : list A) :
  k <> k' -> get_list (set d k l) k' = get_list d k'.
Proof. intros H. unfold get_list. now rewrite get_set_other. Qed.

End DictFacts.

(** ** Discovery *)

Module DiscoverFacts.
Import PyStr Utils DiscoverSpec DictFacts.

Lemma flat_map_nil {A B} (f : A -> list B) (l : list A) :
  flat_map f l = [] <-> Forall (fun x => f x = []) l.
Proof.
  induction l as [|a l IH]; simpl.
  - split; auto.
  - split.
    + intros H. apply app_eq_nil in H. destruct H as [Ha Hl].
      constructor; [exact Ha | now apply IH].
    + intros H. inversion H as [|? ? Ha Hl]; subst.
      rewrite Ha. simpl. now apply IH.
Qed.

Lemma existsb_false_Forall {A} (p : A -> bool) (l : list A) :
  existsb p l = false <-> Forall (fun x => p x = false) l.
Proof.
  induction l as [|a l IH]; simpl.
  - split; auto.
  - rewrite orb_false_iff, IH. split.
    + intros [Ha Hl]. now constructor.
    + intros H. inversion H; subst. auto.
Qed.

Lemma glob_ext_nil (dir : string) (entries : list FS.node) (ext : string) :
  glob_ext dir entries ext = []
  <-> Forall (fun n => endswith (FS.node_name n) ext = false) entries.
Proof.
  unfold glob_ext. induction entries as [|n l IH]; simpl.
  - split; auto.
  - destruct (endswith (FS.node_name n) ext) eqn:E; simpl.
    + split; [discriminate|]. intros H. inversion H; subst. congruence.
    + rewrite IH. split.
      * intros H. now constructor.
      * intros H. now inversion H.
Qed.

Lemma supported_in_nil (dir : string) (entries : list FS.node) :
  supported_in dir entries = [] <-> holds_supported entries = false.
Proof.
  unfold supported_in, holds_supported, supported_name.
  rewrite flat_map_nil, existsb_false_Forall.
  rewrite !Forall_forall. split.
  - intros H n Hn. apply existsb_false_Forall, Forall_forall.
    intros ext Hext. specialize (H ext Hext).
    apply glob_ext_nil in H. rewrite Forall_forall in H. auto.
  - intros H ext Hext. apply glob_ext_nil, Forall_forall.
    intros n Hn. specialize (H n Hn).
    apply existsb_false_Forall in H. rewrite Forall_forall in H. auto.
Qed.

Lemma sort_by_not_nil {A} (before : A -> A -> bool) (l : list A) :
  l <> [] -> sort_by before l <> [].
Proof.
  destruct l as [|a l]; [congruence|]. intros _. simpl.
  destruct (sort_by before l) as [|b r]; simpl; [discriminate|].
  destruct (before b a); discriminate.
Qed.

Lemma scan_item_nil (dir : string) (pm : Dict.dict (list FS.Path)) (item : FS.node) :
  scan_item dir pm item = [] <-> pm = [] /\ visible_folder_with_supported item = false.
Proof.
  destruct item as [nm t txt | nm t children]; simpl.
  - tauto.
  - destruct (startswith nm "."); simpl; [tauto|].
    destruct (supported_in (PurePath.join_path dir nm) children) as [|p ps] eqn:E.
    + apply supported_in_nil in E. rewrite E. tauto.
    + assert (H : holds_supported children = true).
      { destruct (holds_supported children) eqn:Hh; auto.
        apply (supported_in_nil (PurePath.join_path dir nm)) in Hh. congruence. }
      rewrite H. split.
      * intros Hs. exfalso. revert Hs. apply set_not_nil.
      * intros [_ Hf]. discriminate.
Qed.

Lemma scan_all_nil (dir : string) (entries : list FS.node) (pm : Dict.dict (list FS.Path)) :
  fold_left (scan_item dir) entries pm = []
  <-> pm = [] /\ existsb visible_folder_with_supported entries = false.
Proof.
  revert pm. induction entries as [|item l IH]; intros pm; simpl.
  - tauto.
  - rewrite IH, scan_item_nil, orb_false_iff. tauto.
Qed.

Lemma processing_map_nil (dir : string) (entries : list FS.node) :
  processing_map_of dir entries = [] <-> any_supported entries = false.
Proof.
  unfold processing_map_of.
  rewrite scan_all_nil. unfold any_supported. rewrite orb_false_iff.
  destruct (supported_in dir entries) as [|p ps] eqn:E.
  - apply supported_in_nil in E. tauto.
  - assert (H : holds_supported entries = true).
    { destruct (holds_supported entries) eqn:Hh; auto.
      apply (supported_in_nil dir) in Hh. congruence. }
    rewrite H. split; intros [H1 H2]; discriminate.
Qed.

Lemma discover_unfold (files : FS.fs) (dir : string) (entries : list FS.node) :
  Dict.get files dir = Some entries ->
  discover_processing_folders files dir
  = match processing_map_of dir entries with
    | [] => Py.Raises (Py.ValueError no_files_message)
    | _ => Py.Returns (processing_map_of dir entries)
    end.
Proof.
  intros Hg. unfold discover_processing_folders. rewrite Hg. reflexivity.
Qed.

Lemma discover_not_found (files : FS.fs) (dir : string) :
  FS.exists_dir files dir = false ->
  discover_processing_folders files dir
  = Py.Raises (Py.FileNotFoundError ("Imports directory not found: " +++ dir)).
Proof.
  unfold FS.exists_dir, discover_processing_folders.
  destruct (Dict.get files dir); [discriminate | reflexivity].
Qed.

Lemma discover_no_files (files : FS.fs) (dir : string) (entries : list FS.node) :
  Dict.get files dir = Some entries -> any_supported entries = false ->
  discover_processing_folders files dir = Py.Raises (Py.ValueError no_files_message).
Proof.
  intros Hg Hn. rewrite (discover_unfold _ _ _ Hg).
  apply (processing_map_nil dir) in Hn. now rewrite Hn.
Qed.

Lemma discover_returns (files : FS.fs) (dir : string) (entries : list FS.node) :
  Dict.get files dir = Some entries -> any_supported entries = true ->
  discover_processing_folders files dir = Py.Returns (processing_map_of dir entries)
  /\ processing_map_of dir entries <> [].
Proof.
  intros Hg Hn. rewrite (discover_unfold _ _ _ Hg).
  destruct (processing_map_of dir entries) as [|g pm] eqn:E.
  - apply processing_map_nil in E. congruence.
  - split; [reflexivity | discriminate].
Qed.

Lemma discover_returns_inv (files : FS.fs) (dir : string) (pm : Dict.dict (list FS.Path)) :
  discover_processing_folders files dir = Py.Returns pm ->
  exists entries, Dict.get files dir = Some entries /\ pm = processing_map_of dir entries.
Proof.
  intros H. destruct (Dict.get files dir) as [entries|] eqn:Hg.
  - exists entries. split; auto. rewrite (discover_unfold _ _ _ Hg) in H.
    destruct (processing_map_of dir entries); [discriminate | congruence].
  - rewrite discover_not_found in H; [discriminate|].
    unfold FS.exists_dir. now rewrite Hg.
Qed.

(** C7. Discovery fails with FileNotFoundError exactly when the input root
    does not exist; it fails with ValueError exactly when the root exists and
    no supported name is found directly in it or in an immediate non-hidden
    subdirectory; and the ValueError message names every supported format. *)
Theorem discover_failure_modes :
  (forall files dir,
      (exists msg, discover_processing_folders files dir = Py.Raises (Py.FileNotFoundError msg))
      <-> FS.exists_dir files dir = false)
  /\ (forall files dir,
      (exists msg, discover_processing_folders files dir = Py.Raises (Py.ValueError msg))
      <-> (exists entries, Dict.get files dir = Some entries /\ any_supported entries = false))
  /\ (forall files dir msg,
      discover_processing_folders files dir = Py.Raises (Py.ValueError msg) ->
      Forall (fun ext => contains msg ext = true) Config.SUPPORTED_FORMATS).
Proof.
  split; [|split].
  - intros files dir. split.
    + intros [msg H]. unfold FS.exists_dir.
      destruct (Dict.get files dir) as [entries|] eqn:Hg; auto.
      destruct (any_supported entries) eqn:Ha.
      * destruct (discover_returns _ _ _ Hg Ha) as [Hr _]. congruence.
      * rewrite (discover_no_files _ _ _ Hg Ha) in H. discriminate.
    + intros H. eexists. now apply discover_not_found.
  - intros files dir. split.
    + intros [msg H].
      destruct (Dict.get files dir) as [entries|] eqn:Hg.
      * exists entries. split; auto.
        destruct (any_supported entries) eqn:Ha; auto.
        destruct (discover_returns _ _ _ Hg Ha) as [Hr _]. congruence.
      * rewrite (discover_not_found files dir) in H; [discriminate|].
        unfold FS.exists_dir. now rewrite Hg.
    + intros [entries [Hg Ha]]. eexists. exact (discover_no_files _ _ _ Hg Ha).
  - intros files dir msg H.
    assert (msg = no_files_message) as ->.
    { destruct (Dict.get files dir) as [entries|] eqn:Hg.
      - destruct (any_supported entries) eqn:Ha.
        + destruct (discover_returns _ _ _ Hg Ha) as [Hr _]. congruence.
        + rewrite (discover_no_files _ _ _ Hg Ha) in H. congruence.
      - rewrite discover_not_found in H; [discriminate|].
        unfold FS.exists_dir. now rewrite Hg. }
    repeat constructor.
Qed.

End DiscoverFacts.

(** ** The loops of the orchestrator *)

Module LoopFacts.
Import PyStr Model Orchestrator RunSpec DictFacts.

Lemma append_assoc (a b c : string) : (a +++ b) +++ c = a +++ b +++ c.
Proof. induction a as [|x a IH]; simpl; [reflexivity | now rewrite IH]. Qed.

Lemma append_nil_r (a : string) : a +++ "" = a.
Proof. induction a as [|x a IH]; simpl; [reflexivity | now rewrite IH]. Qed.

Lemma file_step_spec (env : FS.Env) (folder_name : string) (p : FS.Path)
    (text : string) (r : ConversionResult) (w : FS.World) :
  file_step env folder_name p (text, r) w
  = (Py.Returns (text +++ join_all (sections env [p]), record_file env folder_name r p),
     FS.mkWorld (FS.files w) (FS.calls w ++ [p])).
Proof.
  unfold file_step, FS.bind, FS.log_call, FS.ret, record_file, sections, succeeded,
    section, fails. simpl.
  destruct (FS.transform env p) as [blob|] eqn:E; simpl.
  - rewrite E. simpl. now rewrite append_nil_r.
  - now rewrite append_nil_r.
Qed.

Lemma join_all_app (l1 l2 : list string) : join_all (l1 ++ l2) = join_all l1 +++ join_all l2.
Proof.
  induction l1 as [|x l1 IH]; simpl; [reflexivity|]. now rewrite IH, append_assoc.
Qed.

Lemma sections_cons (env : FS.Env) (p : FS.Path) (files : list FS.Path) :
  sections env (p :: files) = sections env [p] ++ sections env files.
Proof.
  unfold sections, succeeded. simpl. destruct (negb (fails env p)); reflexivity.
Qed.

(** The loop over the files of a folder never raises: it calls the
    transformer on every file in order, writes the sections of those that
    succeed and records each file as processed or failed. *)
Lemma file_loop_spec (env : FS.Env) (folder_name : string) (files : list FS.Path) :
  forall text r w,
    FS.for_each (file_step env folder_name) files (text, r) w
    = (Py.Returns (text +++ join_all (sections env files), record_all env folder_name files r),
       FS.mkWorld (FS.files w) (FS.calls w ++ files)).
Proof.
  induction files as [|p files IH]; intros text r w.
  - simpl. unfold FS.ret. rewrite append_nil_r, app_nil_r. now destruct w.
  - cbn [FS.for_each]. unfold FS.bind at 1. rewrite file_step_spec.
    rewrite IH. cbn [FS.files FS.calls].
    rewrite (sections_cons env p files), join_all_app, append_assoc, <- app_assoc.
    reflexivity.
Qed.

(** *** Fields after the loop *)

Lemma record_all_failed (env : FS.Env) (folder_name : string) (files : list FS.Path) :
  forall r, failed_files (record_all env folder_name files r)
            = failed_files r ++ names (failed env files).
Proof.
  unfold record_all, failed, names.
  induction files as [|p files IH]; intros r; simpl.
  - now rewrite app_nil_r.
  - rewrite IH. unfold record_file.
    destruct (fails env p); simpl; [now rewrite <- app_assoc | reflexivity].
Qed.

Lemma record_all_processed (env : FS.Env) (folder_name : string) (files : list FS.Path) :
  forall r, Dict.get_list (processed_folders (record_all env folder_name files r)) folder_name
            = Dict.get_list (processed_folders r) folder_name ++ names (succeeded env files).
Proof.
  unfold record_all, succeeded, names.
  induction files as [|p files IH]; intros r; simpl.
  - now rewrite app_nil_r.
  - rewrite IH. unfold record_file.
    destruct (fails env p); simpl; [reflexivity|].
    unfold Dict.setdefault_append. rewrite get_list_set_same, <- app_assoc. reflexivity.
Qed.

Lemma record_all_processed_other (env : FS.Env) (folder_name : string) (files : list FS.Path)
    (k : string) :
  folder_name <> k ->
  forall r, Dict.get (processed_folders (record_all env folder_name files r)) k
            = Dict.get (processed_folders r) k.
Proof.
  intros Hne. unfold record_all.
  induction files as [|p files IH]; intros r; simpl; [reflexivity|].
  rewrite IH. unfold record_file.
  destruct (fails env p); simpl; [reflexivity|].
  unfold Dict.setdefault_append. now rewrite get_set_other.
Qed.

Lemma record_all_processed_none (env : FS.Env) (folder_name : string) (files : list FS.Path) :
  succeeded env files = [] ->
  forall r, processed_folders (record_all env folder_name files r) = processed_folders r.
Proof.
  unfold record_all, succeeded.
  induction files as [|p files IH]; intros Hs r; simpl in *; [reflexivity|].
  unfold record_file at 2. destruct (fails env p); simpl in *; [|discriminate].
  now rewrite IH.
Qed.

Lemma record_all_others (env : FS.Env) (folder_name : string) (files : list FS.Path) :
  forall r,
    let r' := record_all env folder_name files r in
    skipped_folders r' = skipped_folders r /\ output_files r' = output_files r
    /\ error_message r' = error_message r /\ success r' = success r.
Proof.
  unfold record_all.
  induction files as [|p files IH]; intros r; simpl; [tauto|].
  destruct (IH (record_file env folder_name r p)) as (H1 & H2 & H3 & H4).
  rewrite H1, H2, H3, H4. unfold record_file. destruct (fails env p); simpl; tauto.
Qed.

Lemma filter_split {A} (p : A -> bool) (l : list A) :
  Permutation (filter (fun x => negb (p x)) l ++ filter p l) l.
Proof.
  induction l as [|a l IH]; simpl; [constructor|].
  destruct (p a); simpl.
  - apply Permutation_sym, Permutation_cons_app, Permutation_sym, IH.
  - now constructor.
Qed.

Lemma succeeded_failed_perm (env : FS.Env) (files : list FS.Path) :
  Permutation (names (succeeded env files) ++ names (failed env files)) (names files).
Proof.
  unfold names, succeeded, failed. rewrite <- map_app.
  apply Permutation_map, filter_split.
Qed.

Lemma succeeded_failed_length (env : FS.Env) (files : list FS.Path) :
  length (sections env files) = length files - length (failed env files).
Proof.
  unfold sections. rewrite length_map.
  pose proof (Permutation_length (filter_split (fails env) files)) as H.
  rewrite length_app in H. unfold succeeded, failed. lia.
Qed.

(** *** One folder *)

Lemma folder_step_unfold (cfg : Config.Config) (env : FS.Env) (exports_path : string)
    (output_filename : option string) (folder_name : string) (files : list FS.Path)
    (r : ConversionResult) (w : FS.World) :
  folder_step cfg env exports_path output_filename (folder_name, files) r w
  = if skips cfg (FS.files w) folder_name exports_path then
      (Py.Returns
         (extend_output_files
            (Utils.get_existing_converted_files (FS.files w) folder_name exports_path)
            (set_skipped folder_name (names files) r)), w)
    else
      match out_name_of folder_name output_filename with
      | None =>
          (Py.Raises (Py.TypeError "unsupported operand type(s) for /: 'PosixPath' and 'NoneType'"), w)
      | Some nm =>
          if FS.can_open env (FS.files w) (FS.mkPath exports_path nm) then
            (Py.Returns (extend_output_files [FS.mkPath exports_path nm]
                           (record_all env folder_name files r)),
             FS.mkWorld
               (FS.store env (FS.files w) (FS.mkPath exports_path nm)
                  (header folder_name (length files) +++ join_all (sections env files)))
               (FS.calls w ++ files))
          else (Py.Returns r, w)
      end.
Proof.
  unfold folder_step, skips, out_name_of.
  unfold FS.bind at 1. unfold FS.get_files at 1.
  destruct (Config.SKIP_ALREADY_CONVERTED cfg
            && Utils.check_folder_already_converted (FS.files w) folder_name exports_path).
  - reflexivity.
  - destruct (if String.eqb folder_name "_root" then output_filename
              else Some (folder_name +++ ".md")) as [nm|]; [|reflexivity].
    unfold join_out, FS.bind at 1, FS.ret at 1.
    destruct (FS.can_open env (FS.files w) (FS.mkPath exports_path nm)); [|reflexivity].
    unfold FS.bind at 1. rewrite file_loop_spec. reflexivity.
Qed.

End LoopFacts.

(** ** The ledger *)

Module LedgerFacts.
Import PyStr Utils RunSpec.

Lemma insert_by_perm {A} (before : A -> A -> bool) (x : A) (l : list A) :
  Permutation (insert_by before x l) (x :: l).
Proof.
  induction l as [|y l IH]; simpl; [reflexivity|].
  destruct (before y x); [|reflexivity].
  rewrite IH. apply perm_swap.
Qed.

Lemma sort_by_perm {A} (before : A -> A -> bool) (l : list A) :
  Permutation (sort_by before l) l.
Proof.
  induction l as [|x l IH]; simpl; [reflexivity|].
  rewrite insert_by_perm. now constructor.
Qed.

Lemma newest_first_perm (l : list FS.node) : Permutation (newest_first l) l.
Proof. apply sort_by_perm. Qed.

Lemma insert_newest_sorted (x : FS.node) (l : list FS.node) :
  StronglySorted newer_or_same l ->
  StronglySorted newer_or_same
    (insert_by (fun y x => (FS.node_mtime x <? FS.node_mtime y)%Z) x l).
Proof.
  induction 1 as [|y l Hl IH Hy]; simpl.
  - repeat constructor.
  - destruct (FS.node_mtime x <? FS.node_mtime y)%Z eqn:E.
    + apply Z.ltb_lt in E. constructor; [exact IH|].
      eapply Permutation_Forall; [symmetry; apply insert_by_perm|].
      constructor; [unfold newer_or_same; lia | exact Hy].
    + apply Z.ltb_ge in E. constructor; [now constructor|].
      constructor; [exact E|].
      eapply Forall_impl; [|exact Hy]. unfold newer_or_same. intros z Hz. lia.
Qed.

Lemma newest_first_sorted (l : list FS.node) : StronglySorted newer_or_same (newest_first l).
Proof.
  unfold newest_first. induction l as [|x l IH]; simpl; [constructor|].
  now apply insert_newest_sorted.
Qed.

Lemma check_true_glob (files : FS.fs) (folder_name exports_dir : string) :
  check_folder_already_converted files folder_name exports_dir = true ->
  FS.exists_dir files exports_dir = true
  /\ glob_converted folder_name (FS.listdir files exports_dir) <> [].
Proof.
  unfold check_folder_already_converted.
  destruct (FS.exists_dir files exports_dir); simpl; [|discriminate].
  destruct (glob_converted folder_name (FS.listdir files exports_dir)); [discriminate|].
  intros _. split; [reflexivity | discriminate].
Qed.

(** The ledger reports a folder as converted exactly when an entry of the
    output directory is named [<sanitized folder>_<anything>.md]. *)
Lemma check_true_iff (files : FS.fs) (folder_name exports_dir : string) :
  check_folder_already_converted files folder_name exports_dir = true
  <-> exists n, In n (FS.listdir files exports_dir)
                /\ FS.fnmatch_affix (sanitize_filename folder_name +++ "_") ".md"
                     (FS.node_name n) = true.
Proof.
  split.
  - intros H. apply check_true_glob in H. destruct H as [_ H].
    destruct (glob_converted folder_name (FS.listdir files exports_dir)) as [|n l] eqn:E;
      [congruence|].
    exists n. unfold glob_converted in E.
    apply (filter_In (fun n => FS.fnmatch_affix (sanitize_filename folder_name +++ "_") ".md"
                                 (FS.node_name n))).
    rewrite E. now left.
  - intros [n Hn].
    apply (filter_In (fun n => FS.fnmatch_affix (sanitize_filename folder_name +++ "_") ".md"
                                 (FS.node_name n))) in Hn.
    fold (glob_converted folder_name (FS.listdir files exports_dir)) in Hn.
    unfold check_folder_already_converted.
    destruct (glob_converted folder_name (FS.listdir files exports_dir)) as [|m l] eqn:E;
      [destruct Hn|].
    unfold FS.exists_dir. unfold glob_converted, FS.listdir in E.
    destruct (Dict.get files exports_dir); [reflexivity | discriminate E].
Qed.

Lemma existing_unfold (files : FS.fs) (folder_name exports_dir : string) :
  FS.exists_dir files exports_dir = true ->
  get_existing_converted_files files folder_name exports_dir
  = map (to_path exports_dir)
      (newest_first (glob_converted folder_name (FS.listdir files exports_dir))).
Proof.
  intros H. unfold get_existing_converted_files. now rewrite H.
Qed.

(** Without the output directory there is no artifact. *)
Lemma existing_without_dir (files : FS.fs) (folder_name exports_dir : string) :
  FS.exists_dir files exports_dir = false ->
  get_existing_converted_files files folder_name exports_dir = []
  /\ check_folder_already_converted files folder_name exports_dir = false.
Proof.
  intros H. unfold get_existing_converted_files, check_folder_already_converted.
  now rewrite H.
Qed.

End LedgerFacts.

(** ** One folder group *)

Module FolderFacts.
Import PyStr Model Orchestrator RunSpec DictFacts LoopFacts LedgerFacts.

Lemma put_file_in (entries : list FS.node) (nm : string) (t : Z) (text : string) :
  In (FS.File nm t text) (FS.put_file entries nm t text).
Proof.
  induction entries as [|n l IH]; simpl; [now left|].
  destruct (String.eqb (FS.node_name n) nm); [now left | now right].
Qed.

Lemma listdir_store (env : FS.Env) (files : FS.fs) (p : FS.Path) (text : string) :
  FS.listdir (FS.store env files p text) (FS.parent p)
  = FS.put_file (FS.listdir files (FS.parent p)) (FS.name p) (FS.mtime_of_write env p) text.
Proof.
  unfold FS.store. unfold FS.listdir at 1. now rewrite get_set_same.
Qed.

(** C3, as amended. A folder group that the ledger reports as converted
    is skipped: the group's file names become its entry of [skipped_folders],
    every existing artifact of the folder (there is at least one) is appended
    to [output_files], newest first, and nothing else changes: no file is
    written and the transformer is not called. *)
Theorem skipped_folder_reuses_every_artifact
    (cfg : Config.Config) (env : FS.Env) (exports_path : string)
    (output_filename : option string) (folder_name : string) (files : list FS.Path)
    (r : ConversionResult) (w : FS.World) :
  skips cfg (FS.files w) folder_name exports_path = true ->
  exists r' existing,
    folder_step cfg env exports_path output_filename (folder_name, files) r w
    = (Py.Returns r', w)
    /\ skipped_folders r' = Dict.set (skipped_folders r) folder_name (names files)
    /\ output_files r' = output_files r ++ map (to_path exports_path) existing
    /\ existing <> []
    /\ Permutation existing
         (Utils.glob_converted folder_name (FS.listdir (FS.files w) exports_path))
    /\ StronglySorted newer_or_same existing
    /\ processed_folders r' = processed_folders r
    /\ failed_files r' = failed_files r.
Proof.
  intros Hs. rewrite folder_step_unfold, Hs.
  unfold skips in Hs. apply andb_true_iff in Hs. destruct Hs as [_ Hc].
  apply check_true_glob in Hc. destruct Hc as [Hd Hg].
  eexists. exists (Utils.newest_first
                     (Utils.glob_converted folder_name (FS.listdir (FS.files w) exports_path))).
  split; [reflexivity|]. simpl.
  rewrite (existing_unfold _ _ _ Hd).
  repeat split; auto.
  - intros E. apply Hg.
    pose proof (newest_first_perm
                  (Utils.glob_converted folder_name (FS.listdir (FS.files w) exports_path)))
      as P.
    rewrite E in P. now apply Permutation_nil in P.
  - apply newest_first_perm.
  - apply newest_first_sorted.
Qed.

(** The folder step of a group that is not skipped and whose artifact can be
    opened. *)
Lemma folder_step_processed
    (cfg : Config.Config) (env : FS.Env) (exports_path : string)
    (output_filename : option string) (folder_name : string) (files : list FS.Path)
    (r : ConversionResult) (w : FS.World) (nm : string) :
  skips cfg (FS.files w) folder_name exports_path = false ->
  out_name_of folder_name output_filename = Some nm ->
  FS.can_open env (FS.files w) (FS.mkPath exports_path nm) = true ->
  folder_step cfg env exports_path output_filename (folder_name, files) r w
  = (Py.Returns (extend_output_files [FS.mkPath exports_path nm]
                   (record_all env folder_name files r)),
     FS.mkWorld
       (FS.store env (FS.files w) (FS.mkPath exports_path nm)
          (header folder_name (length files) +++ join_all (sections env files)))
       (FS.calls w ++ files)).
Proof.
  intros Hs Hn Ho. now rewrite folder_step_unfold, Hs, Hn, Ho.
Qed.

End FolderFacts.

(** ** A whole run *)

Module RunFacts.
Import PyStr Model Orchestrator RunSpec DiscoverSpec.
Import DictFacts DiscoverFacts LoopFacts LedgerFacts FolderFacts.

Lemma run_unfold (cfg : Config.Config) (env : FS.Env)
    (imports_dir exports_dir output_filename : option string) (w : FS.World) :
  run cfg env imports_dir exports_dir output_filename w
  = match FS.mkdir env (exports_path_of cfg exports_dir) w with
    | (Py.Returns _, w0) =>
        match Utils.discover_processing_folders (FS.files w0) (imports_path_of cfg imports_dir) with
        | Py.Returns pm =>
            match FS.for_each
                    (folder_step cfg env (exports_path_of cfg exports_dir) output_filename)
                    pm new_result w0 with
            | (Py.Returns r1, w1) =>
                match _generate_summary_report env (finish env r1)
                        (exports_path_of cfg exports_dir) w1 with
                | (Py.Returns _, w2) => (Py.Returns (finish env r1), w2)
                | (Py.Raises ex, w2) => (Py.Raises ex, w2)
                end
            | (Py.Raises ex, w1) => (Py.Raises ex, w1)
            end
        | Py.Raises ex => (Py.Raises ex, w0)
        end
    | (Py.Raises ex, w0) => (Py.Raises ex, w0)
    end.
Proof.
  unfold run, exports_path_of, imports_path_of, finish,
    FileDiscovery.discover_processing_folders_grouped.
  cbv zeta. unfold FS.bind at 1.
  destruct (FS.mkdir env _ w) as [[u|ex] w0]; [|reflexivity].
  unfold FS.bind at 1. unfold FS.get_files at 1.
  unfold FS.bind at 1. unfold FS.lift at 1.
  destruct (Utils.discover_processing_folders _ _) as [pm|ex]; [|reflexivity].
  unfold FS.bind at 1.
  destruct (FS.for_each _ pm new_result w0) as [[r1|ex] w1]; [|reflexivity].
  unfold FS.bind at 1.
  destruct (_generate_summary_report _ _ _ w1) as [[u'|ex] w2]; reflexivity.
Qed.

(** What a run that returns went through. *)
Lemma run_returns_inv (cfg : Config.Config) (env : FS.Env)
    (imports_dir exports_dir output_filename : option string) (w w' : FS.World)
    (r : ConversionResult) :
  run cfg env imports_dir exports_dir output_filename w = (Py.Returns r, w') ->
  exists pm r1 w1,
    Utils.discover_processing_folders
      (files_after_mkdir env (exports_path_of cfg exports_dir) w)
      (imports_path_of cfg imports_dir) = Py.Returns pm
    /\ FS.for_each (folder_step cfg env (exports_path_of cfg exports_dir) output_filename)
         pm new_result (snd (FS.mkdir env (exports_path_of cfg exports_dir) w))
       = (Py.Returns r1, w1)
    /\ r = finish env r1
    /\ fst (_generate_summary_report env r (exports_path_of cfg exports_dir) w1) = Py.Returns tt
    /\ w' = snd (_generate_summary_report env r (exports_path_of cfg exports_dir) w1).
Proof.
  rewrite run_unfold. unfold files_after_mkdir.
  destruct (FS.mkdir env _ w) as [[u|ex] w0]; [|discriminate]. simpl.
  destruct (Utils.discover_processing_folders _ _) as [pm|ex]; [|discriminate].
  destruct (FS.for_each _ pm new_result w0) as [[r1|ex] w1] eqn:E; [|discriminate].
  destruct (_generate_summary_report _ _ _ w1) as [[u'|ex] w2] eqn:E'; [|discriminate].
  intros [= <- <-]. exists pm, r1, w1. rewrite E'. destruct u'. auto.
Qed.

(** Nothing in [run] catches what discovery raises. *)
Lemma run_propagates_discovery_error (cfg : Config.Config) (env : FS.Env)
    (imports_dir exports_dir output_filename : option string) (w : FS.World) (e : Py.exn) :
  fst (FS.mkdir env (exports_path_of cfg exports_dir) w) = Py.Returns tt ->
  Utils.discover_processing_folders
    (files_after_mkdir env (exports_path_of cfg exports_dir) w)
    (imports_path_of cfg imports_dir) = Py.Raises e ->
  run cfg env imports_dir exports_dir output_filename w
  = (Py.Raises e, snd (FS.mkdir env (exports_path_of cfg exports_dir) w)).
Proof.
  unfold files_after_mkdir. intros Hm Hd. rewrite run_unfold.
  destruct (FS.mkdir env (exports_path_of cfg exports_dir) w) as [o w0].
  simpl in *. subst o. now rewrite Hd.
Qed.

(** Nor what writing the summary report raises. *)
Lemma report_unwritable_raises (env : FS.Env) (r : ConversionResult) (dir : string)
    (w : FS.World) :
  FS.write_text_ok env
    (FS.mkPath dir ("processing_summary_" +++ str_of_Z (FS.time_report env) +++ ".md"))
  = false ->
  exists msg, _generate_summary_report env r dir w = (Py.Raises (Py.OSError msg), w).
Proof.
  intros H. unfold _generate_summary_report, FS.bind, FS.get_files.
  rewrite H, andb_false_r. unfold FS.raise. eauto.
Qed.

Lemma run_propagates_report_error (cfg : Config.Config) (env : FS.Env)
    (imports_dir exports_dir output_filename : option string) (w : FS.World) :
  FS.write_text_ok env
    (FS.mkPath (exports_path_of cfg exports_dir)
       ("processing_summary_" +++ str_of_Z (FS.time_report env) +++ ".md"))
  = false ->
  forall r w', run cfg env imports_dir exports_dir output_filename w <> (Py.Returns r, w').
Proof.
  intros H r w'. rewrite run_unfold.
  destruct (FS.mkdir env _ w) as [[u|ex] w0]; [|discriminate].
  destruct (Utils.discover_processing_folders _ _) as [pm|ex]; [|discriminate].
  destruct (FS.for_each _ pm new_result w0) as [[r1|ex] w1]; [|discriminate].
  destruct (report_unwritable_raises env (finish env r1) _ w1 H) as [msg ->].
  discriminate.
Qed.

Lemma for_each_preserves {A S} (body : A -> S -> FS.M S) (P : S -> Prop) :
  (forall a s w s' w', P s -> body a s w = (Py.Returns s', w') -> P s') ->
  forall l s w s' w', P s -> FS.for_each body l s w = (Py.Returns s', w') -> P s'.
Proof.
  intros Hbody. induction l as [|a l IH]; intros s w s' w' Hs; simpl.
  - unfold FS.ret. now intros [= <- _].
  - unfold FS.bind. destruct (body a s w) as [[s1|ex] w1] eqn:E; [|discriminate].
    apply IH. eapply Hbody; eauto.
Qed.

(** An invariant that follows the groups already seen. *)
Lemma for_each_seen {A S} (body : A -> S -> FS.M S) (P : list A -> S -> Prop) (l : list A) :
  (forall seen a rest s w s' w',
      l = seen ++ a :: rest -> P seen s -> body a s w = (Py.Returns s', w') ->
      P (seen ++ [a]) s') ->
  forall s w s' w', P [] s -> FS.for_each body l s w = (Py.Returns s', w') -> P l s'.
Proof.
  intros Hbody.
  assert (G : forall rest seen s w s' w',
             l = seen ++ rest -> P seen s ->
             FS.for_each body rest s w = (Py.Returns s', w') -> P l s').
  { induction rest as [|a rest IH]; intros seen s w s' w' Hl Hs; simpl.
    - unfold FS.ret. intros [= <- _]. rewrite app_nil_r in Hl. now subst.
    - unfold FS.bind. destruct (body a s w) as [[s1|ex] w1] eqn:E; [|discriminate].
      apply (IH (seen ++ [a])).
      + rewrite <- app_assoc. exact Hl.
      + eapply Hbody; eauto. }
  intros s w s' w'. now apply (G l []).
Qed.

Lemma folder_step_error_message (cfg : Config.Config) (env : FS.Env) (exports_path : string)
    (output_filename : option string) (item : string * list FS.Path)
    (r r' : ConversionResult) (w w' : FS.World) :
  error_message r = None ->
  folder_step cfg env exports_path output_filename item r w = (Py.Returns r', w') ->
  error_message r' = None.
Proof.
  destruct item as [folder_name files]. intros Hr. rewrite folder_step_unfold.
  destruct (skips cfg (FS.files w) folder_name exports_path).
  - now intros [= <- _].
  - destruct (out_name_of folder_name output_filename) as [nm|]; [|discriminate].
    destruct (FS.can_open env (FS.files w) (FS.mkPath exports_path nm)).
    + intros [= <- _]. simpl.
      now destruct (record_all_others env folder_name files r) as (_ & _ & -> & _).
    + now intros [= <- _].
Qed.

(** C10. A run that returns leaves [error_message] at [None]: no step of
    the orchestrator assigns it. *)
Theorem run_error_message_none (cfg : Config.Config) (env : FS.Env)
    (imports_dir exports_dir output_filename : option string) (w w' : FS.World)
    (r : ConversionResult) :
  run cfg env imports_dir exports_dir output_filename w = (Py.Returns r, w') ->
  error_message r = None.
Proof.
  intros H. apply run_returns_inv in H. destruct H as (pm & r1 & w1 & _ & Hloop & -> & _).
  simpl. revert Hloop.
  apply (for_each_preserves _ (fun r => error_message r = None)); [|reflexivity].
  intros a s w0 s' w0'. apply folder_step_error_message.
Qed.

Lemma finish_success (env : FS.Env) (r : ConversionResult) :
  success (finish env r) = true <-> output_files (finish env r) <> [].
Proof.
  unfold finish. simpl. destruct (output_files r); simpl; split; congruence.
Qed.

(** C5. Partial failure isolation. In a folder group that is processed,
    with fewer failing files than files, the transformer is called on every
    file in order, each failing file is appended to [failed_files], each other
    file is appended to the folder's entry of [processed_folders], the artifact
    holds the header and one section per transformed file (as many as files
    less failures) and its path is appended to [output_files]; and a run that
    returns has [success] true exactly when [output_files] is not empty. *)
Theorem partial_failure_isolation :
  (forall (cfg : Config.Config) (env : FS.Env) (exports_path : string)
          (output_filename : option string) (folder_name : string)
          (files : list FS.Path) (r : ConversionResult) (w : FS.World) (nm : string),
      skips cfg (FS.files w) folder_name exports_path = false ->
      out_name_of folder_name output_filename = Some nm ->
      FS.can_open env (FS.files w) (FS.mkPath exports_path nm) = true ->
      length (failed env files) < length files ->
      exists r' w',
        folder_step cfg env exports_path output_filename (folder_name, files) r w
        = (Py.Returns r', w')
        /\ FS.calls w' = FS.calls w ++ files
        /\ failed_files r' = failed_files r ++ names (failed env files)
        /\ Dict.get_list (processed_folders r') folder_name
           = Dict.get_list (processed_folders r) folder_name ++ names (succeeded env files)
        /\ In (FS.File nm (FS.mtime_of_write env (FS.mkPath exports_path nm))
                 (header folder_name (length files) +++ join_all (sections env files)))
              (FS.listdir (FS.files w') exports_path)
        /\ length (sections env files) = length files - length (failed env files)
        /\ 0 < length (sections env files)
        /\ output_files r' = output_files r ++ [FS.mkPath exports_path nm])
  /\ (forall (cfg : Config.Config) (env : FS.Env)
             (imports_dir exports_dir output_filename : option string)
             (w w' : FS.World) (r : ConversionResult),
         run cfg env imports_dir exports_dir output_filename w = (Py.Returns r, w') ->
         (success r = true <-> output_files r <> [])).
Proof.
  split.
  - intros cfg env exports_path output_filename folder_name files r w nm Hs Hn Ho Hlt.
    do 2 eexists. split; [exact (folder_step_processed _ _ _ _ _ _ _ _ _ Hs Hn Ho)|].
    cbn [FS.calls FS.files]. split; [reflexivity|].
    simpl failed_files. simpl processed_folders. simpl output_files.
    rewrite record_all_failed, record_all_processed.
    destruct (record_all_others env folder_name files r) as (_ & Hout & _).
    rewrite Hout. pose proof (succeeded_failed_length env files) as Hlen.
    repeat split; auto; try lia.
    change exports_path with (FS.parent (FS.mkPath exports_path nm)) at 2.
    rewrite listdir_store. apply put_file_in.
  - intros cfg env imports_dir exports_dir output_filename w w' r H.
    apply run_returns_inv in H. destruct H as (pm & r1 & w1 & _ & _ & -> & _).
    apply finish_success.
Qed.

(** *** The root group and a missing output name *)

Lemma scan_all_head (dir : string) (entries : list FS.node) :
  forall k v d, exists v' d',
    fold_left (Utils.scan_item dir) entries ((k, v) :: d) = (k, v') :: d'.
Proof.
  induction entries as [|item l IH]; intros k v d; simpl; [eauto|].
  assert (H : exists v1 d1, Utils.scan_item dir ((k, v) :: d) item = (k, v1) :: d1).
  { destruct item as [nm t txt | nm t children]; cbn [Utils.scan_item]; [eauto|].
    destruct (negb (startswith nm ".")); [|eauto].
    destruct (Utils.supported_in (PurePath.join_path dir nm) children); [eauto|].
    apply set_head. }
  destruct H as (v1 & d1 & ->). apply IH.
Qed.

(** When the root itself holds supported names, the first group is ["_root"]. *)
Lemma processing_map_root_first (dir : string) (entries : list FS.node) :
  holds_supported entries = true ->
  exists fl rest, processing_map_of dir entries = ("_root", fl) :: rest.
Proof.
  intros H. unfold processing_map_of.
  destruct (Utils.supported_in dir entries) as [|p ps] eqn:E.
  - apply supported_in_nil in E. congruence.
  - cbn [Dict.set]. apply scan_all_head.
Qed.

(** C9. When the input root directly holds supported names, the root
    group is not skipped and [output_filename] is omitted, [run] raises a
    TypeError while building the root output path: nothing falls back to the
    configured [OUTPUT_FILENAME], and the run stops before any transformer
    call or write. *)
Theorem run_without_output_filename_raises
    (cfg : Config.Config) (env : FS.Env) (imports_dir exports_dir : option string)
    (w : FS.World) (entries : list FS.node) :
  fst (FS.mkdir env (exports_path_of cfg exports_dir) w) = Py.Returns tt ->
  Dict.get (files_after_mkdir env (exports_path_of cfg exports_dir) w)
    (imports_path_of cfg imports_dir) = Some entries ->
  holds_supported entries = true ->
  skips cfg (files_after_mkdir env (exports_path_of cfg exports_dir) w) "_root"
    (exports_path_of cfg exports_dir) = false ->
  exists msg,
    run cfg env imports_dir exports_dir None w
    = (Py.Raises (Py.TypeError msg), snd (FS.mkdir env (exports_path_of cfg exports_dir) w)).
Proof.
  unfold files_after_mkdir. intros Hm Hg Hs Hk. rewrite run_unfold.
  destruct (FS.mkdir env (exports_path_of cfg exports_dir) w) as [o w0].
  simpl in *. subst o.
  assert (Ha : any_supported entries = true).
  { unfold any_supported. now rewrite Hs. }
  destruct (discover_returns _ _ _ Hg Ha) as [-> _].
  destruct (processing_map_root_first (imports_path_of cfg imports_dir) entries Hs)
    as (fl & rest & ->).
  cbn [FS.for_each]. unfold FS.bind at 1.
  rewrite folder_step_unfold, Hk. cbn. eauto.
Qed.

(** *** Every group is accounted for *)

Lemma mentions_iff (n : string) (l : list string) :
  existsb (String.eqb n) l = true <-> In n l.
Proof.
  rewrite existsb_exists. split.
  - intros [x [Hx E]]. apply String.eqb_eq in E. now subst.
  - intros H. exists n. split; [exact H | apply String.eqb_refl].
Qed.

Lemma in_failed_of (n : string) (files : list FS.Path) (r : ConversionResult) :
  In n (failed_of files r) <-> In n (failed_files r) /\ In n (names files).
Proof. unfold failed_of. now rewrite filter_In, mentions_iff. Qed.

Lemma filter_none {A} (p : A -> bool) (l : list A) :
  (forall x, In x l -> p x = false) -> filter p l = [].
Proof.
  induction l as [|a l IH]; simpl; intros H; [reflexivity|].
  rewrite (H a (or_introl eq_refl)). apply IH. intros x Hx. apply H. now right.
Qed.

Lemma filter_every {A} (p : A -> bool) (l : list A) :
  (forall x, In x l -> p x = true) -> filter p l = l.
Proof.
  induction l as [|a l IH]; simpl; intros H; [reflexivity|].
  rewrite (H a (or_introl eq_refl)). f_equal. apply IH. intros x Hx. apply H. now right.
Qed.

Lemma failed_of_none (files : list FS.Path) (r : ConversionResult) :
  (forall n, In n (failed_files r) -> ~ In n (names files)) -> failed_of files r = [].
Proof.
  intros H. apply filter_none. intros n Hn.
  destruct (existsb (String.eqb n) (names files)) eqn:E; [|reflexivity].
  apply mentions_iff in E. exfalso. now apply (H n).
Qed.

Lemma recorded_ext (f : string) (files : list FS.Path) (r r' : ConversionResult) :
  Dict.get (skipped_folders r') f = Dict.get (skipped_folders r) f ->
  Dict.get (processed_folders r') f = Dict.get (processed_folders r) f ->
  failed_of files r' = failed_of files r ->
  recorded f files r -> recorded f files r'.
Proof.
  unfold recorded, Dict.get_list. intros -> -> ->. exact (fun H => H).
Qed.

Lemma all_names_app (a b : Dict.dict (list FS.Path)) :
  all_names (a ++ b) = all_names a ++ all_names b.
Proof. apply flat_map_app. Qed.

Lemma all_names_in (pm : Dict.dict (list FS.Path)) (f : string) (files : list FS.Path)
    (n : string) :
  In (f, files) pm -> In n (names files) -> In n (all_names pm).
Proof.
  intros Hin Hn. unfold all_names. apply in_flat_map. now exists (f, files).
Qed.

Lemma names_failed_incl (env : FS.Env) (files : list FS.Path) (n : string) :
  In n (names (failed env files)) -> In n (names files).
Proof.
  unfold names, failed. rewrite !in_map_iff. intros [p [E Hp]].
  apply filter_In in Hp. exists p. tauto.
Qed.

Lemma folder_step_accounted (cfg : Config.Config) (env : FS.Env) (exports_path : string)
    (output_filename : option string) (seen : Dict.dict (list FS.Path))
    (f : string) (files : list FS.Path) (r r' : ConversionResult) (w w' : FS.World) :
  accounted seen r ->
  ~ In f (Dict.keys seen) ->
  (forall n, In n (names files) -> ~ In n (all_names seen)) ->
  folder_step cfg env exports_path output_filename (f, files) r w = (Py.Returns r', w') ->
  accounted (seen ++ [(f, files)]) r'.
Proof.
  intros (J1 & J2 & J3) Hf Hdisj. rewrite folder_step_unfold.
  assert (Hfo : failed_of files r = []).
  { apply failed_of_none. intros n Hn Hn'. exact (Hdisj n Hn' (J2 n Hn)). }
  destruct (J1 f Hf) as [Hp Hsk].
  assert (Hkeys : forall g, ~ In g (Dict.keys (seen ++ [(f, files)])) ->
                            ~ In g (Dict.keys seen) /\ f <> g).
  { intros g Hg. unfold Dict.keys in *. rewrite map_app, in_app_iff in Hg. simpl in Hg.
    tauto. }
  assert (Hold : forall g gfiles, In (g, gfiles) seen -> f <> g).
  { intros g gfiles Hin ->. apply Hf. eapply in_keys; eauto. }
  destruct (skips cfg (FS.files w) f exports_path).
  - (* skipped *)
    intros [= <- _]. split; [|split].
    + intros g Hg. destruct (Hkeys g Hg) as [Hg1 Hg2]. simpl.
      rewrite get_set_other by exact Hg2. now apply J1.
    + intros n Hn. rewrite all_names_app, in_app_iff. left. now apply J2.
    + intros g gfiles Hin. apply in_app_iff in Hin. destruct Hin as [Hin|[[= <- <-]|[]]].
      * apply (recorded_ext g gfiles r); [| reflexivity | reflexivity | now apply J3].
        simpl. apply get_set_other. eapply Hold; eauto.
      * left. simpl. rewrite get_set_same. auto.
  - destruct (out_name_of f output_filename) as [nm|]; [|discriminate].
    destruct (FS.can_open env (FS.files w) (FS.mkPath exports_path nm)).
    + (* processed *)
      intros [= <- _].
      destruct (record_all_others env f files r) as (Hsame & _).
      assert (Hfailed : failed_files
                          (extend_output_files [FS.mkPath exports_path nm]
                             (record_all env f files r))
                        = failed_files r ++ names (failed env files)).
      { simpl. apply record_all_failed. }
      split; [|split].
      * intros g Hg. destruct (Hkeys g Hg) as [Hg1 Hg2]. simpl.
        rewrite record_all_processed_other by exact Hg2. rewrite Hsame. now apply J1.
      * intros n. rewrite Hfailed, all_names_app, !in_app_iff. intros [Hn|Hn].
        -- left. now apply J2.
        -- right. simpl. rewrite app_nil_r. now apply names_failed_incl in Hn.
      * intros g gfiles Hin. apply in_app_iff in Hin. destruct Hin as [Hin|[[= <- <-]|[]]].
        -- apply (recorded_ext g gfiles r); [| | |now apply J3].
           ++ simpl. now rewrite Hsame.
           ++ simpl. apply record_all_processed_other. eapply Hold; eauto.
           ++ unfold failed_of. rewrite Hfailed, filter_app.
              rewrite (filter_none _ (names (failed env files))); [apply app_nil_r|].
              intros n Hn. destruct (existsb (String.eqb n) (names gfiles)) eqn:E; auto.
              apply mentions_iff in E. exfalso.
              apply (Hdisj n (names_failed_incl _ _ _ Hn)).
              eapply all_names_in; eauto.
        -- right. left. split; [simpl; congruence|].
           simpl processed_folders. rewrite record_all_processed.
           unfold Dict.get_list at 1. rewrite Hp. simpl app.
           unfold failed_of. rewrite Hfailed, filter_app.
           unfold failed_of in Hfo. rewrite Hfo. simpl app.
           rewrite filter_every; [apply succeeded_failed_perm|].
           intros n Hn. apply mentions_iff. now apply names_failed_incl in Hn.
    + (* abandoned *)
      intros [= <- _]. split; [|split].
      * intros g Hg. apply J1. now apply Hkeys.
      * intros n Hn. rewrite all_names_app, in_app_iff. left. now apply J2.
      * intros g gfiles Hin. apply in_app_iff in Hin. destruct Hin as [Hin|[[= <- <-]|[]]].
        -- now apply J3.
        -- right. right. auto.
Qed.

Lemma nodup_app_disjoint {A} (l1 l2 : list A) (x : A) :
  NoDup (l1 ++ l2) -> In x l1 -> In x l2 -> False.
Proof.
  induction l1 as [|a l1 IH]; simpl; [tauto|].
  intros H [->|Hx] Hx2; inversion H as [|? ? Hn Hd]; subst.
  - apply Hn. apply in_app_iff. now right.
  - now apply IH.
Qed.

Lemma nodup_flat_map_unique {A B} (h : A -> list B) (l : list A) (a b : A) (n : B) :
  NoDup (flat_map h l) -> In a l -> In b l -> In n (h a) -> In n (h b) -> a = b.
Proof.
  induction l as [|c l IH]; simpl; [tauto|].
  intros Hnd [->|Ha] [->|Hb] Hna Hnb; auto.
  - exfalso. apply (nodup_app_disjoint _ _ n Hnd Hna).
    apply in_flat_map. eauto.
  - exfalso. apply (nodup_app_disjoint _ _ n Hnd Hnb).
    apply in_flat_map. eauto.
  - apply IH; auto. eapply NoDup_app_remove_l; eauto.
Qed.

Lemma nodup_flat_map_in {A B} (h : A -> list B) (l : list A) (a : A) :
  NoDup (flat_map h l) -> In a l -> NoDup (h a).
Proof.
  induction l as [|c l IH]; simpl; [tauto|].
  intros Hnd [->|Ha].
  - eapply NoDup_app_remove_r; eauto.
  - apply IH; auto. eapply NoDup_app_remove_l; eauto.
Qed.

Lemma get_list_in_keys {A} (d : Dict.dict (list A)) (k : string) (x : A) :
  In x (Dict.get_list d k) -> Dict.get d k <> None.
Proof.
  unfold Dict.get_list. destruct (Dict.get d k); [discriminate | intros []].
Qed.

Lemma accounted_group (pm : Dict.dict (list FS.Path)) (r : ConversionResult) (f : string) :
  accounted pm r ->
  Dict.get (processed_folders r) f <> None \/ Dict.get (skipped_folders r) f <> None ->
  exists files, In (f, files) pm /\ recorded f files r.
Proof.
  intros (J1 & _ & J3) H.
  destruct (in_dec string_dec f (Dict.keys pm)) as [Hin|Hout].
  - apply keys_in in Hin. destruct Hin as [files Hin]. eauto.
  - destruct (J1 f Hout) as [Hp Hs]. tauto.
Qed.

Lemma accounted_disjoint (pm : Dict.dict (list FS.Path)) (r : ConversionResult) :
  NoDup (all_names pm) -> accounted pm r -> pairwise_disjoint r.
Proof.
  intros Hnd J n f g.
  assert (Hproc : In n (Dict.get_list (processed_folders r) f) ->
                  exists files, In (f, files) pm /\ In n (names files)
                    /\ Dict.get (skipped_folders r) f = None
                    /\ Permutation (Dict.get_list (processed_folders r) f ++ failed_of files r)
                         (names files)).
  { intros Hn. pose proof (get_list_in_keys _ _ _ Hn) as Hk.
    destruct (accounted_group pm r f J (or_introl Hk)) as (files & Hin & Hrec).
    exists files. destruct Hrec as [(_ & Hp & _)|[(Hs & Hperm)|(_ & Hp & _)]];
      try congruence.
    repeat split; auto.
    eapply Permutation_in; [exact Hperm|]. apply in_app_iff. now left. }
  assert (Hskip : In n (Dict.get_list (skipped_folders r) g) ->
                  exists files, In (g, files) pm /\ In n (names files)
                    /\ Dict.get (skipped_folders r) g = Some (names files)
                    /\ failed_of files r = []).
  { intros Hn. pose proof (get_list_in_keys _ _ _ Hn) as Hk.
    destruct (accounted_group pm r g J (or_intror Hk)) as (files & Hin & Hrec).
    exists files. destruct Hrec as [(Hs & _ & Hfo)|[(Hs & _)|(Hs & _)]];
      try congruence.
    repeat split; auto.
    unfold Dict.get_list in Hn. now rewrite Hs in Hn. }
  split; [|split].
  - intros [Hp Hs].
    destruct (Hproc Hp) as (ff & Hfin & Hfn & Hfs & _).
    destruct (Hskip Hs) as (gf & Hgin & Hgn & Hgs & _).
    assert (E : (f, ff) = (g, gf)).
    { apply (nodup_flat_map_unique (fun g => names (snd g)) pm _ _ n Hnd); auto. }
    injection E as -> ->. congruence.
  - intros [Hp Hfl].
    destruct (Hproc Hp) as (ff & Hfin & Hfn & _ & Hperm).
    assert (Hnd' : NoDup (names ff)).
    { apply (nodup_flat_map_in (fun g => names (snd g)) pm (f, ff) Hnd Hfin). }
    apply (Permutation_NoDup (Permutation_sym Hperm)) in Hnd'.
    apply (nodup_app_disjoint _ _ n Hnd' Hp). apply in_failed_of. auto.
  - intros [Hs Hfl].
    destruct (Hskip Hs) as (gf & Hgin & Hgn & _ & Hfo).
    assert (Hin : In n (failed_of gf r)) by (apply in_failed_of; auto).
    rewrite Hfo in Hin. destruct Hin.
Qed.

Lemma scan_item_keys_nodup (dir : string) (pm : Dict.dict (list FS.Path)) (item : FS.node) :
  NoDup (Dict.keys pm) -> NoDup (Dict.keys (Utils.scan_item dir pm item)).
Proof.
  intros H. destruct item as [nm t txt | nm t children]; cbn [Utils.scan_item]; auto.
  destruct (negb (startswith nm ".")); auto.
  destruct (Utils.supported_in (PurePath.join_path dir nm) children); auto.
  now apply keys_set_nodup.
Qed.

Lemma processing_map_keys_nodup (dir : string) (entries : list FS.node) :
  NoDup (Dict.keys (processing_map_of dir entries)).
Proof.
  unfold processing_map_of.
  assert (G : forall l pm, NoDup (Dict.keys pm) ->
                           NoDup (Dict.keys (fold_left (Utils.scan_item dir) l pm))).
  { induction l as [|item l IH]; intros pm H; simpl; auto.
    apply IH. now apply scan_item_keys_nodup. }
  apply G. destruct (Utils.supported_in dir entries).
  - constructor.
  - apply keys_set_nodup. constructor.
Qed.

Lemma nodup_keys_split {V} (seen rest : Dict.dict V) (f : string) (v : V) :
  NoDup (Dict.keys (seen ++ (f, v) :: rest)) -> ~ In f (Dict.keys seen).
Proof.
  unfold Dict.keys. rewrite map_app. simpl. intros H Hin.
  apply NoDup_remove_2 in H. apply H. apply in_app_iff. now left.
Qed.

(** C6, as amended. In a run that returns, when no two discovered files
    share a name, no name is listed in two of [processed_folders],
    [skipped_folders] and [failed_files], and every discovered group is
    accounted for: either it was skipped and its entry of [skipped_folders]
    is exactly its file names, or its artifact was written and its entry of
    [processed_folders] together with its names in [failed_files] is a
    rearrangement of its file names, or the folder was abandoned and nothing
    is recorded for it. *)
Theorem run_accounts_for_every_group
    (cfg : Config.Config) (env : FS.Env)
    (imports_dir exports_dir output_filename : option string) (w w' : FS.World)
    (r : ConversionResult) (pm : Dict.dict (list FS.Path)) :
  run cfg env imports_dir exports_dir output_filename w = (Py.Returns r, w') ->
  Utils.discover_processing_folders
    (files_after_mkdir env (exports_path_of cfg exports_dir) w)
    (imports_path_of cfg imports_dir) = Py.Returns pm ->
  NoDup (all_names pm) ->
  pairwise_disjoint r
  /\ (forall f files, In (f, files) pm -> recorded f files r).
Proof.
  intros Hrun Hdisc Hnd.
  apply run_returns_inv in Hrun. destruct Hrun as (pm' & r1 & w1 & Hd' & Hloop & -> & _).
  rewrite Hdisc in Hd'. injection Hd' as <-.
  assert (Hkeys : NoDup (Dict.keys pm)).
  { apply discover_returns_inv in Hdisc. destruct Hdisc as (entries & _ & ->).
    apply processing_map_keys_nodup. }
  assert (J : accounted pm r1).
  { revert Hloop. apply (for_each_seen _ accounted).
    - intros seen [f files] rest s w0 s' w0' Hl Hs Hstep.
      subst pm. eapply folder_step_accounted; eauto.
      + eapply nodup_keys_split; eauto.
      + intros n Hn Hn'. rewrite all_names_app in Hnd.
        apply (nodup_app_disjoint _ _ n Hnd Hn').
        simpl. apply in_app_iff. now left.
    - split; [|split]; simpl; auto. intros f files []. }
  assert (J' : accounted pm (finish env r1)) by exact J.
  split.
  - eapply accounted_disjoint; eauto.
  - now destruct J' as (_ & _ & J3).
Qed.

(** *** A run over folders that are all converted already *)





Lemma mkdir_calls (env : FS.Env) (dir : string) (w : FS.World) :
  FS.calls (snd (FS.mkdir env dir w)) = FS.calls w.
Proof.
  unfold FS.mkdir. destruct (FS.exists_dir (FS.files w) dir); [reflexivity|].
  destruct (FS.mkdir_ok env dir); reflexivity.
Qed.

Lemma report_calls (env : FS.Env) (r : ConversionResult) (dir : string) (w : FS.World) :
  FS.calls (snd (_generate_summary_report env r dir w)) = FS.calls w.
Proof.
  unfold _generate_summary_report, FS.bind, FS.get_files.
  match goal with |- context [if ?b then _ else _] => destruct b end; reflexivity.
Qed.


End RunFacts.

(** ** The statements on concrete trees *)

Module ScenarioFacts.
Import PyStr Model Orchestrator RunSpec DiscoverSpec Scenarios.
Import LedgerFacts FolderFacts RunFacts.

(** The scenarios of the specification. *)
Example first_run_writes_two_artifacts :
  exists r w',
    run Config.config (steady []) None None (Some "combined_root.md") (fresh tree)
    = (Py.Returns r, w')
    /\ success r = true /\ failed_files r = []
    /\ map FS.name (output_files r) = ["combined_root.md"; "reports.md"]
    /\ processed_folders r = [("_root", ["a.pdf"; "b.pdf"]); ("reports", ["q.pdf"])].
Proof. do 2 eexists. split; [vm_compute; reflexivity|]. repeat split. Qed.

Example failing_file_is_isolated :
  exists r w',
    run Config.config (steady [FS.mkPath "imports" "b.pdf"]) None None
      (Some "combined_root.md") (fresh tree)
    = (Py.Returns r, w')
    /\ success r = true /\ failed_files r = ["b.pdf"]
    /\ processed_folders r = [("_root", ["a.pdf"]); ("reports", ["q.pdf"])].
Proof. do 2 eexists. split; [vm_compute; reflexivity|]. repeat split. Qed.

Example earlier_artifact_is_reused :
  exists r w',
    run Config.config (steady []) None None (Some "combined_root.md")
      (with_exports reports_only [FS.File "reports_2024-01-01_00-00-00.md" 5 ""])
    = (Py.Returns r, w')
    /\ skipped_folders r = [("reports", ["q.pdf"])]
    /\ map FS.name (output_files r) = ["reports_2024-01-01_00-00-00.md"]
    /\ FS.calls w' = [].
Proof. do 2 eexists. split; [vm_compute; reflexivity|]. repeat split. Qed.

(** C1, on the code. With no imports directory, and with an imports
    directory that holds no supported file, [run] raises the discovery error
    instead of returning a result that carries it. *)
Theorem run_discovery_failure_propagates :
  run Config.config (steady []) None None (Some "combined_documents.md")
    (FS.mkWorld [] [])
  = (Py.Raises (Py.FileNotFoundError "Imports directory not found: imports"),
     FS.mkWorld [("exports", [])] [])
  /\ fst (run Config.config (steady []) None None (Some "combined_documents.md")
            (fresh [FS.File "notes.bin" 1 ""]))
     = Py.Raises (Py.ValueError Utils.no_files_message).
Proof. split; reflexivity. Qed.

(** C2. A second run converts the folder again. Over a tree that holds only
    the folder [reports] with [q.pdf], with skipping enabled, the first run
    processes the folder and names its artifact [reports.md], which the
    ledger, looking for [reports_*.md], does not take for an artifact of the
    folder; so the second run over the unchanged tree skips nothing and calls
    the transformer on [q.pdf] again. The earlier [convert] names the
    artifact with [generate_timestamp_filename], and its second call skips
    the folder without any call of the transformer. *)
Theorem second_run_converts_folder_again :
  (exists r1 w1 r2 w2,
     Config.SKIP_ALREADY_CONVERTED Config.config = true
     /\ run Config.config (steady []) None None (Some "combined_documents.md")
          (fresh reports_only)
        = (Py.Returns r1, w1)
     /\ Dict.get (FS.files w1) "imports" = Some reports_only
     /\ processed_folders r1 = [("reports", ["q.pdf"])]
     /\ output_files r1 = [FS.mkPath "exports" "reports.md"]
     /\ Utils.check_folder_already_converted (FS.files w1) "reports" "exports" = false
     /\ run Config.config (steady []) None None (Some "combined_documents.md")
          (rerun_from w1)
        = (Py.Returns r2, w2)
     /\ skipped_folders r2 = []
     /\ processed_folders r2 = [("reports", ["q.pdf"])]
     /\ FS.calls w2 = [q_pdf])
  /\ (exists l1 v1 l2 v2,
        Converter.convert Config.config (steady []) ExtraScenarios.midnight None None
          (Some "combined_documents.md") (fresh reports_only)
        = (Py.Returns l1, v1)
        /\ output_files l1 = [FS.mkPath "exports" "reports_2024-01-01_00-00-00.md"]
        /\ Utils.check_folder_already_converted (FS.files v1) "reports" "exports" = true
        /\ Converter.convert Config.config (steady []) ExtraScenarios.midnight None None
             (Some "combined_documents.md") (rerun_from v1)
           = (Py.Returns l2, v2)
        /\ skipped_folders l2 = [("reports", ["q.pdf"])]
        /\ FS.calls v2 = []).
Proof.
  split.
  - do 4 eexists. split; [reflexivity|].
    split; [vm_compute; reflexivity|].
    split; [reflexivity|]. split; [reflexivity|]. split; [reflexivity|].
    split; [reflexivity|].
    split; [vm_compute; reflexivity|].
    repeat split.
  - do 4 eexists.
    split; [vm_compute; reflexivity|].
    split; [reflexivity|]. split; [reflexivity|].
    split; [vm_compute; reflexivity|].
    split; reflexivity.
Qed.


(** C3, as stated, fails. With two earlier artifacts of the folder, the
    skip appends both to [output_files], not the newest alone. *)
Theorem skip_appends_more_than_one_path :
  skips Config.config (FS.files (with_exports reports_only two_artifacts)) "reports" "exports"
  = true
  /\ exists r' w',
       folder_step Config.config (steady []) "exports" None ("reports", [q_pdf])
         new_result (with_exports reports_only two_artifacts)
       = (Py.Returns r', w')
       /\ output_files r'
          = [FS.mkPath "exports" "reports_2024-02-01_00-00-00.md";
             FS.mkPath "exports" "reports_2024-01-01_00-00-00.md"]
       /\ ~ (exists p, output_files r' = output_files new_result ++ [p]).
Proof.
  split; [reflexivity|]. do 2 eexists. split; [vm_compute; reflexivity|].
  split; [reflexivity|]. intros [p H]. discriminate H.
Qed.

(** The amended C3 on the same output directory. *)
Lemma skipped_folder_reuses_every_artifact_witness :
  skips Config.config (FS.files (with_exports reports_only two_artifacts)) "reports" "exports"
  = true
  /\ exists r' existing,
       folder_step Config.config (steady []) "exports" None ("reports", [q_pdf])
         new_result (with_exports reports_only two_artifacts)
       = (Py.Returns r', with_exports reports_only two_artifacts)
       /\ skipped_folders r' = Dict.set (skipped_folders new_result) "reports" (names [q_pdf])
       /\ output_files r' = output_files new_result ++ map (to_path "exports") existing
       /\ existing <> []
       /\ Permutation existing
            (Utils.glob_converted "reports"
               (FS.listdir (FS.files (with_exports reports_only two_artifacts)) "exports"))
       /\ StronglySorted newer_or_same existing
       /\ processed_folders r' = processed_folders new_result
       /\ failed_files r' = failed_files new_result.
Proof.
  split; [reflexivity|].
  apply (skipped_folder_reuses_every_artifact Config.config (steady []) "exports" None
           "reports" [q_pdf] new_result (with_exports reports_only two_artifacts)).
  reflexivity.
Defined.

(** C4, on the code. When the summary report cannot be written, [run]
    raises after the artifacts are written, and no result is returned. *)
Theorem run_report_failure_propagates :
  exists msg w',
    run Config.config report_unwritable None None (Some "combined_documents.md")
      (fresh reports_only)
    = (Py.Raises (Py.OSError msg), w')
    /\ map FS.node_name (FS.listdir (FS.files w') "exports") = ["reports.md"].
Proof. do 2 eexists. split; [vm_compute; reflexivity | reflexivity]. Qed.

(** C5 on the root group of [tree] with [b.pdf] failing. *)
Lemma partial_failure_isolation_witness :
  skips Config.config (FS.files (fresh tree)) "_root" "exports" = false
  /\ out_name_of "_root" (Some "combined_root.md") = Some "combined_root.md"
  /\ FS.can_open (steady [FS.mkPath "imports" "b.pdf"]) (FS.files (fresh tree))
       (FS.mkPath "exports" "combined_root.md") = true
  /\ length (failed (steady [FS.mkPath "imports" "b.pdf"])
               [FS.mkPath "imports" "a.pdf"; FS.mkPath "imports" "b.pdf"]) < 2
  /\ exists r' w',
       folder_step Config.config (steady [FS.mkPath "imports" "b.pdf"]) "exports"
         (Some "combined_root.md")
         ("_root", [FS.mkPath "imports" "a.pdf"; FS.mkPath "imports" "b.pdf"])
         new_result (fresh tree)
       = (Py.Returns r', w')
       /\ FS.calls w' = [FS.mkPath "imports" "a.pdf"; FS.mkPath "imports" "b.pdf"]
       /\ failed_files r' = ["b.pdf"]
       /\ Dict.get_list (processed_folders r') "_root" = ["a.pdf"]
       /\ output_files r' = [FS.mkPath "exports" "combined_root.md"].
Proof.
  split; [reflexivity|]. split; [reflexivity|]. split; [reflexivity|].
  split; [exact (le_n 2)|].
  destruct (proj1 partial_failure_isolation Config.config
              (steady [FS.mkPath "imports" "b.pdf"]) "exports" (Some "combined_root.md")
              "_root" [FS.mkPath "imports" "a.pdf"; FS.mkPath "imports" "b.pdf"]
              new_result (fresh tree) "combined_root.md"
              eq_refl eq_refl eq_refl (le_n 2))
    as (r' & w' & Hstep & Hcalls & Hfailed & Hproc & _ & _ & _ & Hout).
  exists r', w'. repeat split; assumption.
Defined.

(** C6, as stated, fails. Two folders hold a file of the same name; one
    fails and the other is transformed, and the name is listed both in
    [processed_folders] and in [failed_files]. *)
Theorem same_name_is_processed_and_failed :
  exists r w',
    run Config.config (steady [FS.mkPath "imports/a" "x.pdf"]) None None
      (Some "combined_documents.md") (fresh twins)
    = (Py.Returns r, w')
    /\ processed_folders r = [("b", ["x.pdf"])]
    /\ failed_files r = ["x.pdf"]
    /\ ~ pairwise_disjoint r.
Proof.
  do 2 eexists. split; [vm_compute; reflexivity|].
  split; [reflexivity|]. split; [reflexivity|].
  intros H. destruct (H "x.pdf" "b" "b") as (_ & H2 & _).
  apply H2. split; now left.
Qed.

(** The amended C6 on two folders with different files, one of which
    fails. *)
Lemma run_accounts_for_every_group_witness :
  exists r w',
    run Config.config (steady [FS.mkPath "imports/a" "y.pdf"]) None None
      (Some "combined_documents.md") (fresh pair)
    = (Py.Returns r, w')
    /\ Utils.discover_processing_folders
         (files_after_mkdir (steady [FS.mkPath "imports/a" "y.pdf"]) "exports" (fresh pair))
         "imports" = Py.Returns (processing_map_of "imports" pair)
    /\ NoDup (all_names (processing_map_of "imports" pair))
    /\ failed_files r = ["y.pdf"]
    /\ pairwise_disjoint r
    /\ (forall f files, In (f, files) (processing_map_of "imports" pair) -> recorded f files r).
Proof.
  assert (Hrun : exists r w',
             run Config.config (steady [FS.mkPath "imports/a" "y.pdf"]) None None
               (Some "combined_documents.md") (fresh pair)
             = (Py.Returns r, w') /\ failed_files r = ["y.pdf"]).
  { do 2 eexists. split; [vm_compute; reflexivity | reflexivity]. }
  destruct Hrun as (r & w' & Hrun & Hfailed).
  assert (Hnd : NoDup (all_names (processing_map_of "imports" pair))).
  { vm_compute. repeat (constructor; [simpl; intuition discriminate|]). constructor. }
  exists r, w'.
  split; [exact Hrun|]. split; [reflexivity|]. split; [exact Hnd|]. split; [exact Hfailed|].
  exact (run_accounts_for_every_group Config.config
           (steady [FS.mkPath "imports/a" "y.pdf"]) None None
           (Some "combined_documents.md") (fresh pair) w' r
           (processing_map_of "imports" pair) Hrun eq_refl Hnd).
Defined.

(** C9 on [tree] with an empty output directory. *)
Lemma run_without_output_filename_raises_witness :
  fst (FS.mkdir (steady []) "exports" (fresh tree)) = Py.Returns tt
  /\ Dict.get (files_after_mkdir (steady []) "exports" (fresh tree)) "imports" = Some tree
  /\ holds_supported tree = true
  /\ skips Config.config (files_after_mkdir (steady []) "exports" (fresh tree))
       "_root" "exports" = false
  /\ exists msg,
       run Config.config (steady []) None None None (fresh tree)
       = (Py.Raises (Py.TypeError msg), fresh tree).
Proof.
  split; [reflexivity|]. split; [reflexivity|]. split; [reflexivity|].
  split; [reflexivity|].
  exact (run_without_output_filename_raises Config.config (steady []) None None
           (fresh tree) tree eq_refl eq_refl eq_refl eq_refl).
Defined.

(** C10 on the first run over [tree]. *)
Lemma run_error_message_none_witness :
  exists r w',
    run Config.config (steady []) None None (Some "combined_root.md") (fresh tree)
    = (Py.Returns r, w')
    /\ error_message r = None.
Proof.
  assert (Hrun : exists r w',
             run Config.config (steady []) None None (Some "combined_root.md") (fresh tree)
             = (Py.Returns r, w')).
  { do 2 eexists. vm_compute. reflexivity. }
  destruct Hrun as (r & w' & Hrun).
  exists r, w'. split; [exact Hrun|].
  exact (run_error_message_none Config.config (steady []) None None
           (Some "combined_root.md") (fresh tree) w' r Hrun).
Defined.

End ScenarioFacts.

(** * Further properties of the code *)

(** ** Strings and their order *)

Module StringMoreFacts.
Import PyStr.

Lemma length_append (a b : string) :
  String.length (a +++ b) = String.length a + String.length b.
Proof. induction a as [|c a IH]; simpl; [reflexivity | now rewrite IH]. Qed.

Lemma prefix_append (a b : string) : prefix a (a +++ b) = true.
Proof.
  induction a as [|c a IH]; simpl.
  - now destruct b.
  - destruct (ascii_dec c c); [exact IH | contradiction].
Qed.

Lemma substring_all (b : string) : substring 0 (String.length b) b = b.
Proof. induction b as [|c b IH]; simpl; [reflexivity | now rewrite IH]. Qed.

Lemma substring_append (a b : string) :
  substring (String.length a) (String.length b) (a +++ b) = b.
Proof. induction a as [|c a IH]; simpl; [apply substring_all | exact IH]. Qed.

Lemma startswith_append (a b : string) : startswith (a +++ b) a = true.
Proof. apply prefix_append. Qed.

Lemma endswith_append (a b : string) : endswith (a +++ b) b = true.
Proof.
  unfold endswith. rewrite length_append.
  replace (String.length a + String.length b - String.length b) with (String.length a) by lia.
  rewrite substring_append, String.eqb_refl, andb_true_r.
  apply Nat.leb_le. lia.
Qed.

Lemma prefix_trans_append (p a b : string) : prefix p a = true -> prefix p (a +++ b) = true.
Proof.
  revert a. induction p as [|c p IH]; intros a; simpl.
  - intros _. now destruct (a +++ b).
  - destruct a as [|d a]; simpl; [discriminate|].
    destruct (ascii_dec c d); [|discriminate].
    apply IH.
Qed.

Lemma prefix_length (p a : string) : prefix p a = true -> String.length p <= String.length a.
Proof.
  revert a. induction p as [|c p IH]; intros a; simpl; [lia|].
  destruct a as [|d a]; simpl; [discriminate|].
  destruct (ascii_dec c d); [|discriminate].
  intros H. apply IH in H. lia.
Qed.

(** *** The order of strings is a total preorder *)

Lemma ascii_compare_refl (a : ascii) : Ascii.compare a a = Eq.
Proof. unfold Ascii.compare. apply N.compare_refl. Qed.

Lemma ascii_compare_eq (a b : ascii) : Ascii.compare a b = Eq -> a = b.
Proof. apply Ascii.compare_eq_iff. Qed.

Lemma ascii_compare_lt_trans (a b c : ascii) :
  Ascii.compare a b = Lt -> Ascii.compare b c = Lt -> Ascii.compare a c = Lt.
Proof.
  unfold Ascii.compare. rewrite !N.compare_lt_iff. apply N.lt_trans.
Qed.

Lemma compare_lt_trans (s1 : string) :
  forall s2 s3,
    String.compare s1 s2 = Lt -> String.compare s2 s3 = Lt -> String.compare s1 s3 = Lt.
Proof.
  induction s1 as [|a s1 IH]; intros [|b s2] [|c s3]; simpl; try congruence.
  destruct (Ascii.compare a b) eqn:Eab; try discriminate;
    destruct (Ascii.compare b c) eqn:Ebc; try discriminate.
  - apply ascii_compare_eq in Eab, Ebc. subst. rewrite ascii_compare_refl. apply IH.
  - apply ascii_compare_eq in Eab. subst. now rewrite Ebc.
  - apply ascii_compare_eq in Ebc. subst. now rewrite Eab.
  - now rewrite (ascii_compare_lt_trans a b c Eab Ebc).
Qed.

Lemma ltb_compare (s1 s2 : string) : String.ltb s1 s2 = true <-> String.compare s1 s2 = Lt.
Proof.
  unfold String.ltb. destruct (String.compare s1 s2); split; congruence.
Qed.

(** If neither [s2 < s1] nor [s3 < s2] then not [s3 < s1]. *)
Lemma not_ltb_trans (s1 s2 s3 : string) :
  String.ltb s2 s1 = false -> String.ltb s3 s2 = false -> String.ltb s3 s1 = false.
Proof.
  intros H21 H32. destruct (String.ltb s3 s1) eqn:H31; [|reflexivity].
  apply ltb_compare in H31.
  destruct (String.compare s1 s2) eqn:E12.
  - apply String.compare_eq_iff in E12. subst.
    apply ltb_compare in H31. congruence.
  - pose proof (compare_lt_trans _ _ _ H31 E12) as H.
    apply ltb_compare in H. congruence.
  - rewrite String.compare_antisym in E12.
    destruct (String.compare s2 s1) eqn:E21; try discriminate.
    apply ltb_compare in E21. congruence.
Qed.

Lemma ltb_asym (s1 s2 : string) : String.ltb s1 s2 = true -> String.ltb s2 s1 = false.
Proof.
  intros H. apply ltb_compare in H. unfold String.ltb.
  rewrite String.compare_antisym, H. reflexivity.
Qed.

(** *** split *)

Lemma split_not_nil (c : ascii) (s : string) : split c s <> [].
Proof.
  destruct s as [|a s]; simpl; [discriminate|].
  destruct (Ascii.eqb a c); [discriminate|].
  destruct (split c s); discriminate.
Qed.

Lemma split_append (c : ascii) (a b : string) :
  split c (a +++ String c b) = split c a ++ split c b.
Proof.
  induction a as [|x a IH]; simpl.
  - now rewrite Ascii.eqb_refl.
  - destruct (Ascii.eqb x c); [now rewrite IH|].
    rewrite IH. pose proof (split_not_nil c a) as Hn.
    destruct (split c a); [contradiction | reflexivity].
Qed.

End StringMoreFacts.

(** ** Names: sanitizing, timestamped artifacts and the ledger *)

Module NamingFacts.
Import PyStr Utils UtilsText SanitizeSpec ExtraSpec RunSpec.
Import PyStrFacts SanitizeFacts LoopFacts LedgerFacts StringMoreFacts.

Lemma tidy_char_is_plain (c : ascii) : tidy_char c = true -> plain_char c = true.
Proof.
  intros H. unfold plain_char. apply andb_true_iff. split.
  - destruct (is_space c) eqn:E; [|reflexivity].
    assert (G : is_gap c = true) by (unfold is_gap; now rewrite E).
    pose proof (tidy_gap_underscore c H G) as U. apply Ascii.eqb_eq in U. subst c.
    discriminate E.
  - apply negb_true_iff. apply DiscoverFacts.existsb_false_Forall.
    repeat constructor;
      match goal with
      | |- Ascii.eqb c ?s = false =>
          destruct (Ascii.eqb c s) eqn:E; [|reflexivity];
          apply Ascii.eqb_eq in E; subst c; discriminate H
      end.
Qed.

(** A sanitized name is never empty, is made of word characters and hyphens
    only, holds no whitespace and no character that is special in a glob
    pattern or a path, neither starts nor ends with an underscore and has no
    two underscores in a row. *)
Theorem sanitize_filename_shape (x : string) :
  sanitize_filename x <> ""
  /\ all_chars (fun c => is_word c || Ascii.eqb c "-") (sanitize_filename x) = true
  /\ all_chars plain_char (sanitize_filename x) = true
  /\ strip "_" (sanitize_filename x) = sanitize_filename x
  /\ single_gaps (sanitize_filename x) = true.
Proof.
  split; [apply sanitize_filename_nonempty|].
  split; [apply sanitize_filename_chars|].
  rewrite sanitize_filename_stripped.
  destruct (String.eqb (stripped x) ""); [repeat split|].
  split; [|split].
  - generalize (stripped_tidy x). apply all_chars_impl, tidy_char_is_plain.
  - unfold stripped. apply strip_idem.
  - apply stripped_single.
Qed.

Lemma name_of_child (dir nm : string) :
  all_chars (fun a => negb (Ascii.eqb a "/")) nm = true ->
  nm <> "" -> nm <> "." ->
  PurePath.name_of (PurePath.join_path dir nm) = nm.
Proof.
  intros Hs Hne Hdot. unfold PurePath.name_of, PurePath.join_path.
  change (dir +++ "/" +++ nm) with (dir +++ String "/" nm).
  rewrite split_append, (split_plain _ _ Hs), filter_app. simpl.
  destruct (String.eqb nm "") eqn:E1; [apply String.eqb_eq in E1; contradiction|].
  destruct (String.eqb nm ".") eqn:E2; [apply String.eqb_eq in E2; contradiction|].
  simpl. apply last_last.
Qed.

(** Sanitizing a path looks at its last component only. *)
Theorem sanitize_filename_last_component (dir nm : string) :
  all_chars (fun a => negb (Ascii.eqb a "/")) nm = true ->
  nm <> "" -> nm <> "." ->
  sanitize_filename (PurePath.join_path dir nm) = sanitize_filename nm.
Proof.
  intros Hs Hne Hdot. unfold sanitize_filename, PurePath.stem.
  rewrite (name_of_child dir nm Hs Hne Hdot).
  replace (PurePath.name_of nm) with nm; [reflexivity|].
  unfold PurePath.name_of. rewrite (split_plain _ _ Hs). simpl.
  destruct (String.eqb nm "") eqn:E1; [apply String.eqb_eq in E1; contradiction|].
  destruct (String.eqb nm ".") eqn:E2; [apply String.eqb_eq in E2; contradiction|].
  reflexivity.
Qed.

Lemma affix_matches (pre mid suf : string) :
  FS.fnmatch_affix pre suf (pre +++ mid +++ suf) = true.
Proof.
  unfold FS.fnmatch_affix. rewrite startswith_append.
  rewrite <- append_assoc, endswith_append, !length_append. simpl.
  apply Nat.leb_le. lia.
Qed.

Lemma matching_entry_converted (files : FS.fs) (folder_name exports_dir : string)
    (n : FS.node) :
  In n (FS.listdir files exports_dir) ->
  FS.fnmatch_affix (sanitize_filename folder_name +++ "_") ".md" (FS.node_name n) = true ->
  check_folder_already_converted files folder_name exports_dir = true
  /\ In (FS.mkPath exports_dir (FS.node_name n))
        (get_existing_converted_files files folder_name exports_dir).
Proof.
  intros Hin Hm. split.
  - apply check_true_iff. eauto.
  - assert (Hd : FS.exists_dir files exports_dir = true).
    { unfold FS.exists_dir. unfold FS.listdir in Hin.
      destruct (Dict.get files exports_dir); [reflexivity | destruct Hin]. }
    rewrite (existing_unfold _ _ _ Hd).
    apply (in_map (to_path exports_dir)).
    eapply Permutation_in; [symmetry; apply newest_first_perm|].
    unfold glob_converted. apply filter_In. auto.
Qed.

(** Round trip between the writer of timestamped names and the ledger: an
    entry of the output directory named by [generate_timestamp_filename] for a
    folder makes the ledger report that folder as converted and list that
    entry. *)
Theorem timestamped_artifact_is_recognised (files : FS.fs)
    (folder_name exports_dir timestamp : string) (n : FS.node) :
  In n (FS.listdir files exports_dir) ->
  FS.node_name n = generate_timestamp_filename timestamp folder_name ".md" ->
  check_folder_already_converted files folder_name exports_dir = true
  /\ In (FS.mkPath exports_dir (FS.node_name n))
        (get_existing_converted_files files folder_name exports_dir).
Proof.
  intros Hin Hn. apply matching_entry_converted; [exact Hin|].
  rewrite Hn. unfold generate_timestamp_filename.
  rewrite <- (append_assoc (sanitize_filename folder_name) "_").
  apply affix_matches.
Qed.

(** The ledger matches on a prefix: the artifact [<other>.md] of another
    folder whose name starts with [<sanitized folder>_] makes the ledger report
    the folder as converted. *)
Theorem ledger_accepts_longer_folder_names (files : FS.fs)
    (folder_name other exports_dir : string) (n : FS.node) :
  In n (FS.listdir files exports_dir) ->
  FS.node_name n = other +++ ".md" ->
  startswith other (sanitize_filename folder_name +++ "_") = true ->
  check_folder_already_converted files folder_name exports_dir = true.
Proof.
  intros Hin Hn Hp. apply (matching_entry_converted files folder_name exports_dir n Hin).
  rewrite Hn. unfold FS.fnmatch_affix, startswith in *.
  rewrite (prefix_trans_append _ _ _ Hp), endswith_append. cbn [andb].
  apply Nat.leb_le. rewrite (length_append other). apply prefix_length in Hp.
  change (String.length ".md") with 3. lia.
Qed.

(** The two ledger functions agree: a folder is reported as converted exactly
    when it has an existing artifact; every artifact listed lies in the output
    directory, is one of its entries and matches the folder's pattern; and
    each matching entry is listed once. *)
Theorem ledger_functions_agree (files : FS.fs) (folder_name exports_dir : string) :
  (check_folder_already_converted files folder_name exports_dir = true
   <-> get_existing_converted_files files folder_name exports_dir <> [])
  /\ (forall p, In p (get_existing_converted_files files folder_name exports_dir) ->
        FS.parent p = exports_dir
        /\ In (FS.name p) (entry_names files exports_dir)
        /\ FS.fnmatch_affix (sanitize_filename folder_name +++ "_") ".md" (FS.name p) = true)
  /\ length (get_existing_converted_files files folder_name exports_dir)
     = length (glob_converted folder_name (FS.listdir files exports_dir)).
Proof.
  destruct (FS.exists_dir files exports_dir) eqn:Hd.
  - rewrite (existing_unfold _ _ _ Hd).
    pose proof (newest_first_perm (glob_converted folder_name (FS.listdir files exports_dir)))
      as Hperm.
    split; [|split].
    + unfold check_folder_already_converted. rewrite Hd. simpl.
      destruct (glob_converted folder_name (FS.listdir files exports_dir)) as [|n l] eqn:E.
      * split; [discriminate|]. intros H. exfalso. apply H. reflexivity.
      * split; [|reflexivity]. intros _ H. apply map_eq_nil in H.
        rewrite H in Hperm. apply Permutation_nil in Hperm. discriminate.
    + intros p Hp. apply in_map_iff in Hp. destruct Hp as (n & <- & Hn).
      apply (Permutation_in _ Hperm) in Hn. unfold glob_converted in Hn.
      apply filter_In in Hn. destruct Hn as [Hn Hm].
      repeat split; auto. simpl. unfold entry_names. now apply in_map.
    + rewrite length_map. now apply Permutation_length.
  - destruct (existing_without_dir _ folder_name _ Hd) as [-> ->].
    split; [|split].
    + split; [discriminate | congruence].
    + intros p [].
    + unfold FS.exists_dir in Hd. unfold FS.listdir.
      destruct (Dict.get files exports_dir); [discriminate | reflexivity].
Qed.

End NamingFacts.

(** ** Discovery: what the groups hold *)

Module DiscoverMoreFacts.
Import PyStr Utils UtilsText DiscoverSpec ExtraSpec.
Import DictFacts DiscoverFacts LedgerFacts StringMoreFacts.

Lemma in_set {V} (d : Dict.dict V) (k0 : string) (v0 : V) (k : string) (v : V) :
  In (k, v) (Dict.set d k0 v0) -> (k = k0 /\ v = v0) \/ In (k, v) d.
Proof.
  induction d as [|[k' v'] d IH]; simpl.
  - intros [[= <- <-]|[]]. now left.
  - destruct (String.eqb k' k0) eqn:E; simpl.
    + apply String.eqb_eq in E. subst k'. intros [[= <- <-]|H]; auto.
    + intros [H|H]; auto. destruct (IH H); auto.
Qed.

Lemma in_keys_set {V} (d : Dict.dict V) (k0 : string) (v0 : V) (k : string) :
  In k (Dict.keys (Dict.set d k0 v0)) <-> In k (Dict.keys d) \/ k = k0.
Proof.
  rewrite keys_set. destruct (in_dec string_dec k0 (Dict.keys d)) as [Hin|Hout].
  - split; [tauto|]. intros [H| ->]; auto.
  - rewrite in_app_iff. simpl. intuition (subst; auto).
Qed.

Lemma in_sort_by {A} (before : A -> A -> bool) (l : list A) (x : A) :
  In x (sort_by before l) <-> In x l.
Proof.
  split; apply Permutation_in; [|symmetry]; apply sort_by_perm.
Qed.

Lemma in_supported_in (dir : string) (entries : list FS.node) (p : FS.Path) :
  In p (supported_in dir entries) ->
  exists n, In n entries /\ supported_name (FS.node_name n) = true
            /\ p = FS.mkPath dir (FS.node_name n).
Proof.
  unfold supported_in. rewrite in_flat_map. intros (ext & Hext & Hp).
  unfold glob_ext in Hp. apply in_map_iff in Hp. destruct Hp as (n & <- & Hn).
  apply filter_In in Hn. destruct Hn as [Hn He].
  exists n. repeat split; auto.
  unfold supported_name. apply existsb_exists. eauto.
Qed.

Lemma holds_supported_iff (dir : string) (entries : list FS.node) :
  holds_supported entries = true <-> supported_in dir entries <> [].
Proof.
  split.
  - intros H E. apply supported_in_nil in E. congruence.
  - intros H. destruct (holds_supported entries) eqn:E; [reflexivity|].
    apply (supported_in_nil dir) in E. contradiction.
Qed.

Lemma scan_item_sound (dir : string) (entries : list FS.node)
    (pm : Dict.dict (list FS.Path)) (item : FS.node) :
  In item entries ->
  (forall f fl, In (f, fl) pm -> sound_group dir entries fl) ->
  forall f fl, In (f, fl) (scan_item dir pm item) -> sound_group dir entries fl.
Proof.
  intros Hitem Hpm f fl.
  destruct item as [nm t txt | nm t children]; cbn [scan_item]; [apply Hpm|].
  destruct (startswith nm ".") eqn:Hh; cbn [negb]; [apply Hpm|].
  destruct (supported_in (PurePath.join_path dir nm) children) as [|p0 ps] eqn:E;
    [apply Hpm|].
  intros Hin. apply in_set in Hin. destruct Hin as [[-> ->]|Hin]; [|eapply Hpm; eauto].
  split.
  - apply sort_by_not_nil. discriminate.
  - intros p Hp. apply in_sort_by in Hp. rewrite <- E in Hp.
    apply in_supported_in in Hp. destruct Hp as (n & Hn & Hs & ->).
    split; [exact Hs|]. right. exists nm, t, children, n. auto.
Qed.

Lemma processing_map_sound (dir : string) (entries : list FS.node) :
  forall f fl, In (f, fl) (processing_map_of dir entries) -> sound_group dir entries fl.
Proof.
  unfold processing_map_of.
  assert (G : forall l pm,
             incl l entries ->
             (forall f fl, In (f, fl) pm -> sound_group dir entries fl) ->
             forall f fl, In (f, fl) (fold_left (scan_item dir) l pm) ->
                          sound_group dir entries fl).
  { induction l as [|item l IH]; intros pm Hl Hpm; simpl; [exact Hpm|].
    apply IH.
    - intros x Hx. apply Hl. now right.
    - apply scan_item_sound; auto. apply Hl. now left. }
  apply G; [apply incl_refl|].
  destruct (supported_in dir entries) as [|p0 ps] eqn:E; [intros f fl []|].
  intros f fl Hin. apply in_set in Hin. destruct Hin as [[-> ->]|[]].
  split.
  - apply sort_by_not_nil. discriminate.
  - intros p Hp. apply in_sort_by in Hp. rewrite <- E in Hp.
    apply in_supported_in in Hp. destruct Hp as (n & Hn & Hs & ->).
    split; [exact Hs|]. left. eauto.
Qed.

(** Discovery returns only groups that are not empty, and every path of a
    group carries a supported extension and names an entry of the root or of
    a subdirectory that is not hidden: nothing is invented and nothing below
    a hidden directory is listed. *)
Theorem discovered_groups_are_sound (files : FS.fs) (dir : string)
    (pm : Dict.dict (list FS.Path)) (f : string) (fl : list FS.Path) :
  discover_processing_folders files dir = Py.Returns pm ->
  In (f, fl) pm ->
  fl <> []
  /\ forall p, In p fl ->
       supported_name (FS.name p) = true /\ located dir (FS.listdir files dir) p.
Proof.
  intros Hd Hin. apply discover_returns_inv in Hd. destruct Hd as (entries & Hg & ->).
  unfold FS.listdir. rewrite Hg. eapply processing_map_sound; eauto.
Qed.

Lemma scan_item_keys (dir : string) (pm : Dict.dict (list FS.Path)) (item : FS.node)
    (k : string) :
  In k (Dict.keys (scan_item dir pm item))
  <-> In k (Dict.keys pm)
      \/ (FS.node_name item = k /\ visible_folder_with_supported item = true).
Proof.
  destruct item as [nm t txt | nm t children]; cbn [scan_item visible_folder_with_supported].
  - split; [tauto|]. intros [H|[_ H]]; [exact H | discriminate].
  - destruct (startswith nm "."); cbn [negb andb].
    + split; [tauto|]. intros [H|[_ H]]; [exact H | discriminate].
    + destruct (supported_in (PurePath.join_path dir nm) children) as [|p0 ps] eqn:E.
      * apply supported_in_nil in E. rewrite E.
        split; [tauto|]. intros [H|[_ H]]; [exact H | discriminate].
      * assert (H : holds_supported children = true).
        { apply (holds_supported_iff (PurePath.join_path dir nm)). congruence. }
        rewrite H, in_keys_set. simpl. intuition (subst; auto).
Qed.

Lemma scan_all_keys (dir : string) (l : list FS.node) :
  forall pm k,
    In k (Dict.keys (fold_left (scan_item dir) l pm))
    <-> In k (Dict.keys pm)
        \/ exists item, In item l /\ FS.node_name item = k
                        /\ visible_folder_with_supported item = true.
Proof.
  induction l as [|item l IH]; intros pm k; simpl.
  - split; [tauto|]. intros [H|(item & [] & _)]. exact H.
  - rewrite IH, scan_item_keys. split.
    + intros [[H|H]|(i & Hi & H)]; eauto 6.
    + intros [H|(i & [<-|Hi] & H)]; eauto 6.
Qed.

Lemma qualifying_folder_iff (entries : list FS.node) (k : string) :
  qualifying_folder entries k
  <-> exists item, In item entries /\ FS.node_name item = k
                   /\ visible_folder_with_supported item = true.
Proof.
  split.
  - intros (t & children & Hin & Hv & Hs).
    exists (FS.Dir k t children). simpl. now rewrite Hv, Hs.
  - intros ([nm t txt | nm t children] & Hin & Hk & Hq); simpl in *; [discriminate|].
    subst nm. apply andb_true_iff in Hq. destruct Hq as [Hv Hs].
    apply negb_true_iff in Hv. exists t, children. auto.
Qed.

(** The folder identifiers that discovery returns are pairwise different,
    none starts with a dot, and they are exactly: ["_root"] when the root
    itself holds a supported name, and the name of every subdirectory that is
    not hidden and holds a supported name. *)
Theorem discovered_folder_names (files : FS.fs) (dir : string)
    (pm : Dict.dict (list FS.Path)) :
  discover_processing_folders files dir = Py.Returns pm ->
  NoDup (Dict.keys pm)
  /\ (forall k, In k (Dict.keys pm) -> startswith k "." = false)
  /\ (forall k, In k (Dict.keys pm)
                <-> (k = "_root" /\ holds_supported (FS.listdir files dir) = true)
                    \/ qualifying_folder (FS.listdir files dir) k).
Proof.
  intros Hd. apply discover_returns_inv in Hd. destruct Hd as (entries & Hg & ->).
  unfold FS.listdir. rewrite Hg.
  assert (Hkeys : forall k, In k (Dict.keys (processing_map_of dir entries))
                            <-> (k = "_root" /\ holds_supported entries = true)
                                \/ qualifying_folder entries k).
  { intros k. unfold processing_map_of. rewrite scan_all_keys, qualifying_folder_iff.
    destruct (supported_in dir entries) as [|p0 ps] eqn:E.
    - apply supported_in_nil in E. rewrite E. simpl. split; [tauto|].
      intros [[_ H]|H]; [discriminate | auto].
    - assert (H : holds_supported entries = true).
      { apply (holds_supported_iff dir). congruence. }
      rewrite H. simpl. split.
      + intros [[<-|[]]|Hq]; auto.
      + intros [[-> _]|Hq]; auto. }
  split; [apply RunFacts.processing_map_keys_nodup|]. split; [|exact Hkeys].
  intros k Hk. apply Hkeys in Hk. destruct Hk as [[-> _]|(t & ch & _ & Hv & _)]; auto.
Qed.

Lemma insert_by_name_sorted (x : FS.Path) (l : list FS.Path) :
  StronglySorted name_le l -> StronglySorted name_le (insert_by FS.path_ltb x l).
Proof.
  induction 1 as [|y l Hl IH Hy]; simpl.
  - repeat constructor.
  - unfold FS.path_ltb at 1. destruct (String.ltb (FS.name y) (FS.name x)) eqn:E.
    + constructor; [exact IH|].
      eapply Permutation_Forall; [symmetry; apply insert_by_perm|].
      constructor; [|exact Hy]. unfold name_le. now apply ltb_asym.
    + constructor; [now constructor|].
      constructor; [exact E|].
      eapply Forall_impl; [|exact Hy]. unfold name_le. intros z Hz.
      eapply not_ltb_trans; eauto.
Qed.

Lemma sorted_is_sorted (l : list FS.Path) : StronglySorted name_le (FS.sorted l).
Proof.
  unfold FS.sorted. induction l as [|x l IH]; simpl; [constructor|].
  now apply insert_by_name_sorted.
Qed.

Lemma processing_map_sorted (dir : string) (entries : list FS.node) :
  forall f fl, In (f, fl) (processing_map_of dir entries) -> StronglySorted name_le fl.
Proof.
  unfold processing_map_of.
  assert (G : forall l pm,
             (forall f fl, In (f, fl) pm -> StronglySorted name_le fl) ->
             forall f fl, In (f, fl) (fold_left (scan_item dir) l pm) ->
                          StronglySorted name_le fl).
  { induction l as [|item l IH]; intros pm Hpm; simpl; [exact Hpm|].
    apply IH. intros f fl.
    destruct item as [nm t txt | nm t children]; cbn [scan_item]; [apply Hpm|].
    destruct (negb (startswith nm ".")); [|apply Hpm].
    destruct (supported_in (PurePath.join_path dir nm) children); [apply Hpm|].
    intros Hin. apply in_set in Hin. destruct Hin as [[-> ->]|Hin]; [|eapply Hpm; eauto].
    apply sorted_is_sorted. }
  apply G. destruct (supported_in dir entries); [intros f fl []|].
  intros f fl Hin. apply in_set in Hin. destruct Hin as [[-> ->]|[]].
  apply sorted_is_sorted.
Qed.

(** Within every discovered group the files are in ascending order of their
    names, whatever the order in which the directory lists them. *)
Theorem discovered_groups_are_sorted (files : FS.fs) (dir : string)
    (pm : Dict.dict (list FS.Path)) (f : string) (fl : list FS.Path) :
  discover_processing_folders files dir = Py.Returns pm ->
  In (f, fl) pm -> StronglySorted name_le fl.
Proof.
  intros Hd Hin. apply discover_returns_inv in Hd. destruct Hd as (entries & _ & ->).
  eapply processing_map_sorted; eauto.
Qed.

Lemma fold_app_flat {A} (ls : list (list A)) :
  forall acc, fold_left (fun acc l => acc ++ l) ls acc = acc ++ concat ls.
Proof.
  induction ls as [|l ls IH]; intros acc; simpl; [now rewrite app_nil_r|].
  now rewrite IH, app_assoc.
Qed.

Lemma flat_map_snd_values {V} (d : Dict.dict (list V)) :
  flat_map snd d = concat (Dict.values d).
Proof. unfold Dict.values. now rewrite flat_map_concat_map. Qed.

Lemma discovered_flat_not_nil (files : FS.fs) (dir : string)
    (pm : Dict.dict (list FS.Path)) :
  discover_processing_folders files dir = Py.Returns pm -> flat_map snd pm <> [].
Proof.
  intros Hd.
  destruct (discover_returns_inv _ _ _ Hd) as (entries & Hg & ->).
  rewrite (discover_unfold _ _ _ Hg) in Hd.
  destruct (processing_map_of dir entries) as [|[f fl] pm] eqn:E; [discriminate Hd|].
  assert (Hin : In (f, fl) (processing_map_of dir entries)) by (rewrite E; now left).
  destruct (processing_map_sound dir entries f fl Hin) as [Hne _].
  simpl. destruct fl; [contradiction | discriminate].
Qed.

(** The two flat listings, [validate_imports_directory] of [src/utils.py] and
    [discover_processing_folders_flat] of the data layer, agree on every file
    system; they fail exactly as discovery fails, and a listing that is
    returned is never empty. *)
Theorem flat_listings_agree (files : FS.fs) (dir : string) :
  validate_imports_directory files dir
  = FileDiscoveryFlat.discover_processing_folders_flat files dir
  /\ (forall e, discover_processing_folders files dir = Py.Raises e ->
                validate_imports_directory files dir = Py.Raises e)
  /\ (forall l, validate_imports_directory files dir = Py.Returns l -> l <> []).
Proof.
  unfold validate_imports_directory, FileDiscoveryFlat.discover_processing_folders_flat,
    FileDiscovery.discover_processing_folders_grouped.
  destruct (discover_processing_folders files dir) as [pm|e] eqn:Hd.
  - split; [|split].
    + rewrite fold_app_flat, flat_map_snd_values. reflexivity.
    + discriminate.
    + intros l [= <-]. eapply discovered_flat_not_nil; eauto.
  - split; [reflexivity|]. split; [now intros e' [= <-] | discriminate].
Qed.

End DiscoverMoreFacts.

(** ** validate_configuration *)

Module ValidationFacts.
Import PyStr Utils Validation DiscoverSpec ExtraSpec.
Import DictFacts DiscoverFacts DiscoverMoreFacts.

Lemma check_documents_cases (files : FS.fs) (cfg : Config.Config) (v : ValidationResult) :
  (FS.exists_dir files (Config.IMPORTS_DIR cfg) = false
   /\ exists msg, check_documents files cfg v = Py.Raises (Py.FileNotFoundError msg))
  \/ (FS.exists_dir files (Config.IMPORTS_DIR cfg) = true
      /\ exists v1, check_documents files cfg v = Py.Returns v1
                    /\ valid v1 = valid v /\ errors v1 = errors v).
Proof.
  unfold check_documents, FS.exists_dir.
  destruct (Dict.get files (Config.IMPORTS_DIR cfg)) as [entries|] eqn:Hg.
  - right. split; [reflexivity|].
    rewrite (discover_unfold _ _ _ Hg).
    destruct (processing_map_of (Config.IMPORTS_DIR cfg) entries); eauto.
  - left. split; [reflexivity|].
    rewrite discover_not_found; [eauto|]. unfold FS.exists_dir. now rewrite Hg.
Qed.

(** [validate_configuration] never raises.  Its verdict is [valid] exactly
    when the configured imports directory exists and the exports directory
    exists or can be created, which is exactly when it reports no error; a
    tree without any supported file is still valid.  When the imports
    directory is missing the exports directory is not even attempted. *)
Theorem validate_configuration_verdict (cfg : Config.Config) (env : FS.Env) (w : FS.World) :
  exists v w',
    validate_configuration cfg env w = (Py.Returns v, w')
    /\ (valid v = true
        <-> FS.exists_dir (FS.files w) (Config.IMPORTS_DIR cfg) = true
            /\ fst (FS.mkdir env (Config.EXPORTS_DIR cfg) w) = Py.Returns tt)
    /\ (valid v = true <-> errors v = [])
    /\ (FS.exists_dir (FS.files w) (Config.IMPORTS_DIR cfg) = false -> w' = w).
Proof.
  unfold validate_configuration.
  set (v0 := if FS.exists_dir (FS.files w) (Config.IMPORTS_DIR cfg) then _ else _).
  assert (Hv0 : valid v0 = true /\ errors v0 = []).
  { unfold v0. destruct (FS.exists_dir (FS.files w) (Config.IMPORTS_DIR cfg)); auto. }
  destruct Hv0 as [Hval Herr].
  destruct (check_documents_cases (FS.files w) cfg v0) as [[Hd (msg & ->)]|[Hd (v1 & -> & Hv & He)]].
  - do 2 eexists. split; [reflexivity|]. simpl. rewrite Hd, Herr. simpl.
    repeat split; try discriminate; auto.
    intros [H _]. discriminate.
  - rewrite Hd. destruct (FS.mkdir env (Config.EXPORTS_DIR cfg) w) as [[[]|exc] w1].
    + do 2 eexists. split; [reflexivity|]. simpl. rewrite Hv, He, Hval, Herr.
      repeat split; auto. discriminate.
    + do 2 eexists. split; [reflexivity|]. simpl. rewrite He, Herr. simpl.
      repeat split; try discriminate. intros [_ H]. discriminate.
Qed.

Lemma total_files_flat (pm : Dict.dict (list FS.Path)) :
  total_files pm = length (flat_map snd pm).
Proof.
  unfold total_files, Dict.values.
  assert (G : forall (ls : list (list FS.Path)) a,
             fold_left (fun acc f => acc + length f) ls a = a + length (concat ls)).
  { induction ls as [|l ls IH]; intros a; simpl; [lia|].
    rewrite IH, length_app. lia. }
  rewrite G, flat_map_concat_map. reflexivity.
Qed.

Lemma discovered_total_positive (files : FS.fs) (dir : string)
    (pm : Dict.dict (list FS.Path)) :
  discover_processing_folders files dir = Py.Returns pm -> 0 < total_files pm.
Proof.
  intros Hd. rewrite total_files_flat.
  pose proof (discovered_flat_not_nil _ _ _ Hd) as Hne.
  destruct (flat_map snd pm); [contradiction | simpl; lia].
Qed.

Lemma discover_value_error (files : FS.fs) (dir msg : string) :
  discover_processing_folders files dir = Py.Raises (Py.ValueError msg) ->
  msg = no_files_message.
Proof.
  intros H. destruct (Dict.get files dir) as [entries|] eqn:Hg.
  - rewrite (discover_unfold _ _ _ Hg) in H.
    destruct (processing_map_of dir entries); congruence.
  - rewrite discover_not_found in H; [discriminate|].
    unfold FS.exists_dir. now rewrite Hg.
Qed.

Lemma check_documents_warnings (files : FS.fs) (cfg : Config.Config)
    (v v1 : ValidationResult) :
  check_documents files cfg v = Py.Returns v1 ->
  (warnings v1 = warnings v \/ warnings v1 = warnings v ++ [no_files_message])
  /\ (info v = [] ->
      forall n, Dict.get (info v1) "supported_files_found" = Some n -> (0 < n)%Z).
Proof.
  unfold check_documents.
  destruct (discover_processing_folders files (Config.IMPORTS_DIR cfg)) as [pm|e] eqn:Hd.
  - pose proof (discovered_total_positive _ _ _ Hd) as Hpos.
    destruct (Nat.eqb (total_files pm) 0) eqn:E; [apply Nat.eqb_eq in E; lia|].
    intros [= <-]. simpl. split; [now left|].
    intros -> n. rewrite get_set_same. intros [= <-]. lia.
  - destruct e as [msg|msg|msg|msg]; try discriminate.
    apply discover_value_error in Hd. subst msg.
    intros [= <-]. simpl. split; [now right|]. intros -> n. discriminate.
Qed.

(** The warning for zero supported documents is never issued: when discovery
    returns, the number of supported files that [validate_configuration]
    reports is positive, and when it finds none it raises, which yields the
    discovery message as a warning instead. *)
Theorem validate_configuration_never_counts_zero (cfg : Config.Config) (env : FS.Env)
    (w w' : FS.World) (v : ValidationResult) :
  validate_configuration cfg env w = (Py.Returns v, w') ->
  ~ In no_documents_warning (warnings v)
  /\ (forall n, Dict.get (info v) "supported_files_found" = Some n -> (0 < n)%Z).
Proof.
  unfold validate_configuration.
  set (v0 := if FS.exists_dir (FS.files w) (Config.IMPORTS_DIR cfg) then _ else _).
  assert (Hv0 : ~ In no_documents_warning (warnings v0) /\ info v0 = []).
  { unfold v0. destruct (FS.exists_dir (FS.files w) (Config.IMPORTS_DIR cfg)); simpl.
    - tauto.
    - split; [|reflexivity]. intros [H|[]]. discriminate H. }
  destruct Hv0 as [Hw0 Hi0].
  assert (Hdiff : no_files_message <> no_documents_warning).
  { intros H. apply String.eqb_eq in H. vm_compute in H. discriminate H. }
  destruct (check_documents (FS.files w) cfg v0) as [v1|exc] eqn:Hc.
  - destruct (check_documents_warnings _ _ _ _ Hc) as [Hw Hi].
    assert (Hw1 : ~ In no_documents_warning (warnings v1)).
    { destruct Hw as [->| ->]; [exact Hw0|].
      rewrite in_app_iff. simpl. intros [H|[H|[]]]; [now apply Hw0 | now apply Hdiff]. }
    destruct (FS.mkdir env (Config.EXPORTS_DIR cfg) w) as [[u|e] w1];
      intros [= <- <-]; simpl; split; auto.
  - intros [= <- <-]. simpl. split; [exact Hw0|]. rewrite Hi0. discriminate.
Qed.

End ValidationFacts.

(** ** What a run does to the world *)

Module WorldFacts.
Import PyStr Model Orchestrator RunSpec DiscoverSpec ExtraSpec.
Import DictFacts DiscoverFacts LoopFacts LedgerFacts FolderFacts RunFacts.
Import StringMoreFacts NamingFacts.

Lemma grows_refl (dir : string) (fs0 : FS.fs) : grows dir fs0 fs0.
Proof. repeat split; auto. Qed.

Lemma grows_trans (dir : string) (a b c : FS.fs) :
  grows dir a b -> grows dir b c -> grows dir a c.
Proof.
  intros (A1 & A2 & A3) (B1 & B2 & B3). repeat split.
  - intros d Hd. now rewrite B1, A1.
  - auto.
  - auto.
Qed.

Lemma put_file_names (entries : list FS.node) (x : string) (t : Z) (text nm : string) :
  In nm (map FS.node_name entries) ->
  In nm (map FS.node_name (FS.put_file entries x t text)).
Proof.
  induction entries as [|n l IH]; simpl; [tauto|].
  destruct (String.eqb (FS.node_name n) x) eqn:E; simpl.
  - apply String.eqb_eq in E. rewrite E. tauto.
  - tauto.
Qed.

Lemma put_file_named (entries : list FS.node) (x : string) (t : Z) (text : string) :
  In x (map FS.node_name (FS.put_file entries x t text)).
Proof.
  apply (in_map FS.node_name _ (FS.File x t text)), put_file_in.
Qed.

Lemma set_dir_grows (fs0 : FS.fs) (dir : string) (entries : list FS.node) :
  (forall nm, In nm (entry_names fs0 dir) -> In nm (map FS.node_name entries)) ->
  grows dir fs0 (Dict.set fs0 dir entries).
Proof.
  intros Hn. repeat split.
  - intros d Hd. apply get_set_other. congruence.
  - intros d. unfold FS.exists_dir. destruct (string_dec dir d) as [->|Hne].
    + now rewrite get_set_same.
    + now rewrite get_set_other.
  - intros d nm. unfold entry_names, FS.listdir in *.
    destruct (string_dec dir d) as [<-|Hne].
    + rewrite get_set_same. apply Hn.
    + now rewrite get_set_other.
Qed.

Lemma store_grows (env : FS.Env) (fs0 : FS.fs) (p : FS.Path) (text : string) :
  grows (FS.parent p) fs0 (FS.store env fs0 p text).
Proof.
  apply set_dir_grows. intros nm. apply put_file_names.
Qed.

Lemma mkdir_grows (env : FS.Env) (dir : string) (w : FS.World) :
  grows dir (FS.files w) (FS.files (snd (FS.mkdir env dir w))).
Proof.
  unfold FS.mkdir. destruct (FS.exists_dir (FS.files w) dir) eqn:E; [apply grows_refl|].
  destruct (FS.mkdir_ok env dir); [|apply grows_refl].
  simpl. apply set_dir_grows. intros nm. unfold entry_names, FS.listdir.
  unfold FS.exists_dir in E. destruct (Dict.get (FS.files w) dir); [discriminate | intros []].
Qed.

Lemma folder_step_grows (cfg : Config.Config) (env : FS.Env) (exports_path : string)
    (output_filename : option string) (item : string * list FS.Path)
    (r : ConversionResult) (w : FS.World) :
  grows exports_path (FS.files w)
    (FS.files (snd (folder_step cfg env exports_path output_filename item r w))).
Proof.
  destruct item as [f fl]. rewrite folder_step_unfold.
  destruct (skips cfg (FS.files w) f exports_path); [apply grows_refl|].
  destruct (out_name_of f output_filename) as [nm|]; [|apply grows_refl].
  destruct (FS.can_open env (FS.files w) (FS.mkPath exports_path nm)); [|apply grows_refl].
  simpl. apply (store_grows env (FS.files w) (FS.mkPath exports_path nm)).
Qed.

Lemma folder_step_calls (cfg : Config.Config) (env : FS.Env) (exports_path : string)
    (output_filename : option string) (f : string) (fl : list FS.Path)
    (r : ConversionResult) (w : FS.World) :
  exists cs,
    FS.calls (snd (folder_step cfg env exports_path output_filename (f, fl) r w))
    = FS.calls w ++ cs
    /\ incl cs fl.
Proof.
  rewrite folder_step_unfold.
  destruct (skips cfg (FS.files w) f exports_path).
  { exists []. simpl. rewrite app_nil_r. split; [reflexivity | intros x []]. }
  destruct (out_name_of f output_filename) as [nm|].
  2:{ exists []. simpl. rewrite app_nil_r. split; [reflexivity | intros x []]. }
  destruct (FS.can_open env (FS.files w) (FS.mkPath exports_path nm)).
  - exists fl. split; [reflexivity | apply incl_refl].
  - exists []. simpl. rewrite app_nil_r. split; [reflexivity | intros x []].
Qed.

(** An invariant of the world holds after a loop, whether it returns or
    raises, when every round keeps it. *)
Lemma for_each_world {A S} (body : A -> S -> FS.M S) (P : FS.World -> Prop) (l : list A) :
  (forall a s w, In a l -> P w -> P (snd (body a s w))) ->
  forall s w, P w -> P (snd (FS.for_each body l s w)).
Proof.
  induction l as [|a l IH]; intros Hbody s w Hw; simpl; [exact Hw|].
  unfold FS.bind. pose proof (Hbody a s w (or_introl eq_refl) Hw) as H1.
  destruct (body a s w) as [[s1|ex] w1]; simpl in *; [|exact H1].
  apply IH; [intros a' s' w' Hin; apply Hbody; now right | exact H1].
Qed.

(** An invariant of the state and the world across a loop that returns. *)
Lemma for_each_both {A S} (body : A -> S -> FS.M S) (P : S -> FS.World -> Prop) :
  (forall a s w s' w', P s w -> body a s w = (Py.Returns s', w') -> P s' w') ->
  forall l s w s' w', P s w -> FS.for_each body l s w = (Py.Returns s', w') -> P s' w'.
Proof.
  intros Hbody. induction l as [|a l IH]; intros s w s' w' Hs; simpl.
  - unfold FS.ret. now intros [= <- <-].
  - unfold FS.bind. destruct (body a s w) as [[s1|ex] w1] eqn:E; [|discriminate].
    apply IH. eapply Hbody; eauto.
Qed.

Lemma report_grows (env : FS.Env) (r : ConversionResult) (dir : string) (w : FS.World) :
  grows dir (FS.files w) (FS.files (snd (_generate_summary_report env r dir w))).
Proof.
  unfold _generate_summary_report, FS.bind, FS.get_files.
  match goal with |- context [if ?b then _ else _] => destruct b end;
    [|apply grows_refl].
  simpl.
  match goal with |- context [FS.store env _ ?p _] => apply (store_grows env (FS.files w) p) end.
Qed.

Lemma run_world (cfg : Config.Config) (env : FS.Env)
    (imports_dir exports_dir output_filename : option string) (w : FS.World)
    (P : FS.World -> Prop) :
  P (snd (FS.mkdir env (exports_path_of cfg exports_dir) w)) ->
  (forall pm w0,
      Utils.discover_processing_folders
        (files_after_mkdir env (exports_path_of cfg exports_dir) w)
        (imports_path_of cfg imports_dir) = Py.Returns pm ->
      P w0 ->
      forall item r, In item pm ->
        P (snd (folder_step cfg env (exports_path_of cfg exports_dir) output_filename
                  item r w0))) ->
  (forall r w1, P w1 ->
     P (snd (_generate_summary_report env r (exports_path_of cfg exports_dir) w1))) ->
  P (snd (run cfg env imports_dir exports_dir output_filename w)).
Proof.
  intros Hm Hstep Hrep. rewrite run_unfold. unfold files_after_mkdir in Hstep.
  destruct (FS.mkdir env (exports_path_of cfg exports_dir) w) as [[u|ex] w0];
    simpl in *; [|exact Hm].
  destruct (Utils.discover_processing_folders (FS.files w0) (imports_path_of cfg imports_dir))
    as [pm|ex] eqn:Hd; [|exact Hm].
  assert (Hloop : P (snd (FS.for_each
                            (folder_step cfg env (exports_path_of cfg exports_dir)
                               output_filename) pm new_result w0))).
  { apply for_each_world; [|exact Hm]. intros a s w1 Hin Hw1. now apply (Hstep pm). }
  destruct (FS.for_each _ pm new_result w0) as [[r1|ex] w1]; simpl in *; [|exact Hloop].
  specialize (Hrep (finish env r1) w1 Hloop).
  destruct (_generate_summary_report env (finish env r1) (exports_path_of cfg exports_dir) w1)
    as [[u'|ex] w2]; exact Hrep.
Qed.

Lemma run_grows (cfg : Config.Config) (env : FS.Env)
    (imports_dir exports_dir output_filename : option string) (w : FS.World) :
  grows (exports_path_of cfg exports_dir) (FS.files w)
    (FS.files (snd (run cfg env imports_dir exports_dir output_filename w))).
Proof.
  apply (run_world cfg env imports_dir exports_dir output_filename w
           (fun w' => grows (exports_path_of cfg exports_dir) (FS.files w) (FS.files w'))).
  - apply mkdir_grows.
  - intros pm w0 _ Hw0 item r _. eapply grows_trans; [exact Hw0|]. apply folder_step_grows.
  - intros r w1 Hw1. eapply grows_trans; [exact Hw1|]. apply report_grows.
Qed.

(** When the output file name is a file name, with no slash in it, [run]
    leaves the listing of every directory other than the output directory,
    with all that lies below its entries, exactly as it was, whether it
    returns or raises; in particular it never writes to the input tree when
    the output directory lies outside of it.  A name with a slash is not
    covered: the join resolves it to another directory. *)
Theorem run_writes_only_to_exports (cfg : Config.Config) (env : FS.Env)
    (imports_dir exports_dir output_filename : option string) (w : FS.World) (d : string) :
  names_a_file output_filename = true ->
  d <> exports_path_of cfg exports_dir ->
  Dict.get (FS.files (snd (run cfg env imports_dir exports_dir output_filename w))) d
  = Dict.get (FS.files w) d.
Proof.
  intros _ Hd. now apply (run_grows cfg env imports_dir exports_dir output_filename w).
Qed.

Lemma check_grows (dir : string) (before after : FS.fs) (folder_name : string) :
  grows dir before after ->
  Utils.check_folder_already_converted before folder_name dir = true ->
  Utils.check_folder_already_converted after folder_name dir = true.
Proof.
  intros (_ & _ & Hn) Hc. apply check_true_iff in Hc. destruct Hc as (n & Hin & Hm).
  assert (H : In (FS.node_name n) (entry_names after dir)).
  { apply Hn. unfold entry_names. now apply in_map. }
  unfold entry_names in H. apply in_map_iff in H. destruct H as (n' & Hname & Hin').
  apply check_true_iff. exists n'. rewrite Hname. auto.
Qed.

(** [run] removes nothing: whether it returns or raises, every entry name of
    every directory is still there afterwards, and a folder that the ledger
    reported as converted before the run is still reported as converted after
    it. *)
Theorem run_never_unconverts (cfg : Config.Config) (env : FS.Env)
    (imports_dir exports_dir output_filename : option string) (w : FS.World)
    (folder_name : string) :
  Utils.check_folder_already_converted (FS.files w) folder_name
    (exports_path_of cfg exports_dir) = true ->
  Utils.check_folder_already_converted
    (FS.files (snd (run cfg env imports_dir exports_dir output_filename w)))
    folder_name (exports_path_of cfg exports_dir) = true
  /\ forall d nm, In nm (entry_names (FS.files w) d) ->
       In nm (entry_names
                (FS.files (snd (run cfg env imports_dir exports_dir output_filename w))) d).
Proof.
  intros Hc.
  pose proof (run_grows cfg env imports_dir exports_dir output_filename w) as G.
  split; [eapply check_grows; eauto|]. apply G.
Qed.

(** Whether it returns or raises, [run] calls the transformer on discovered
    files only: the calls it adds to the log are all files of the processing
    map. *)
Theorem run_transforms_discovered_files_only (cfg : Config.Config) (env : FS.Env)
    (imports_dir exports_dir output_filename : option string) (w : FS.World)
    (pm : Dict.dict (list FS.Path)) :
  Utils.discover_processing_folders
    (files_after_mkdir env (exports_path_of cfg exports_dir) w)
    (imports_path_of cfg imports_dir) = Py.Returns pm ->
  exists cs,
    FS.calls (snd (run cfg env imports_dir exports_dir output_filename w))
    = FS.calls w ++ cs
    /\ incl cs (flat_map snd pm).
Proof.
  intros Hd.
  apply (run_world cfg env imports_dir exports_dir output_filename w
           (fun w' => exists cs, FS.calls w' = FS.calls w ++ cs /\ incl cs (flat_map snd pm))).
  - exists []. rewrite mkdir_calls, app_nil_r. split; [reflexivity | intros x []].
  - intros pm' w0 Hd' (cs & Hcs & Hincl) [f fl] r Hin.
    rewrite Hd in Hd'. injection Hd' as <-.
    destruct (folder_step_calls cfg env (exports_path_of cfg exports_dir) output_filename
                f fl r w0) as (cs' & Hcs' & Hincl').
    exists (cs ++ cs'). rewrite Hcs', Hcs, app_assoc. split; [reflexivity|].
    apply incl_app; [exact Hincl|].
    intros x Hx. apply in_flat_map. exists (f, fl). split; [exact Hin | now apply Hincl'].
  - intros r w1 (cs & Hcs & Hincl). exists cs. now rewrite report_calls.
Qed.

End WorldFacts.

(** ** What a run that returns reports *)

Module ResultFacts.
Import PyStr Model Orchestrator RunSpec DiscoverSpec ExtraSpec.
Import DictFacts DiscoverFacts LoopFacts LedgerFacts FolderFacts RunFacts.
Import StringMoreFacts NamingFacts WorldFacts.

Lemma length_setdefault_append {A} (d : Dict.dict (list A)) (k : string) (x : A) :
  length (flat_map snd (Dict.setdefault_append d k x)) = S (length (flat_map snd d)).
Proof.
  unfold Dict.setdefault_append, Dict.get_list.
  induction d as [|[k' v'] d IH]; simpl; [reflexivity|].
  destruct (String.eqb k' k) eqn:E; simpl.
  - rewrite !length_app. simpl. lia.
  - rewrite !length_app, IH. lia.
Qed.

Lemma record_all_count (env : FS.Env) (folder_name : string) (files : list FS.Path) :
  forall r,
    length (processed_files (record_all env folder_name files r))
    + length (failed_files (record_all env folder_name files r))
    = length (processed_files r) + length (failed_files r) + length files.
Proof.
  unfold record_all. induction files as [|p files IH]; intros r; simpl; [lia|].
  rewrite IH. unfold record_file, processed_files. destruct (fails env p); simpl.
  - rewrite length_app. simpl. lia.
  - rewrite length_setdefault_append. lia.
Qed.

Lemma folder_step_count (cfg : Config.Config) (env : FS.Env) (exports_path : string)
    (output_filename : option string) (item : string * list FS.Path)
    (r r' : ConversionResult) (w w' : FS.World) (n : nat) :
  length (processed_files r) + length (failed_files r) + n = length (FS.calls w) ->
  folder_step cfg env exports_path output_filename item r w = (Py.Returns r', w') ->
  length (processed_files r') + length (failed_files r') + n = length (FS.calls w').
Proof.
  destruct item as [f fl]. intros H. rewrite folder_step_unfold.
  destruct (skips cfg (FS.files w) f exports_path).
  { intros [= <- <-]. exact H. }
  destruct (out_name_of f output_filename) as [nm|]; [|discriminate].
  destruct (FS.can_open env (FS.files w) (FS.mkPath exports_path nm)).
  - intros [= <- <-]. simpl FS.calls. rewrite length_app.
    pose proof (record_all_count env f fl r) as Hc.
    unfold processed_files in *. simpl. lia.
  - intros [= <- <-]. exact H.
Qed.

(** In a run that returns, every transformer call is accounted for exactly
    once: the number of names in [processed_folders] plus the number of names
    in [failed_files] is the number of calls the run made. *)
Theorem run_accounts_for_every_call (cfg : Config.Config) (env : FS.Env)
    (imports_dir exports_dir output_filename : option string) (w w' : FS.World)
    (r : ConversionResult) :
  run cfg env imports_dir exports_dir output_filename w = (Py.Returns r, w') ->
  length (processed_files r) + length (failed_files r) + length (FS.calls w)
  = length (FS.calls w').
Proof.
  intros H. apply run_returns_inv in H.
  destruct H as (pm & r1 & w1 & _ & Hloop & -> & _ & ->).
  rewrite report_calls.
  change (processed_files (finish env r1)) with (processed_files r1).
  change (failed_files (finish env r1)) with (failed_files r1).
  revert Hloop.
  apply (for_each_both _ (fun r w0 => length (processed_files r) + length (failed_files r)
                                      + length (FS.calls w) = length (FS.calls w0))).
  - intros a s w0 s' w0' Hs Hstep. eapply folder_step_count; eauto.
  - simpl. now rewrite mkdir_calls.
Qed.

(** With skipping disabled, a run that returns has skipped nothing, whatever
    the output directory holds. *)
Theorem run_without_skipping_skips_nothing (cfg : Config.Config) (env : FS.Env)
    (imports_dir exports_dir output_filename : option string) (w w' : FS.World)
    (r : ConversionResult) :
  Config.SKIP_ALREADY_CONVERTED cfg = false ->
  run cfg env imports_dir exports_dir output_filename w = (Py.Returns r, w') ->
  skipped_folders r = [].
Proof.
  intros Hskip H. apply run_returns_inv in H.
  destruct H as (pm & r1 & w1 & _ & Hloop & -> & _).
  change (skipped_folders (finish env r1)) with (skipped_folders r1).
  revert Hloop.
  apply (for_each_preserves _ (fun r => skipped_folders r = [])); [|reflexivity].
  intros [f fl] s w0 s' w0' Hs. rewrite folder_step_unfold.
  unfold skips. rewrite Hskip. cbn [andb].
  destruct (out_name_of f output_filename) as [nm|]; [|discriminate].
  destruct (FS.can_open env (FS.files w0) _).
  - intros [= <- _]. simpl.
    destruct (record_all_others env f fl s) as (-> & _). exact Hs.
  - intros [= <- _]. exact Hs.
Qed.

Lemma existing_paths_listed (files : FS.fs) (folder_name exports_dir : string) (p : FS.Path) :
  In p (Utils.get_existing_converted_files files folder_name exports_dir) ->
  FS.parent p = exports_dir /\ In (FS.name p) (entry_names files exports_dir).
Proof.
  unfold Utils.get_existing_converted_files.
  destruct (negb (FS.exists_dir files exports_dir)); [intros []|].
  intros Hp. apply in_map_iff in Hp. destruct Hp as (n & <- & Hn).
  apply (Permutation_in _ (newest_first_perm _)) in Hn.
  unfold Utils.glob_converted in Hn. apply filter_In in Hn.
  split; [reflexivity|]. simpl. unfold entry_names. apply in_map. tauto.
Qed.

Lemma outputs_present_grows (dir : string) (r : ConversionResult) (w w' : FS.World) :
  grows dir (FS.files w) (FS.files w') ->
  outputs_present dir r w -> outputs_present dir r w'.
Proof.
  intros (_ & _ & Hn) H p Hp. destruct (H p Hp) as [H1 H2]. split; auto.
Qed.

Lemma folder_step_outputs (cfg : Config.Config) (env : FS.Env) (exports_path : string)
    (output_filename : option string) (item : string * list FS.Path)
    (r r' : ConversionResult) (w w' : FS.World) :
  outputs_present exports_path r w ->
  folder_step cfg env exports_path output_filename item r w = (Py.Returns r', w') ->
  outputs_present exports_path r' w'.
Proof.
  destruct item as [f fl]. intros H. rewrite folder_step_unfold.
  destruct (skips cfg (FS.files w) f exports_path).
  { intros [= <- <-] p Hp. simpl in Hp. apply in_app_iff in Hp.
    destruct Hp as [Hp|Hp]; [now apply H | now apply existing_paths_listed in Hp]. }
  destruct (out_name_of f output_filename) as [nm|]; [|discriminate].
  destruct (FS.can_open env (FS.files w) (FS.mkPath exports_path nm)).
  - intros [= <- <-] p Hp. simpl in Hp.
    destruct (record_all_others env f fl r) as (_ & Hout & _). rewrite Hout in Hp.
    apply in_app_iff in Hp. destruct Hp as [Hp|[<-|[]]].
    + destruct (H p Hp) as [H1 H2]. split; [exact H1|].
      apply (store_grows env (FS.files w) (FS.mkPath exports_path nm)). exact H2.
    + split; [reflexivity|]. simpl. unfold entry_names.
      change exports_path with (FS.parent (FS.mkPath exports_path nm)) at 2.
      rewrite listdir_store. apply put_file_named.
  - intros [= <- <-]. exact H.
Qed.

(** In a run that returns, every path of [output_files] lies in the output
    directory and names an entry that is there when the run ends. *)
Theorem run_outputs_are_present (cfg : Config.Config) (env : FS.Env)
    (imports_dir exports_dir output_filename : option string) (w w' : FS.World)
    (r : ConversionResult) (p : FS.Path) :
  run cfg env imports_dir exports_dir output_filename w = (Py.Returns r, w') ->
  In p (output_files r) ->
  FS.parent p = exports_path_of cfg exports_dir
  /\ In (FS.name p) (entry_names (FS.files w') (exports_path_of cfg exports_dir)).
Proof.
  intros H. apply run_returns_inv in H.
  destruct H as (pm & r1 & w1 & _ & Hloop & -> & _ & ->).
  assert (G : outputs_present (exports_path_of cfg exports_dir) r1 w1).
  { revert Hloop. apply (for_each_both _ (outputs_present (exports_path_of cfg exports_dir))).
    - intros a s w0 s' w0'. apply folder_step_outputs.
    - intros q []. }
  apply (outputs_present_grows _ (finish env r1) w1); [apply report_grows | exact G].
Qed.

(** The summary report is itself taken for an artifact: after every run that
    returns, the ledger reports a folder named [processing] as converted,
    because [processing_summary_<time>.md] matches its pattern. *)
Theorem summary_report_marks_processing_converted (cfg : Config.Config) (env : FS.Env)
    (imports_dir exports_dir output_filename : option string) (w w' : FS.World)
    (r : ConversionResult) :
  run cfg env imports_dir exports_dir output_filename w = (Py.Returns r, w') ->
  Utils.check_folder_already_converted (FS.files w') "processing"
    (exports_path_of cfg exports_dir) = true.
Proof.
  intros H. apply run_returns_inv in H.
  destruct H as (pm & r1 & w1 & _ & _ & -> & Hret & ->).
  revert Hret. unfold _generate_summary_report, FS.bind, FS.get_files.
  match goal with |- context [if ?b then _ else _] => destruct b end; [|discriminate].
  intros _. simpl.
  match goal with
  | |- context [FS.store env _ ?p ?text] =>
      apply (matching_entry_converted _ "processing" _
               (FS.File (FS.name p) (FS.mtime_of_write env p) text))
  end.
  - match goal with
    | |- context [FS.store env _ ?p ?text] =>
        change (exports_path_of cfg exports_dir) with (FS.parent p) at 2
    end.
    rewrite listdir_store. apply put_file_in.
  - change (Utils.sanitize_filename "processing" +++ "_") with "processing_".
    apply (affix_matches "processing_" ("summary_" +++ str_of_Z (FS.time_report env)) ".md").
Qed.

End ResultFacts.

(** ** clean_text *)

Module CleanTextFacts.
Import PyStr UtilsText ExtraSpec StringMoreFacts LoopFacts.

Lemma lstrip_ws_head (s : string) : starts_with_whitespace (lstrip_ws s) = false.
Proof.
  induction s as [|a s IH]; simpl; [reflexivity|].
  destruct (is_space a) eqn:E; [exact IH | simpl; exact E].
Qed.

Lemma lstrip_ws_fixed (s : string) : starts_with_whitespace s = false -> lstrip_ws s = s.
Proof. destruct s as [|a s]; simpl; [reflexivity | now intros ->]. Qed.

Lemma rstrip_ws_head (s : string) :
  starts_with_whitespace s = false -> starts_with_whitespace (rstrip_ws s) = false.
Proof.
  destruct s as [|a s]; simpl; [reflexivity|]. intros E.
  destruct (rstrip_ws s); simpl; [rewrite E; exact E | exact E].
Qed.

Lemma rstrip_ws_idem (s : string) : rstrip_ws (rstrip_ws s) = rstrip_ws s.
Proof.
  induction s as [|a s IH]; simpl; [reflexivity|].
  destruct (rstrip_ws s) as [|b r] eqn:E.
  - destruct (is_space a) eqn:Ea; simpl; [reflexivity | now rewrite Ea].
  - simpl in *. destruct (rstrip_ws r) as [|b' r'] eqn:Er.
    + destruct (is_space b) eqn:Eb; [discriminate IH|].
      injection IH as <-. reflexivity.
    + now rewrite IH.
Qed.

Lemma strip_ws_fixed (s : string) : strip_ws (strip_ws s) = strip_ws s.
Proof.
  unfold strip_ws. rewrite (lstrip_ws_fixed (rstrip_ws (lstrip_ws s))).
  - apply rstrip_ws_idem.
  - apply rstrip_ws_head, lstrip_ws_head.
Qed.

Lemma strip_ws_head (s : string) : starts_with_whitespace (strip_ws s) = false.
Proof. apply rstrip_ws_head, lstrip_ws_head. Qed.

Lemma rstrip_ws_append (a b : string) :
  rstrip_ws b = b -> b <> "" -> rstrip_ws (a +++ b) = a +++ b.
Proof.
  intros Hb Hne. induction a as [|c a IH]; simpl; [exact Hb|].
  rewrite IH. destruct (a +++ b) eqn:E; [|reflexivity].
  destruct a; simpl in E; [contradiction | discriminate].
Qed.

Lemma pop_leading_head (lines : list string) :
  match pop_leading_empty lines with
  | l :: _ => is_empty l = false
  | [] => True
  end.
Proof.
  induction lines as [|l rest IH]; simpl; [exact I|].
  destruct (is_empty l) eqn:E; [exact IH | exact E].
Qed.

Lemma pop_leading_incl (lines : list string) : incl (pop_leading_empty lines) lines.
Proof.
  induction lines as [|l rest IH]; simpl; [apply incl_refl|].
  destruct (is_empty l); [now apply incl_tl | apply incl_refl].
Qed.

Lemma pop_trailing_incl (lines : list string) : incl (pop_trailing_empty lines) lines.
Proof.
  induction lines as [|l rest IH]; simpl; [apply incl_refl|].
  destruct (pop_trailing_empty rest) as [|x r].
  - destruct (is_empty l); [intros y [] | intros y [<-|[]]; now left].
  - intros y [<-|Hy]; [now left | right; now apply IH].
Qed.

Lemma pop_trailing_last (lines : list string) :
  pop_trailing_empty lines <> [] -> is_empty (last (pop_trailing_empty lines) "") = false.
Proof.
  induction lines as [|l rest IH]; simpl; [congruence|].
  destruct (pop_trailing_empty rest) as [|x r].
  - destruct (is_empty l) eqn:E; [congruence | intros _; exact E].
  - intros _. change (last (l :: x :: r) "") with (last (x :: r) ""). apply IH. discriminate.
Qed.

Lemma pop_trailing_head (lines : list string) :
  match lines with
  | l :: _ => is_empty l = false
  | [] => True
  end ->
  match pop_trailing_empty lines with
  | l :: _ => is_empty l = false
  | [] => True
  end.
Proof.
  destruct lines as [|l rest]; simpl; [auto|]. intros E.
  destruct (pop_trailing_empty rest); [rewrite E|]; exact E.
Qed.

Lemma join_lines_head (x : string) (rest : list string) :
  is_empty x = false ->
  starts_with_whitespace (join (String newline "") (x :: rest)) = starts_with_whitespace x.
Proof.
  destruct x as [|a x]; [discriminate|]. intros _.
  unfold join. simpl. destruct rest; reflexivity.
Qed.

Lemma join_lines_not_empty (lines : list string) :
  lines <> [] -> is_empty (last lines "") = false ->
  join (String newline "") lines <> "".
Proof.
  destruct lines as [|x rest]; [congruence|]. intros _.
  unfold join. destruct rest as [|y rest]; simpl.
  - destruct x; [discriminate | discriminate].
  - intros _. destruct x; discriminate.
Qed.

Lemma join_lines_rstrip (lines : list string) :
  Forall (fun l => rstrip_ws l = l) lines ->
  lines <> [] -> is_empty (last lines "") = false ->
  rstrip_ws (join (String newline "") lines) = join (String newline "") lines.
Proof.
  induction lines as [|x rest IH]; [congruence|].
  intros Hall _ Hlast. inversion Hall as [|? ? Hx Hrest]; subst.
  destruct rest as [|y rest]; [exact Hx|].
  change (join (String newline "") (x :: y :: rest))
    with (x +++ String newline (join (String newline "") (y :: rest))).
  change (last (x :: y :: rest) "") with (last (y :: rest) "") in Hlast.
  assert (Hne : y :: rest <> []) by discriminate.
  specialize (IH Hrest Hne Hlast).
  pose proof (join_lines_not_empty (y :: rest) Hne Hlast) as Hj.
  apply rstrip_ws_append; [|discriminate].
  apply (rstrip_ws_append (String newline "")); [exact IH | exact Hj].
Qed.

Lemma clean_lines_trimmed (text : string) :
  Forall (fun l => strip_ws l = l) (clean_lines text).
Proof.
  unfold clean_lines. apply Forall_forall. intros l Hl.
  apply pop_trailing_incl, pop_leading_incl in Hl.
  apply in_map_iff in Hl. destruct Hl as (x & <- & _). apply strip_ws_fixed.
Qed.

Lemma trimmed_rstrip (l : string) : strip_ws l = l -> rstrip_ws l = l.
Proof. intros H. rewrite <- H. unfold strip_ws. apply rstrip_ws_idem. Qed.

Lemma trimmed_head (l : string) : strip_ws l = l -> starts_with_whitespace l = false.
Proof. intros H. rewrite <- H. apply strip_ws_head. Qed.

(** The text that [clean_text] returns has no whitespace, and so no blank
    line, at either end: stripping it changes nothing. *)
Theorem clean_text_is_stripped (text : string) :
  strip_ws (clean_text text) = clean_text text.
Proof.
  unfold clean_text. destruct (is_empty text); [reflexivity|].
  pose proof (clean_lines_trimmed text) as Htrim.
  assert (Hhead : match clean_lines text with
                  | l :: _ => is_empty l = false
                  | [] => True
                  end).
  { unfold clean_lines. apply pop_trailing_head, pop_leading_head. }
  assert (Hlast : clean_lines text <> [] -> is_empty (last (clean_lines text) "") = false).
  { unfold clean_lines. apply pop_trailing_last. }
  destruct (clean_lines text) as [|x rest] eqn:E; [reflexivity|].
  specialize (Hlast ltac:(discriminate)).
  unfold strip_ws. rewrite lstrip_ws_fixed.
  - apply join_lines_rstrip; [|discriminate|exact Hlast].
    eapply Forall_impl; [|exact Htrim]. apply trimmed_rstrip.
  - rewrite (join_lines_head x rest Hhead). apply trimmed_head.
    now inversion Htrim.
Qed.

(** *** Runs of spaces *)

Lemma squeeze_spaces_single (s : string) : no_double_space (squeeze_spaces s) = true.
Proof.
  induction s as [|c s IH]; [reflexivity|].
  cbn [squeeze_spaces]. destruct (Ascii.eqb c " ") eqn:G.
  - destruct s as [|c' s']; [reflexivity|].
    destruct (Ascii.eqb c' " ") eqn:G'; [exact IH|].
    cbn [squeeze_spaces] in *. rewrite G' in *.
    cbn [no_double_space] in *. rewrite IH, G'. reflexivity.
  - cbn [no_double_space]. now rewrite G, IH.
Qed.

Lemma no_double_space_tail (c : ascii) (s : string) :
  no_double_space (String c s) = true -> no_double_space s = true.
Proof. cbn [no_double_space]. rewrite andb_true_iff. tauto. Qed.

Lemma no_double_space_cons (c : ascii) (s : string) :
  no_double_space s = true ->
  (Ascii.eqb c " " = true -> starts_with_space s = false) ->
  no_double_space (String c s) = true.
Proof.
  intros Hs Hc. cbn [no_double_space]. rewrite Hs, andb_true_r.
  destruct (Ascii.eqb c " "); [|reflexivity].
  specialize (Hc eq_refl). destruct s; [reflexivity|]. simpl in Hc. now rewrite Hc.
Qed.

Lemma no_double_space_head (c : ascii) (s : string) :
  no_double_space (String c s) = true -> Ascii.eqb c " " = true ->
  starts_with_space s = false.
Proof.
  cbn [no_double_space]. intros H E. rewrite E in H.
  destruct s as [|c' s']; [reflexivity|]. simpl.
  apply andb_true_iff in H. now apply negb_true_iff.
Qed.

Lemma split_head_space (s : string) :
  starts_with_space s = false ->
  starts_with_space (hd "" (split newline s)) = false.
Proof.
  destruct s as [|a s]; simpl; [reflexivity|]. intros E.
  destruct (Ascii.eqb a newline); [reflexivity|].
  destruct (split newline s); exact E.
Qed.

Lemma split_single (s : string) :
  no_double_space s = true -> Forall (fun l => no_double_space l = true) (split newline s).
Proof.
  induction s as [|a s IH]; intros H; simpl; [repeat constructor|].
  pose proof (IH (no_double_space_tail _ _ H)) as Hs.
  destruct (Ascii.eqb a newline) eqn:En; [now constructor|].
  pose proof (split_not_nil newline s) as Hnn.
  pose proof (split_head_space s) as Hh.
  destruct (split newline s) as [|h t]; [contradiction|].
  inversion Hs; subst. constructor; [|assumption].
  apply no_double_space_cons; [assumption|].
  intros Ea. apply Hh. now apply (no_double_space_head a).
Qed.

Lemma lstrip_ws_single (s : string) :
  no_double_space s = true -> no_double_space (lstrip_ws s) = true.
Proof.
  induction s as [|a s IH]; [reflexivity|]. intros H. cbn [lstrip_ws].
  destruct (is_space a); [apply IH; eapply no_double_space_tail; eauto | exact H].
Qed.

Lemma rstrip_ws_single (s : string) :
  no_double_space s = true -> no_double_space (rstrip_ws s) = true.
Proof.
  induction s as [|a s IH]; [reflexivity|]. intros H. cbn [rstrip_ws].
  pose proof (IH (no_double_space_tail _ _ H)) as Hr.
  destruct (rstrip_ws s) as [|b r] eqn:E.
  - destruct (is_space a); [reflexivity|]. cbn. now destruct (Ascii.eqb a " ").
  - apply no_double_space_cons; [exact Hr|]. intros Ea.
    pose proof (no_double_space_head a s H Ea) as Hs.
    destruct s as [|b' s']; [discriminate E|]. cbn [rstrip_ws] in E.
    destruct (rstrip_ws s'); [destruct (is_space b'); [discriminate E|]|];
      injection E as <- _; exact Hs.
Qed.

Lemma append_single (a b : string) :
  no_double_space a = true -> no_double_space b = true ->
  no_double_space (a +++ String newline b) = true.
Proof.
  intros Ha Hb. induction a as [|c a IH]; simpl append.
  - apply no_double_space_cons; [exact Hb | discriminate].
  - apply no_double_space_cons; [apply IH; eapply no_double_space_tail; eauto|].
    intros Ec. pose proof (no_double_space_head c a Ha Ec) as Hs.
    destruct a; [reflexivity | exact Hs].
Qed.

Lemma join_single (lines : list string) :
  Forall (fun l => no_double_space l = true) lines ->
  no_double_space (join (String newline "") lines) = true.
Proof.
  induction 1 as [|x rest Hx Hrest IH]; [reflexivity|].
  destruct rest as [|y rest]; [exact Hx|].
  change (join (String newline "") (x :: y :: rest))
    with (x +++ String newline (join (String newline "") (y :: rest))).
  now apply append_single.
Qed.

(** The text that [clean_text] returns never holds two spaces in a row. *)
Theorem clean_text_has_no_double_space (text : string) :
  no_double_space (clean_text text) = true.
Proof.
  unfold clean_text. destruct (is_empty text); [reflexivity|].
  apply join_single. unfold clean_lines. apply Forall_forall. intros l Hl.
  apply pop_trailing_incl, pop_leading_incl in Hl.
  apply in_map_iff in Hl. destruct Hl as (x & <- & Hx).
  unfold strip_ws. apply rstrip_ws_single, lstrip_ws_single.
  revert x Hx. apply Forall_forall. apply split_single, squeeze_spaces_single.
Qed.

End CleanTextFacts.

(** ** The earlier converter *)

Module ConverterFacts.
Import PyStr Model RunSpec ExtraSpec Converter.
Import DictFacts LedgerFacts FolderFacts StringMoreFacts NamingFacts WorldFacts.

Lemma process_documents_spec (cfg : Config.Config) (env : FS.Env)
    (document_files : list FS.Path) :
  forall acc r w,
  exists contents r',
    _process_documents cfg env document_files acc r w
    = (Py.Returns (contents, r'), FS.mkWorld (FS.files w) (FS.calls w ++ document_files))
    /\ processed_folders r' = processed_folders r.
Proof.
  induction document_files as [|p rest IH]; intros acc r w; simpl.
  - exists acc, r. unfold FS.ret. rewrite app_nil_r. now destruct w.
  - unfold FS.bind, FS.log_call.
    destruct (FS.transform env p) as [md|];
      match goal with
      | |- context [_process_documents cfg env rest ?a ?r0 ?w0] =>
          destruct (IH a r0 w0) as (contents & r' & -> & Hp)
      end;
      exists contents, r'; simpl; now rewrite <- app_assoc.
Qed.

Lemma save_grows (env : FS.Env) (contents : list string) (p : FS.Path) (folder_name : string)
    (w : FS.World) :
  grows (FS.parent p) (FS.files w)
    (FS.files (snd (_save_combined_markdown env contents p folder_name w))).
Proof.
  unfold _save_combined_markdown, FS.bind, FS.get_files.
  destruct (FS.can_open env (FS.files w) p && FS.write_text_ok env p);
    [|apply grows_refl].
  simpl. apply store_grows.
Qed.

Lemma save_returns (env : FS.Env) (contents : list string) (p : FS.Path)
    (folder_name : string) (w w' : FS.World) (u : unit) :
  _save_combined_markdown env contents p folder_name w = (Py.Returns u, w') ->
  In (FS.name p) (entry_names (FS.files w') (FS.parent p)).
Proof.
  unfold _save_combined_markdown, FS.bind, FS.get_files.
  destruct (FS.can_open env (FS.files w) p && FS.write_text_ok env p); [|discriminate].
  unfold FS.set_files. intros [= _ <-]. cbn [FS.files]. unfold entry_names.
  rewrite listdir_store. apply put_file_named.
Qed.

(** What one round of the loop keeps. *)
Lemma convert_folder_keeps (cfg : Config.Config) (env : FS.Env) (stamp : string -> string)
    (exports_path output_name : string) (item : string * list FS.Path)
    (r : ConversionResult) (w : FS.World) :
  let '(o, r', w') := convert_folder cfg env stamp exports_path output_name item r w in
  success r' = success r
  /\ grows exports_path (FS.files w) (FS.files w')
  /\ (forall f l, In (f, l) (processed_folders r') ->
        In (f, l) (processed_folders r) \/ (f = fst item /\ l = []))
  /\ (forall f, In f (Dict.keys (processed_folders r')) ->
        In f (Dict.keys (processed_folders r))
        \/ (f = fst item
            /\ (f <> "_root" ->
                Utils.check_folder_already_converted (FS.files w') f exports_path = true))).
Proof.
  destruct item as [f fl]. unfold convert_folder.
  destruct (Config.SKIP_ALREADY_CONVERTED cfg
            && Utils.check_folder_already_converted (FS.files w) f exports_path).
  { destruct (Utils.get_existing_converted_files (FS.files w) f exports_path);
      simpl; repeat split; auto using grows_refl. }
  destruct (process_documents_spec cfg env fl [] new_result w) as (contents & fr & -> & Hfr).
  destruct contents as [|c contents].
  { simpl; repeat split; auto using grows_refl. }
  set (p := FS.mkPath exports_path
              (if String.eqb f "_root" then output_name
               else UtilsText.generate_timestamp_filename (stamp f) f ".md")).
  pose proof (save_grows env (c :: contents) p f
                (FS.mkWorld (FS.files w) (FS.calls w ++ fl))) as Hg.
  destruct (_save_combined_markdown env (c :: contents) p f
              (FS.mkWorld (FS.files w) (FS.calls w ++ fl))) as [[u|e] w2] eqn:Hs.
  - simpl in *. split; [reflexivity|]. split; [exact Hg|]. split.
    + intros g l Hin. apply DiscoverMoreFacts.in_set in Hin.
      destruct Hin as [[-> ->]|Hin]; [right|now left].
      split; [reflexivity|]. unfold processed_files. now rewrite Hfr.
    + intros g Hin. apply DiscoverMoreFacts.in_keys_set in Hin.
      destruct Hin as [Hin| ->]; [now left|right]. split; [reflexivity|].
      intros Hroot. apply save_returns in Hs. simpl in Hs.
      unfold entry_names in Hs. apply in_map_iff in Hs. destruct Hs as (n & Hn & Hin).
      apply (matching_entry_converted _ f exports_path n Hin).
      rewrite Hn. unfold p. simpl.
      destruct (String.eqb f "_root") eqn:E; [apply String.eqb_eq in E; contradiction|].
      unfold UtilsText.generate_timestamp_filename.
      rewrite <- (LoopFacts.append_assoc (Utils.sanitize_filename f) "_").
      apply affix_matches.
  - simpl in *. split; [reflexivity|]. split; [exact Hg|]. split; auto.
Qed.

Lemma convert_folders_keeps (cfg : Config.Config) (env : FS.Env) (stamp : string -> string)
    (exports_path output_name : string) (items : Dict.dict (list FS.Path)) :
  forall r w,
    let '(o, r', w') := convert_folders cfg env stamp exports_path output_name items r w in
    success r' = success r
    /\ grows exports_path (FS.files w) (FS.files w')
    /\ ((forall f l, In (f, l) (processed_folders r) -> l = []) ->
        forall f l, In (f, l) (processed_folders r') -> l = [])
    /\ ((forall f, In f (Dict.keys (processed_folders r)) -> f <> "_root" ->
           Utils.check_folder_already_converted (FS.files w) f exports_path = true) ->
        forall f, In f (Dict.keys (processed_folders r')) -> f <> "_root" ->
          Utils.check_folder_already_converted (FS.files w') f exports_path = true).
Proof.
  induction items as [|item rest IH]; intros r w; simpl.
  - repeat split; auto using grows_refl.
  - pose proof (convert_folder_keeps cfg env stamp exports_path output_name item r w) as H1.
    destruct (convert_folder cfg env stamp exports_path output_name item r w)
      as [[[e|] r1] w1]; destruct H1 as (S1 & G1 & E1 & C1).
    + split; [exact S1|]. split; [exact G1|]. split.
      * intros Hall f l Hin. destruct (E1 f l Hin) as [H|[_ H]]; eauto.
      * intros Hall f Hin Hroot. destruct (C1 f Hin) as [H|[_ H]]; auto.
        eapply check_grows; eauto.
    + specialize (IH r1 w1).
      destruct (convert_folders cfg env stamp exports_path output_name rest r1 w1)
        as [[o r2] w2]; destruct IH as (S2 & G2 & E2 & C2).
      split; [congruence|]. split; [eapply grows_trans; eauto|]. split.
      * intros Hall. apply E2. intros f l Hin. destruct (E1 f l Hin) as [H|[_ H]]; eauto.
      * intros Hall. apply C2. intros f Hin Hroot. destruct (C1 f Hin) as [H|[_ H]]; auto.
        eapply check_grows; eauto.
Qed.

(** The earlier [convert] never raises and never reports success: every call
    returns a result with [success] false and an error message, because when
    the loop over the folders ends the summary report is called with one
    argument too many, before [success] is assigned. *)
Theorem legacy_convert_never_succeeds (cfg : Config.Config) (env : FS.Env)
    (stamp : string -> string) (imports_dir exports_dir output_filename : option string)
    (w : FS.World) :
  exists r w',
    convert cfg env stamp imports_dir exports_dir output_filename w = (Py.Returns r, w')
    /\ success r = false
    /\ error_message r <> None.
Proof.
  unfold convert.
  destruct (Utils.discover_processing_folders _ _) as [pm|e].
  2:{ do 2 eexists. split; [reflexivity|]. simpl. split; [reflexivity | discriminate]. }
  destruct (FS.mkdir env _ w) as [[u|e] w0].
  2:{ do 2 eexists. split; [reflexivity|]. simpl. split; [reflexivity | discriminate]. }
  match goal with
  | |- context [convert_folders cfg env stamp ?ep ?on pm new_result w0] =>
      pose proof (convert_folders_keeps cfg env stamp ep on pm new_result w0) as H;
      destruct (convert_folders cfg env stamp ep on pm new_result w0) as [[[e|] r1] w1]
  end; destruct H as (S1 & _);
    do 2 eexists; (split; [reflexivity|]); simpl; (split; [exact S1 | discriminate]).
Qed.

(** When discovery fails, the earlier [convert] returns a result that carries
    the discovery error as its message and nothing else, and it leaves the
    world as it was: the output directory is not created. *)
Theorem legacy_convert_reports_discovery_failure (cfg : Config.Config) (env : FS.Env)
    (stamp : string -> string) (imports_dir exports_dir output_filename : option string)
    (w : FS.World) (e : Py.exn) :
  Utils.discover_processing_folders (FS.files w) (imports_path_of cfg imports_dir)
  = Py.Raises e ->
  exists r,
    convert cfg env stamp imports_dir exports_dir output_filename w = (Py.Returns r, w)
    /\ error_message r = Some (Validation.str_of_exn e)
    /\ success r = false
    /\ output_files r = [] /\ processed_folders r = [] /\ skipped_folders r = []
    /\ failed_files r = [].
Proof.
  unfold imports_path_of. intros Hd. unfold convert. rewrite Hd.
  eexists. split; [reflexivity|]. repeat split.
Qed.

(** The earlier [convert] never records the name of a file it converted: every
    entry of [processed_folders] is an empty list, since the names are
    appended to a list that the [processed_files] property builds afresh. *)
Theorem legacy_convert_records_no_processed_name (cfg : Config.Config) (env : FS.Env)
    (stamp : string -> string) (imports_dir exports_dir output_filename : option string)
    (w w' : FS.World) (r : ConversionResult) (f : string) (l : list string) :
  convert cfg env stamp imports_dir exports_dir output_filename w = (Py.Returns r, w') ->
  In (f, l) (processed_folders r) -> l = [].
Proof.
  unfold convert.
  destruct (Utils.discover_processing_folders _ _) as [pm|e].
  2:{ intros [= <- _] []. }
  destruct (FS.mkdir env _ w) as [[u|e] w0].
  2:{ intros [= <- _] []. }
  match goal with
  | |- context [convert_folders cfg env stamp ?ep ?on pm new_result w0] =>
      pose proof (convert_folders_keeps cfg env stamp ep on pm new_result w0) as H;
      destruct (convert_folders cfg env stamp ep on pm new_result w0) as [[[e|] r1] w1]
  end; destruct H as (_ & _ & E1 & _);
    intros [= <- _]; simpl; apply E1; intros g l' [].
Qed.

(** A folder that the earlier [convert] wrote an artifact for is recognised
    by the ledger afterwards: for every key of [processed_folders] other than
    ["_root"] the ledger reports the folder as converted in the file system
    that the call leaves. *)
Theorem legacy_convert_marks_folders_converted (cfg : Config.Config) (env : FS.Env)
    (stamp : string -> string) (imports_dir exports_dir output_filename : option string)
    (w w' : FS.World) (r : ConversionResult) (f : string) :
  convert cfg env stamp imports_dir exports_dir output_filename w = (Py.Returns r, w') ->
  In f (Dict.keys (processed_folders r)) -> f <> "_root" ->
  Utils.check_folder_already_converted (FS.files w') f (exports_path_of cfg exports_dir)
  = true.
Proof.
  unfold convert, exports_path_of.
  destruct (Utils.discover_processing_folders _ _) as [pm|e].
  2:{ intros [= <- _] []. }
  destruct (FS.mkdir env _ w) as [[u|e] w0].
  2:{ intros [= <- _] []. }
  match goal with
  | |- context [convert_folders cfg env stamp ?ep ?on pm new_result w0] =>
      pose proof (convert_folders_keeps cfg env stamp ep on pm new_result w0) as H;
      destruct (convert_folders cfg env stamp ep on pm new_result w0) as [[[e|] r1] w1]
  end; destruct H as (_ & _ & _ & C1);
    intros [= <- <-]; simpl; apply C1; intros g [].
Qed.

End ConverterFacts.

(** ** The further properties on concrete trees *)

(** * The command line *)

Module MainFacts.
Import PyStr Model Orchestrator RunSpec ExtraSpec Main.
Import DictFacts LoopFacts FolderFacts RunFacts WorldFacts ResultFacts ValidationFacts.

(** The three ways in which the validation ends. *)
Lemma validation_cases (cfg : Config.Config) (env : FS.Env) (w : FS.World) :
  (FS.exists_dir (FS.files w) (Config.IMPORTS_DIR cfg) = false
   /\ exists v, Validation.validate_configuration cfg env w = (Py.Returns v, w)
                /\ Validation.valid v = false)
  \/ (FS.exists_dir (FS.files w) (Config.IMPORTS_DIR cfg) = true
      /\ exists v w1,
           Validation.validate_configuration cfg env w = (Py.Returns v, w1)
           /\ ((FS.mkdir env (Config.EXPORTS_DIR cfg) w = (Py.Returns tt, w1)
                /\ Validation.valid v = true)
               \/ (Validation.valid v = false
                   /\ exists e, FS.mkdir env (Config.EXPORTS_DIR cfg) w = (Py.Raises e, w1)))).
Proof.
  unfold Validation.validate_configuration.
  set (v0 := if FS.exists_dir (FS.files w) (Config.IMPORTS_DIR cfg) then _ else _).
  assert (Hv0 : Validation.valid v0 = true).
  { unfold v0. destruct (FS.exists_dir (FS.files w) (Config.IMPORTS_DIR cfg)); reflexivity. }
  destruct (check_documents_cases (FS.files w) cfg v0)
    as [[Hd (msg & ->)]|[Hd (v1 & -> & Hv & He)]].
  - left. split; [exact Hd|]. eexists. split; reflexivity.
  - right. split; [exact Hd|].
    destruct (FS.mkdir env (Config.EXPORTS_DIR cfg) w) as [[[]|exc] w1].
    + exists v1, w1. split; [reflexivity|]. left. split; [reflexivity | congruence].
    + do 2 eexists. split; [reflexivity|]. right. split; [reflexivity | eauto].
Qed.

Lemma mkdir_returns_exists (env : FS.Env) (dir : string) (w w1 : FS.World) :
  FS.mkdir env dir w = (Py.Returns tt, w1) ->
  FS.exists_dir (FS.files w1) dir = true
  /\ forall d, FS.exists_dir (FS.files w) d = true -> FS.exists_dir (FS.files w1) d = true.
Proof.
  intros H. split.
  - revert H. unfold FS.mkdir.
    destruct (FS.exists_dir (FS.files w) dir) eqn:E; [intros [= <-]; exact E|].
    destruct (FS.mkdir_ok env dir); [|discriminate].
    intros [= <-]. simpl. unfold FS.exists_dir. now rewrite get_set_same.
  - pose proof (mkdir_grows env dir w) as (_ & G & _). rewrite H in G. exact G.
Qed.

(** Building the configuration again changes nothing once both of its
    directories exist. *)
Lemma post_init_noop (env : FS.Env) (cfg : Config.Config) (w : FS.World) :
  FS.exists_dir (FS.files w) (Config.IMPORTS_DIR cfg) = true ->
  FS.exists_dir (FS.files w) (Config.EXPORTS_DIR cfg) = true ->
  post_init env (without_ocr cfg) w = (Py.Returns tt, w).
Proof.
  intros H1 H2. unfold post_init, FS.bind, FS.mkdir. simpl. now rewrite H1, H2.
Qed.

(** With both directories of the configuration in place, [main] is the run
    on the directories of the command line. *)
Lemma main_converting (cfg : Config.Config) (env : FS.Env) (args : Args) (w w1 : FS.World) :
  list_files args = false -> validate args = false ->
  FS.exists_dir (FS.files w) (Config.IMPORTS_DIR cfg) = true ->
  FS.mkdir env (Config.EXPORTS_DIR cfg) w = (Py.Returns tt, w1) ->
  main cfg env args w
  = match run (run_config cfg args) env
            (Some (imports args)) (Some (exports args)) (Some (output args)) w1 with
    | (Py.Returns r, w2) => (exit_code (success r), w2)
    | (Py.Raises _, w2) => (1%Z, w2)
    end.
Proof.
  intros Hl Hv Hi Hm. unfold main, main_body. rewrite Hl, Hv.
  destruct (validation_cases cfg env w) as [[Hd _]|[_ (v & w1' & Hval & Hc)]]; [congruence|].
  destruct Hc as [[Hm' Hvalid]|[_ (e & Hm')]]; [|congruence].
  assert (w1' = w1) by congruence. subst w1'.
  unfold FS.bind at 1. rewrite Hval, Hvalid. cbn [negb].
  destruct (mkdir_returns_exists _ _ _ _ Hm) as [He Hkeep].
  assert (Hpost : (if no_ocr args then post_init env (without_ocr cfg) else FS.ret tt) w1
                  = (Py.Returns tt, w1)).
  { destruct (no_ocr args); [|reflexivity]. apply post_init_noop; auto. }
  unfold FS.bind at 1. rewrite Hpost.
  unfold FS.bind, convert.
  destruct (run _ _ _ _ _ w1) as [[r|e] w2]; reflexivity.
Qed.

(** Without the imports directory of the configuration nothing is run. *)
Lemma main_without_imports (cfg : Config.Config) (env : FS.Env) (args : Args) (w : FS.World) :
  list_files args = false ->
  FS.exists_dir (FS.files w) (Config.IMPORTS_DIR cfg) = false ->
  main cfg env args w = (1%Z, w).
Proof.
  intros Hl Hd. unfold main, main_body. rewrite Hl.
  destruct (validation_cases cfg env w) as [[_ (v & Hval & Hv)]|[Hd' _]]; [|congruence].
  destruct (validate args).
  - unfold validate_configuration, FS.bind. rewrite Hval. unfold FS.ret. now rewrite Hv.
  - unfold FS.bind at 1. rewrite Hval, Hv. reflexivity.
Qed.

Lemma main_mkdir_fails (cfg : Config.Config) (env : FS.Env) (args : Args) (w w1 : FS.World)
    (e : Py.exn) :
  list_files args = false -> validate args = false ->
  FS.exists_dir (FS.files w) (Config.IMPORTS_DIR cfg) = true ->
  FS.mkdir env (Config.EXPORTS_DIR cfg) w = (Py.Raises e, w1) ->
  main cfg env args w = (1%Z, w1).
Proof.
  intros Hl Hv Hi Hm. unfold main, main_body. rewrite Hl, Hv.
  destruct (validation_cases cfg env w) as [[Hd _]|[_ (v & w1' & Hval & Hc)]]; [congruence|].
  destruct Hc as [[Hm' _]|[Hf (e' & Hm')]]; [congruence|].
  assert (w1' = w1) by congruence. subst w1'.
  unfold FS.bind at 1. now rewrite Hval, Hf.
Qed.

Lemma run_success_iff (cfg : Config.Config) (env : FS.Env)
    (imports_dir exports_dir output_filename : option string) (w w' : FS.World)
    (r : ConversionResult) :
  run cfg env imports_dir exports_dir output_filename w = (Py.Returns r, w') ->
  success r = true <-> output_files r <> [].
Proof.
  intros H. apply run_returns_inv in H.
  destruct H as (pm & r1 & w1 & _ & _ & -> & _). apply finish_success.
Qed.

Lemma run_all_outputs_present (cfg : Config.Config) (env : FS.Env)
    (imports_dir exports_dir output_filename : option string) (w w' : FS.World)
    (r : ConversionResult) :
  run cfg env imports_dir exports_dir output_filename w = (Py.Returns r, w') ->
  outputs_present (exports_path_of cfg exports_dir) r w'.
Proof.
  intros H. apply run_returns_inv in H.
  destruct H as (pm & r1 & w1 & _ & Hloop & -> & _ & ->).
  assert (G : outputs_present (exports_path_of cfg exports_dir) r1 w1).
  { revert Hloop. apply (for_each_both _ (outputs_present (exports_path_of cfg exports_dir))).
    - intros a s w0 s' w0'. apply folder_step_outputs.
    - intros q []. }
  apply (outputs_present_grows _ (finish env r1) w1); [apply report_grows | exact G].
Qed.

(** The exit code of a conversion is 0 or 1, and it is 0 exactly when the
    imports directory of the configuration exists, its exports directory
    exists or can be created, and the run on the directories of the command
    line, started from there, returns a result with an output file: whatever
    the run raises ends as the exit code 1. *)
Theorem main_succeeds_exactly_when_run_does (cfg : Config.Config) (env : FS.Env)
    (args : Args) (w : FS.World) :
  list_files args = false -> validate args = false ->
  (fst (main cfg env args w) = 0%Z \/ fst (main cfg env args w) = 1%Z)
  /\ (fst (main cfg env args w) = 0%Z
      <-> FS.exists_dir (FS.files w) (Config.IMPORTS_DIR cfg) = true
          /\ exists w1 r,
               FS.mkdir env (Config.EXPORTS_DIR cfg) w = (Py.Returns tt, w1)
               /\ run (run_config cfg args) env
                    (Some (imports args)) (Some (exports args)) (Some (output args)) w1
                  = (Py.Returns r, snd (main cfg env args w))
               /\ output_files r <> []).
Proof.
  intros Hl Hv.
  destruct (FS.exists_dir (FS.files w) (Config.IMPORTS_DIR cfg)) eqn:Hi.
  2:{ rewrite (main_without_imports cfg env args w Hl Hi). simpl.
      split; [now right|]. split; [discriminate | intros [H _]; discriminate]. }
  destruct (FS.mkdir env (Config.EXPORTS_DIR cfg) w) as [[[]|e] w1] eqn:Hm.
  2:{ rewrite (main_mkdir_fails cfg env args w w1 e Hl Hv Hi Hm). simpl.
      split; [now right|]. split; [discriminate|].
      intros [_ (w1' & r & H & _)]. discriminate. }
  rewrite (main_converting cfg env args w w1 Hl Hv Hi Hm).
  destruct (run (run_config cfg args) env _ _ _ w1) as [[r|e] w2] eqn:Hrun; simpl.
  - pose proof (run_success_iff _ _ _ _ _ _ _ _ Hrun) as Hs.
    destruct (success r); simpl.
    + split; [now left|]. split; [|reflexivity].
      intros _. split; [reflexivity|]. exists w1, r.
      split; [reflexivity|]. split; [exact Hrun|]. now apply Hs.
    + split; [now right|]. split; [discriminate|].
      intros [_ (w1' & r' & E1 & E2 & Hne)]. injection E1 as <-.
      rewrite Hrun in E2. injection E2 as <-. apply Hs in Hne. discriminate.
  - split; [now right|]. split; [discriminate|].
    intros [_ (w1' & r' & E1 & E2 & _)]. injection E1 as <-.
    rewrite Hrun in E2. discriminate.
Qed.

(** When [--output] is a file name, with no slash in it, [main] changes the
    listing of no directory other than the exports directory of the
    configuration and the exports directory of the command line, whatever the
    other options and however it ends: the former is ensured by the
    validation even when [--exports] names another.  An [--output] with a
    slash is not covered: it is passed on to the run as it is, and the join
    resolves it to another directory. *)
Theorem main_writes_only_to_exports_directories (cfg : Config.Config) (env : FS.Env)
    (args : Args) (w : FS.World) (d : string) :
  single_component (output args) = true ->
  d <> Config.EXPORTS_DIR cfg -> d <> exports args ->
  Dict.get (FS.files (snd (main cfg env args w))) d = Dict.get (FS.files w) d.
Proof.
  intros _ Hd1 Hd2.
  destruct (list_files args) eqn:Hl.
  { unfold main, main_body. rewrite Hl. reflexivity. }
  destruct (FS.exists_dir (FS.files w) (Config.IMPORTS_DIR cfg)) eqn:Hi.
  2:{ now rewrite (main_without_imports cfg env args w Hl Hi). }
  pose proof (mkdir_grows env (Config.EXPORTS_DIR cfg) w) as (Gm & _).
  specialize (Gm d Hd1).
  destruct (validate args) eqn:Hv.
  { unfold main, main_body. rewrite Hl, Hv. unfold validate_configuration, FS.bind.
    destruct (validation_cases cfg env w) as [[Hd _]|[_ (v & w1 & Hval & Hc)]]; [congruence|].
    rewrite Hval. simpl.
    destruct Hc as [[Hm _]|[_ (e & Hm)]]; rewrite Hm in Gm; exact Gm. }
  destruct (FS.mkdir env (Config.EXPORTS_DIR cfg) w) as [[[]|e] w1] eqn:Hm.
  - rewrite (main_converting cfg env args w w1 Hl Hv Hi Hm).
    pose proof (run_grows (run_config cfg args) env (Some (imports args))
                  (Some (exports args)) (Some (output args)) w1) as (Gr & _).
    specialize (Gr d Hd2). simpl in Gm. rewrite <- Gm, <- Gr.
    destruct (run (run_config cfg args) env _ _ _ w1) as [[r|e] w2]; reflexivity.
  - rewrite (main_mkdir_fails cfg env args w w1 e Hl Hv Hi Hm). exact Gm.
Qed.

End MainFacts.

Module ExtraScenarioFacts.
Import PyStr Model Orchestrator RunSpec DiscoverSpec ExtraSpec Scenarios ExtraScenarios.
Import NamingFacts DiscoverMoreFacts ValidationFacts WorldFacts ResultFacts ConverterFacts.
Import MainFacts.

Lemma sanitize_filename_last_component_witness :
  all_chars (fun a => negb (Ascii.eqb a "/")) "My File.pdf" = true
  /\ Utils.sanitize_filename (PurePath.join_path "imports/reports" "My File.pdf")
     = Utils.sanitize_filename "My File.pdf".
Proof.
  split; [reflexivity|].
  apply (sanitize_filename_last_component "imports/reports" "My File.pdf");
    [reflexivity | discriminate | discriminate].
Defined.

Lemma timestamped_artifact_is_recognised_witness :
  FS.node_name earlier_artifact
  = UtilsText.generate_timestamp_filename (midnight "reports") "reports" ".md"
  /\ Utils.check_folder_already_converted [("exports", [earlier_artifact])] "reports" "exports"
     = true
  /\ In (FS.mkPath "exports" (FS.node_name earlier_artifact))
        (Utils.get_existing_converted_files [("exports", [earlier_artifact])] "reports"
           "exports").
Proof.
  split; [reflexivity|].
  apply (timestamped_artifact_is_recognised [("exports", [earlier_artifact])]
           "reports" "exports" (midnight "reports") earlier_artifact);
    [now left | reflexivity].
Defined.

Lemma ledger_accepts_longer_folder_names_witness :
  startswith "reports_old" (Utils.sanitize_filename "reports" +++ "_") = true
  /\ Utils.check_folder_already_converted [("exports", [longer_artifact])] "reports" "exports"
     = true.
Proof.
  split; [reflexivity|].
  apply (ledger_accepts_longer_folder_names [("exports", [longer_artifact])]
           "reports" "reports_old" "exports" longer_artifact);
    [now left | reflexivity | reflexivity].
Defined.

Lemma discovered_groups_are_sound_witness :
  Utils.discover_processing_folders [("imports", tree)] "imports"
  = Py.Returns (processing_map_of "imports" tree)
  /\ In ("reports", [q_pdf]) (processing_map_of "imports" tree)
  /\ [q_pdf] <> []
  /\ forall p, In p [q_pdf] ->
       supported_name (FS.name p) = true
       /\ located "imports" (FS.listdir [("imports", tree)] "imports") p.
Proof.
  split; [reflexivity|]. split; [right; now left|].
  apply (discovered_groups_are_sound [("imports", tree)] "imports"
           (processing_map_of "imports" tree) "reports" [q_pdf]);
    [reflexivity | right; now left].
Defined.

Lemma discovered_folder_names_witness :
  Utils.discover_processing_folders [("imports", tree)] "imports"
  = Py.Returns (processing_map_of "imports" tree)
  /\ NoDup (Dict.keys (processing_map_of "imports" tree))
  /\ (forall k, In k (Dict.keys (processing_map_of "imports" tree)) ->
        startswith k "." = false).
Proof.
  split; [reflexivity|].
  destruct (discovered_folder_names [("imports", tree)] "imports"
              (processing_map_of "imports" tree) eq_refl) as (H1 & H2 & _).
  split; assumption.
Defined.

Lemma discovered_groups_are_sorted_witness :
  In ("_root", [FS.mkPath "imports" "a.pdf"; FS.mkPath "imports" "b.pdf"])
     (processing_map_of "imports" tree)
  /\ StronglySorted name_le [FS.mkPath "imports" "a.pdf"; FS.mkPath "imports" "b.pdf"].
Proof.
  split; [now left|].
  apply (discovered_groups_are_sorted [("imports", tree)] "imports"
           (processing_map_of "imports" tree) "_root");
    [reflexivity | now left].
Defined.

Lemma validate_configuration_never_counts_zero_witness :
  exists v w',
    Validation.validate_configuration Config.config (steady []) (fresh tree)
    = (Py.Returns v, w')
    /\ ~ In Validation.no_documents_warning (Validation.warnings v)
    /\ (forall n, Dict.get (Validation.info v) "supported_files_found" = Some n -> (0 < n)%Z).
Proof.
  assert (H : exists v w',
             Validation.validate_configuration Config.config (steady []) (fresh tree)
             = (Py.Returns v, w')).
  { do 2 eexists. vm_compute. reflexivity. }
  destruct H as (v & w' & H). exists v, w'. split; [exact H|].
  exact (validate_configuration_never_counts_zero Config.config (steady []) (fresh tree)
           w' v H).
Defined.

Lemma run_writes_only_to_exports_witness :
  names_a_file (Some "combined_root.md") = true
  /\ "imports" <> exports_path_of Config.config None
  /\ Dict.get
       (FS.files (snd (run Config.config (steady []) None None (Some "combined_root.md")
                         (fresh tree)))) "imports"
     = Dict.get (FS.files (fresh tree)) "imports".
Proof.
  split; [reflexivity|]. split; [discriminate|].
  apply (run_writes_only_to_exports Config.config (steady []) None None
           (Some "combined_root.md") (fresh tree) "imports").
  - reflexivity.
  - discriminate.
Defined.

Lemma run_never_unconverts_witness :
  Utils.check_folder_already_converted
    (FS.files (with_exports reports_only [earlier_artifact])) "reports"
    (exports_path_of Config.config None) = true
  /\ Utils.check_folder_already_converted
       (FS.files (snd (run no_skip (steady []) None None (Some "combined_root.md")
                         (with_exports reports_only [earlier_artifact]))))
       "reports" (exports_path_of no_skip None) = true.
Proof.
  split; [reflexivity|].
  apply (run_never_unconverts no_skip (steady []) None None (Some "combined_root.md")
           (with_exports reports_only [earlier_artifact]) "reports").
  reflexivity.
Defined.

Lemma run_transforms_discovered_files_only_witness :
  Utils.discover_processing_folders
    (files_after_mkdir (steady []) (exports_path_of Config.config None) (fresh tree))
    (imports_path_of Config.config None) = Py.Returns (processing_map_of "imports" tree)
  /\ exists cs,
       FS.calls (snd (run Config.config (steady []) None None (Some "combined_root.md")
                        (fresh tree)))
       = FS.calls (fresh tree) ++ cs
       /\ incl cs (flat_map snd (processing_map_of "imports" tree)).
Proof.
  split; [reflexivity|].
  apply (run_transforms_discovered_files_only Config.config (steady []) None None
           (Some "combined_root.md") (fresh tree) (processing_map_of "imports" tree)).
  reflexivity.
Defined.

Lemma run_accounts_for_every_call_witness :
  exists r w',
    run Config.config (steady [FS.mkPath "imports" "b.pdf"]) None None
      (Some "combined_root.md") (fresh tree)
    = (Py.Returns r, w')
    /\ length (processed_files r) + length (failed_files r) + length (FS.calls (fresh tree))
       = length (FS.calls w').
Proof.
  assert (H : exists r w',
             run Config.config (steady [FS.mkPath "imports" "b.pdf"]) None None
               (Some "combined_root.md") (fresh tree)
             = (Py.Returns r, w')).
  { do 2 eexists. vm_compute. reflexivity. }
  destruct H as (r & w' & H). exists r, w'. split; [exact H|].
  exact (run_accounts_for_every_call Config.config (steady [FS.mkPath "imports" "b.pdf"])
           None None (Some "combined_root.md") (fresh tree) w' r H).
Defined.

Lemma run_without_skipping_skips_nothing_witness :
  exists r w',
    Config.SKIP_ALREADY_CONVERTED no_skip = false
    /\ run no_skip (steady []) None None (Some "combined_root.md")
         (with_exports reports_only [earlier_artifact])
       = (Py.Returns r, w')
    /\ skipped_folders r = [].
Proof.
  assert (H : exists r w',
             run no_skip (steady []) None None (Some "combined_root.md")
               (with_exports reports_only [earlier_artifact])
             = (Py.Returns r, w')).
  { do 2 eexists. vm_compute. reflexivity. }
  destruct H as (r & w' & H). exists r, w'. split; [reflexivity|]. split; [exact H|].
  exact (run_without_skipping_skips_nothing no_skip (steady []) None None
           (Some "combined_root.md") (with_exports reports_only [earlier_artifact])
           w' r eq_refl H).
Defined.

Lemma run_outputs_are_present_witness :
  exists r w',
    run Config.config (steady []) None None (Some "combined_root.md") (fresh tree)
    = (Py.Returns r, w')
    /\ In (FS.mkPath "exports" "reports.md") (output_files r)
    /\ In "reports.md" (entry_names (FS.files w') (exports_path_of Config.config None)).
Proof.
  assert (H : exists r w',
             run Config.config (steady []) None None (Some "combined_root.md") (fresh tree)
             = (Py.Returns r, w')
             /\ In (FS.mkPath "exports" "reports.md") (output_files r)).
  { do 2 eexists. split; [vm_compute; reflexivity|]. right. now left. }
  destruct H as (r & w' & H & Hin). exists r, w'. split; [exact H|]. split; [exact Hin|].
  exact (proj2 (run_outputs_are_present Config.config (steady []) None None
                  (Some "combined_root.md") (fresh tree) w' r
                  (FS.mkPath "exports" "reports.md") H Hin)).
Defined.

Lemma summary_report_marks_processing_converted_witness :
  exists r w',
    run Config.config (steady []) None None (Some "combined_root.md") (fresh tree)
    = (Py.Returns r, w')
    /\ Utils.check_folder_already_converted (FS.files w') "processing"
         (exports_path_of Config.config None) = true.
Proof.
  assert (H : exists r w',
             run Config.config (steady []) None None (Some "combined_root.md") (fresh tree)
             = (Py.Returns r, w')).
  { do 2 eexists. vm_compute. reflexivity. }
  destruct H as (r & w' & H). exists r, w'. split; [exact H|].
  exact (summary_report_marks_processing_converted Config.config (steady []) None None
           (Some "combined_root.md") (fresh tree) w' r H).
Defined.

Lemma legacy_convert_reports_discovery_failure_witness :
  Utils.discover_processing_folders (FS.files (FS.mkWorld [] []))
    (imports_path_of Config.config None)
  = Py.Raises (Py.FileNotFoundError "Imports directory not found: imports")
  /\ exists r,
       Converter.convert Config.config (steady []) midnight None None None (FS.mkWorld [] [])
       = (Py.Returns r, FS.mkWorld [] [])
       /\ error_message r = Some "Imports directory not found: imports".
Proof.
  split; [reflexivity|].
  destruct (legacy_convert_reports_discovery_failure Config.config (steady []) midnight
              None None None (FS.mkWorld [] [])
              (Py.FileNotFoundError "Imports directory not found: imports") eq_refl)
    as (r & H & He & _).
  exists r. split; assumption.
Defined.

Lemma legacy_convert_records_no_processed_name_witness :
  exists r w',
    Converter.convert Config.config (steady []) midnight None None None (fresh reports_only)
    = (Py.Returns r, w')
    /\ In ("reports", []) (processed_folders r)
    /\ FS.calls w' = [q_pdf].
Proof.
  assert (H : exists r w',
             Converter.convert Config.config (steady []) midnight None None None
               (fresh reports_only)
             = (Py.Returns r, w')
             /\ (exists l, In ("reports", l) (processed_folders r))
             /\ FS.calls w' = [q_pdf]).
  { do 2 eexists. split; [vm_compute; reflexivity|]. split; [|reflexivity].
    eexists. now left. }
  destruct H as (r & w' & H & (l & Hin) & Hc). exists r, w'.
  split; [exact H|]. split; [|exact Hc].
  rewrite <- (legacy_convert_records_no_processed_name Config.config (steady []) midnight
                None None None (fresh reports_only) w' r "reports" l H Hin).
  exact Hin.
Defined.

Lemma legacy_convert_marks_folders_converted_witness :
  exists r w',
    Converter.convert Config.config (steady []) midnight None None None (fresh reports_only)
    = (Py.Returns r, w')
    /\ In "reports" (Dict.keys (processed_folders r))
    /\ "reports" <> "_root"
    /\ Utils.check_folder_already_converted (FS.files w') "reports"
         (exports_path_of Config.config None) = true.
Proof.
  assert (H : exists r w',
             Converter.convert Config.config (steady []) midnight None None None
               (fresh reports_only)
             = (Py.Returns r, w')
             /\ In "reports" (Dict.keys (processed_folders r))).
  { do 2 eexists. split; [vm_compute; reflexivity|]. now left. }
  destruct H as (r & w' & H & Hin). exists r, w'.
  split; [exact H|]. split; [exact Hin|].
  assert (Hne : "reports" <> "_root") by discriminate.
  split; [exact Hne|].
  exact (legacy_convert_marks_folders_converted Config.config (steady []) midnight
           None None None (fresh reports_only) w' r "reports" H Hin Hne).
Defined.

Lemma main_succeeds_exactly_when_run_does_witness :
  (fst (Main.main Config.config (steady []) docs_args docs_beside) = 0%Z
   \/ fst (Main.main Config.config (steady []) docs_args docs_beside) = 1%Z)
  /\ (fst (Main.main Config.config (steady []) docs_args docs_beside) = 0%Z
      <-> FS.exists_dir (FS.files docs_beside) (Config.IMPORTS_DIR Config.config) = true
          /\ exists w1 r,
               FS.mkdir (steady []) (Config.EXPORTS_DIR Config.config) docs_beside
               = (Py.Returns tt, w1)
               /\ run (Main.run_config Config.config docs_args) (steady [])
                    (Some (Main.imports docs_args)) (Some (Main.exports docs_args))
                    (Some (Main.output docs_args)) w1
                  = (Py.Returns r, snd (Main.main Config.config (steady []) docs_args docs_beside))
               /\ output_files r <> []).
Proof.
  exact (main_succeeds_exactly_when_run_does Config.config (steady []) docs_args docs_beside
           eq_refl eq_refl).
Defined.

Lemma main_writes_only_to_exports_directories_witness :
  single_component (Main.output docs_args) = true
  /\ "docs" <> Config.EXPORTS_DIR Config.config /\ "docs" <> Main.exports docs_args
  /\ Dict.get (FS.files (snd (Main.main Config.config (steady []) docs_args docs_beside))) "docs"
     = Dict.get (FS.files docs_beside) "docs".
Proof.
  split; [reflexivity|]. split; [discriminate|]. split; [discriminate|].
  apply (main_writes_only_to_exports_directories Config.config (steady []) docs_args
           docs_beside "docs"); [reflexivity | discriminate | discriminate].
Defined.

End ExtraScenarioFacts.
